(** * cospend-cli: cache store, resolver, symbol table and list filters

    A shallow embedding of the caching, resolution and filtering core of
    cospend-cli (packages [internal/cache], [internal/api] and [cmd]) and the
    properties of it that the specification states.

    Conventions of the embedding:
    - a Go [int] or [int64] is a [Z]; where the program does arithmetic on it
      the 64-bit wrap-around is written out ([wrap64]);
    - a Go [string] is a [string] of bytes, so a literal such as the euro sign
      is its UTF-8 encoding, [len] is [String.length] and the comparison
      operators are the byte-wise lexicographic order of [String.compare];
    - a Go slice is an [option (list _)]: [None] is the nil slice, and
      [elems] gives the sequence a [range] loop visits;
    - a [(T, error)] result is a [result T]; the error carries its message;
    - the functions of Go's standard library whose exact behaviour depends on
      Unicode tables, on floating-point parsing or on the operating system are
      the fields of the class [GoStd]; every theorem holds for every instance,
      and [ascii_std] is the instance used for the worked examples. *)

From Stdlib Require Import ZArith Lia List String Ascii Bool Floats Uint63.
From Stdlib Require Import DecimalString DecimalZ.
From stdpp Require Import base option list gmap strings sorting.

Local Open Scope Z_scope.

(** ** Results and slices *)

Inductive result (A : Type) : Type :=
| Ok (a : A)
| Err (msg : string).
Arguments Ok {A} a.
Arguments Err {A} msg.

Definition is_ok {A} (r : result A) : bool :=
  match r with Ok _ => true | Err _ => false end.

Definition slice (A : Type) : Type := option (list A).

Definition elems {A} (s : slice A) : list A := default [] s.

(** ** Integers *)

Definition min_int : Z := - 2 ^ 63.
Definition max_int : Z := 2 ^ 63 - 1.

Definition wrap64 (z : Z) : Z := (z + 2 ^ 63) mod 2 ^ 64 - 2 ^ 63.

(** ** Strings *)

Definition byte_of (c : ascii) : Z := Z.of_nat (nat_of_ascii c).

Definition is_digit (c : ascii) : bool := (48 <=? byte_of c) && (byte_of c <=? 57).

Fixpoint digits_value (acc : Z) (s : string) : option Z :=
  match s with
  | EmptyString => Some acc
  | String c s' =>
      if is_digit c then digits_value (acc * 10 + (byte_of c - 48)) s' else None
  end.

(** [strconv.Atoi]: an optional sign, then one or more decimal digits, and a
    value that fits an [int]; anything else is an error ([None]). *)
Definition Atoi (s : string) : option Z :=
  let '(neg, body) :=
    match s with
    | String "-"%char r => (true, r)
    | String "+"%char r => (false, r)
    | _ => (false, s)
    end in
  match body with
  | EmptyString => None
  | _ =>
      match digits_value 0 body with
      | Some n =>
          let v := if neg then - n else n in
          if (min_int <=? v) && (v <=? max_int) then Some v else None
      | None => None
      end
  end.

(** [strings.Contains]: [substr] occurs in [s] at some byte offset. *)
Fixpoint Contains (s substr : string) : bool :=
  String.prefix substr s
  || match s with
     | EmptyString => false
     | String _ s' => Contains s' substr
     end.

(** [strings.HasPrefix]. *)
Definition HasPrefix (s pfx : string) : bool := String.prefix pfx s.

(** Upper-casing of an ASCII string; [strings.ToUpper] is only ever applied to
    the keys of the currency table, which are ASCII. *)
Definition upper_ascii (c : ascii) : ascii :=
  if (97 <=? byte_of c) && (byte_of c <=? 122)
  then ascii_of_nat (nat_of_ascii c - 32) else c.

Fixpoint ToUpper (s : string) : string :=
  match s with
  | EmptyString => EmptyString
  | String c s' => String (upper_ascii c) (ToUpper s')
  end.

(** [strconv.Itoa] / the verb [%d]. *)
Definition Itoa (z : Z) : string := NilZero.string_of_int (Z.to_int z).

(** ** Local times (package time)

    A [Time] is what the accessors of a [time.Time] in the local zone give:
    the calendar date of [Date()] and the reading of [Clock()], taken as one
    number.  The layouts the program formats a time with look at the date
    only. *)

Record Time : Type := {
  Year : Z;
  Month : Z;
  Day : Z;
  Clock : Z
}.

(** ** The standard-library interface *)

Class GoStd : Type := {
  (** [strings.ToLower] *)
  ToLower : string -> string;
  (** [strings.TrimSpace] *)
  TrimSpace : string -> string;
  (** [strings.EqualFold]-style matching of an object key against a field
      name, as [encoding/json] does when no field matches exactly *)
  EqualFold : string -> string -> bool;
  (** [strconv.ParseFloat(s, 64)]; [None] when it returns an error *)
  ParseFloat : string -> option float;
  (** [filepath.Join] of two elements *)
  filepathJoin : string -> string -> string;
  (** [time.Time.MarshalJSON] for an instant given in nanoseconds since the
      Unix epoch: the quoted RFC 3339 text, [None] when the year is outside
      [0,9999] *)
  timeMarshal : Z -> option string;
  (** [time.Time.UnmarshalJSON] on the content of a JSON string *)
  timeUnmarshal : string -> option Z;
  (** [time.Date(year, month, day, hour, min, sec, nsec, time.Local)], the
      clock reading given as one number, as [Date()] and [Clock()] show the
      result.  It is the date the calendar gives for the arguments
      ([calendar_Date] below) unless the count of seconds leaves 64 bits or
      the wall time does not exist in the local zone, where the result
      depends on the version of the library and on the zone *)
  Date_ : Z -> Z -> Z -> Z -> Time;
  (** [sort.Slice]: the slice after sorting it with the given [less]; the
      order of elements that [less] does not separate is unspecified *)
  sortSlice : forall A : Type, (A -> A -> bool) -> list A -> list A;
  (** the entries of a [map[string]A] in the order a [range] over it yields
      them *)
  mapRange : forall A : Type, gmap string A -> list (string * A);
  (** the text [encoding/json] writes for a Go string: the string itself
      when it is valid UTF-8, else the string with every invalid byte
      replaced by U+FFFD *)
  ToValidUTF8 : string -> string
}.
Arguments sortSlice {_ A} less l.
Arguments mapRange {_ A} m.

(** ** Data model (package api) *)

Record Member : Type := {
  Member_ID : Z;
  Member_Name : string;
  Member_UserID : string;
  Member_Activated : bool
}.

Record Category : Type := {
  Category_ID : Z;
  Category_Name : string;
  Category_Icon : string;
  Category_Color : string
}.

Record PaymentMode : Type := {
  PaymentMode_ID : Z;
  PaymentMode_Name : string;
  PaymentMode_Icon : string;
  PaymentMode_Color : string
}.

Record Currency : Type := {
  Currency_ID : Z;
  Currency_Name : string;
  Currency_ExchangeRate : float
}.

Record Project : Type := {
  Project_ID : string;
  Project_Name : string;
  Project_CurrencyName : string;
  Members : slice Member;
  Categories : slice Category;
  PaymentModes : slice PaymentMode;
  Currencies : slice Currency
}.

Record UserInfo : Type := {
  Locale : string;
  Language : string
}.

Record Ower : Type := {
  Ower_ID : Z;
  Ower_Weight : float
}.

Record BillResponse : Type := {
  Bill_ID : Z;
  What : string;
  Amount : float;
  Date : string;
  PayerID : Z;
  Owers : slice Ower;
  Comment : string;
  PaymentModeID : Z;
  CategoryID : Z;
  Repeat : string;
  Timestamp : Z
}.

(** ** Symbol/code table (package cache) *)

Definition currencyCodeToSymbol_entries : list (string * string) :=
  [ ("aed", "د.إ"); ("afn", "؋"); ("all", "Lek"); ("amd", "դր."); ("ars", "$");
    ("aud", "$"); ("azn", "ман."); ("bam", "KM"); ("bdt", "৳"); ("bgn", "лв.");
    ("bhd", "د.ب."); ("bif", "FBu"); ("bnd", "$"); ("bob", "Bs"); ("brl", "R$");
    ("bwp", "P"); ("byn", "руб."); ("bzd", "$"); ("cad", "$"); ("cdf", "FrCD");
    ("chf", "CHF"); ("clp", "$"); ("cny", "¥"); ("cop", "$"); ("crc", "₡");
    ("cup", "$"); ("cve", "CV$"); ("czk", "Kč"); ("djf", "Fdj"); ("dkk", "kr");
    ("dop", "RD$"); ("dzd", "د.ج."); ("egp", "ج.م."); ("etb", "Br"); ("eur", "€");
    ("gbp", "£"); ("gel", "GEL"); ("ghs", "GH₵"); ("gnf", "FG"); ("gtq", "Q");
    ("hkd", "$"); ("hnl", "L"); ("huf", "Ft"); ("idr", "Rp"); ("ils", "₪");
    ("inr", "₹"); ("iqd", "د.ع."); ("irr", "﷼"); ("isk", "kr"); ("jmd", "$");
    ("jod", "د.أ."); ("jpy", "¥"); ("kes", "Ksh"); ("khr", "៛"); ("kmf", "FC");
    ("krw", "₩"); ("kwd", "د.ك."); ("kzt", "тңг."); ("lbp", "ل.ل."); ("lkr", "Rs");
    ("lyd", "د.ل."); ("mad", "د.م."); ("mdl", "MDL"); ("mga", "MGA"); ("mkd", "MKD");
    ("mmk", "K"); ("mop", "MOP$"); ("mur", "MURs"); ("mxn", "$"); ("myr", "RM");
    ("mzn", "MTn"); ("nad", "N$"); ("ngn", "₦"); ("nio", "C$"); ("nok", "kr");
    ("npr", "Rs"); ("nzd", "$"); ("omr", "ر.ع."); ("pab", "B/."); ("pen", "S/.");
    ("php", "₱"); ("pkr", "₨"); ("pln", "zł"); ("pyg", "₲"); ("qar", "ر.ق.");
    ("ron", "RON"); ("rsd", "дин."); ("rub", "₽"); ("rwf", "FR"); ("sar", "﷼");
    ("sdg", "SDG"); ("sek", "kr"); ("sgd", "$"); ("sos", "Ssh"); ("thb", "฿");
    ("tnd", "د.ت."); ("top", "T$"); ("try", "₺"); ("ttd", "$"); ("twd", "NT$");
    ("tzs", "TSh"); ("uah", "₴"); ("ugx", "USh"); ("usd", "$"); ("uyu", "$");
    ("uzs", "UZS"); ("vnd", "₫"); ("xaf", "FCFA"); ("xcd", "EC$"); ("xof", "CFA");
    ("yer", "ر.ي."); ("zar", "R") ]%string.

Definition currencyCodeToSymbol : gmap string string :=
  list_to_map currencyCodeToSymbol_entries.

(** The order in which one process run's [range currencyCodeToSymbol] yields
    the entries.  Go leaves it unspecified and randomises it, so any
    permutation of the entries is a possible order. *)
Definition range_order (order : list (string * string)) : Prop :=
  order ≡ₚ map_to_list currencyCodeToSymbol.

Definition preferred : list string := ["usd"; "cny"; "gbp"; "eur"]%string.

(** [symbolToISOMap[sym] = strings.ToUpper(code)] *)
Definition write_symbol (m : gmap string string) (entry : string * string)
  : gmap string string :=
  let '(code, sym) := entry in <[sym := ToUpper code]> m.

(** The body passed to [symbolToISOOnce.Do]. *)
Definition buildSymbolToISOMap (order : list (string * string)) : gmap string string :=
  let first_pass := fold_left write_symbol order ∅ in
  fold_left
    (fun m code =>
       match currencyCodeToSymbol !! code with
       | Some sym => <[sym := ToUpper code]> m
       | None => m
       end)
    preferred first_pass.

(** [symbolToISOMap]: [None] until the [sync.Once] has run. *)
Definition once_state : Type := option (gmap string string).

Definition SymbolToISO (order : list (string * string)) (st : once_state)
    (symbol : string) : once_state * string :=
  let m := match st with Some m => m | None => buildSymbolToISOMap order end in
  (Some m, default EmptyString (m !! symbol)).

(** ** Resolver (package cache) *)

Section Resolver.
Context `{std : GoStd}.

Definition ResolveMember (project : Project) (username : string) : result Z :=
  let lowerUsername := ToLower username in
  match
    find (fun m => String.eqb (ToLower (Member_Name m)) lowerUsername
                   || String.eqb (ToLower (Member_UserID m)) lowerUsername)
         (elems (Members project))
  with
  | Some m => Ok (Member_ID m)
  | None => Err ("member not found: " +:+ username)
  end.

Definition ResolveCategory (project : Project) (nameOrID : string) : result Z :=
  if String.eqb nameOrID EmptyString then Err ("category not found: " +:+ nameOrID) else
  let byID :=
    match Atoi nameOrID with
    | Some id =>
        if existsb (fun c => Category_ID c =? id) (elems (Categories project))
        then Some id else None
    | None => None
    end in
  match byID with
  | Some id => Ok id
  | None =>
      let lowerName := ToLower nameOrID in
      match find (fun c => String.eqb (ToLower (Category_Name c)) lowerName)
                 (elems (Categories project)) with
      | Some c => Ok (Category_ID c)
      | None =>
          match find (fun c => Contains (ToLower (Category_Name c)) lowerName)
                     (elems (Categories project)) with
          | Some c => Ok (Category_ID c)
          | None => Err ("category not found: " +:+ nameOrID)
          end
      end
  end.

Definition ResolvePaymentMode (project : Project) (nameOrID : string) : result Z :=
  if String.eqb nameOrID EmptyString then Err ("payment mode not found: " +:+ nameOrID) else
  let byID :=
    match Atoi nameOrID with
    | Some id =>
        if existsb (fun pm => PaymentMode_ID pm =? id) (elems (PaymentModes project))
        then Some id else None
    | None => None
    end in
  match byID with
  | Some id => Ok id
  | None =>
      let lowerName := ToLower nameOrID in
      match find (fun pm => String.eqb (ToLower (PaymentMode_Name pm)) lowerName)
                 (elems (PaymentModes project)) with
      | Some pm => Ok (PaymentMode_ID pm)
      | None =>
          match find (fun pm => Contains (ToLower (PaymentMode_Name pm)) lowerName)
                     (elems (PaymentModes project)) with
          | Some pm => Ok (PaymentMode_ID pm)
          | None => Err ("payment mode not found: " +:+ nameOrID)
          end
      end
  end.

(** The pointer [&project.Currencies[i]] is rendered as the element it
    points to. *)
Definition ResolveCurrency (project : Project) (nameOrID : string) : result Currency :=
  let byID :=
    match Atoi nameOrID with
    | Some id => find (fun cur => Currency_ID cur =? id) (elems (Currencies project))
    | None => None
    end in
  match byID with
  | Some cur => Ok cur
  | None =>
      let lowerName := ToLower nameOrID in
      match find (fun cur => String.eqb (ToLower (Currency_Name cur)) lowerName)
                 (elems (Currencies project)) with
      | Some cur => Ok cur
      | None =>
          let bySymbol :=
            match currencyCodeToSymbol !! lowerName with
            | Some symbol =>
                find (fun cur => Contains (Currency_Name cur) symbol)
                     (elems (Currencies project))
            | None => None
            end in
          match bySymbol with
          | Some cur => Ok cur
          | None => Err ("currency not found: " +:+ nameOrID)
          end
      end
  end.

End Resolver.

(** ** The calendar (package time)

    The proleptic Gregorian calendar, with its arithmetic on unbounded
    integers. *)

Definition isLeap (year : Z) : bool :=
  (year mod 4 =? 0) && (negb (year mod 100 =? 0) || (year mod 400 =? 0)).

Definition daysIn (month year : Z) : Z :=
  if month =? 2 then (if isLeap year then 29 else 28)
  else if (month =? 4) || (month =? 6) || (month =? 9) || (month =? 11) then 30
  else 31.

Definition valid_date (t : Time) : Prop :=
  1 <= Month t <= 12 /\ 1 <= Day t <= daysIn (Month t) (Year t).

(** Day of a 400-year era from the year of the era, the month counted from
    March, and the day of the month. *)
Definition doe_of_civil (yoe mp d : Z) : Z :=
  yoe * 365 + yoe / 4 - yoe / 100 + ((153 * mp + 2) / 5 + d - 1).

(** Number of days from 1970-01-01 to the given date; [d] may lie outside
    the month. *)
Definition days_from_civil (y m d : Z) : Z :=
  let y' := if m <=? 2 then y - 1 else y in
  let era := y' / 400 in
  era * 146097 + doe_of_civil (y' - era * 400) ((m + 9) mod 12) d - 719468.

Definition civil_of_doe (doe : Z) : Z * Z * Z :=
  let yoe := (doe - doe / 1460 + doe / 36524 - doe / 146096) / 365 in
  let doy := doe - (365 * yoe + yoe / 4 - yoe / 100) in
  let mp := (5 * doy + 2) / 153 in
  (yoe, mp, doy - (153 * mp + 2) / 5 + 1).

Definition civil_from_days (z : Z) : Z * Z * Z :=
  let era := (z + 719468) / 146097 in
  let '(yoe, mp, d) := civil_of_doe (z + 719468 - era * 146097) in
  let m := if mp <? 10 then mp + 3 else mp - 9 in
  (if m <=? 2 then yoe + era * 400 + 1 else yoe + era * 400, m, d).

Definition day_number (t : Time) : Z := days_from_civil (Year t) (Month t) (Day t).

(** The date the calendar gives for the arguments of [time.Date]: the month
    is normalised into the year, then the day into the calendar. *)
Definition calendar_Date (year month day clock : Z) : Time :=
  let year' := year + (month - 1) / 12 in
  let month' := (month - 1) mod 12 + 1 in
  let '(y, m, d) := civil_from_days (days_from_civil year' month' 1 + (day - 1)) in
  {| Year := y; Month := m; Day := d; Clock := clock |}.

(** [time.Date] gives the date of the calendar for these arguments. *)
Definition Date_is_calendar `{std : GoStd} (year month day clock : Z) : Prop :=
  Date_ year month day clock = calendar_Date year month day clock.

(** [t.AddDate(years, months, days)]: [time.Date] of the date and clock of
    [t] with the three numbers added, each sum being a sum of [int]s. *)
Definition AddDate `{std : GoStd} (t : Time) (years months days : Z) : Time :=
  Date_ (wrap64 (Year t + years)) (wrap64 (Month t + months))
        (wrap64 (Day t + days)) (Clock t).

(** [time.Weekday], Sunday being 0. *)
Definition Weekday (t : Time) : Z := (day_number t + 4) mod 7.

Definition digits_of (z : Z) : string := NilZero.string_of_uint (N.to_uint (Z.to_N z)).

Fixpoint zeros (n : nat) : string :=
  match n with O => EmptyString | S n' => String "0"%char (zeros n') end.

(** The zero-padded decimal of package time's [appendInt]. *)
Definition pad_int (width : nat) (z : Z) : string :=
  let ds := digits_of (Z.abs z) in
  let body := zeros (width - String.length ds) +:+ ds in
  if z <? 0 then String "-"%char body else body.

(** [t.Format("2006-01-02")], [t.Format("2006-01")] and [t.Format("01-02")]. *)
Definition Format_date (t : Time) : string :=
  pad_int 4 (Year t) +:+ "-" +:+ pad_int 2 (Month t) +:+ "-" +:+ pad_int 2 (Day t).

Definition Format_year_month (t : Time) : string :=
  pad_int 4 (Year t) +:+ "-" +:+ pad_int 2 (Month t).

Definition Format_month_day (t : Time) : string :=
  pad_int 2 (Month t) +:+ "-" +:+ pad_int 2 (Day t).

(** Exactly [n] leading decimal digits and the rest of the text. *)
Fixpoint take_digits (n : nat) (acc : Z) (s : string) : option (Z * string) :=
  match n with
  | O => Some (acc, s)
  | S n' =>
      match s with
      | String c s' =>
          if is_digit c then take_digits n' (acc * 10 + (byte_of c - 48)) s' else None
      | EmptyString => None
      end
  end.

Definition expect_dash (s : string) : option string :=
  match s with
  | String "-"%char s' => Some s'
  | _ => None
  end.

(** The month and day part of a layout, [01-02], which must end the text;
    the day is checked against the month of [year]. *)
Definition parse_month_day (year : Z) (s : string) : option Time :=
  match take_digits 2 0 s with
  | Some (month, s1) =>
      if (month <=? 0) || (12 <? month) then None else
      match expect_dash s1 with
      | Some s2 =>
          match take_digits 2 0 s2 with
          | Some (day, EmptyString) =>
              if (day <? 1) || (daysIn month year <? day) then None
              else Some {| Year := year; Month := month; Day := day; Clock := 0 |}
          | _ => None
          end
      | None => None
      end
  | None => None
  end.

(** [time.Parse("2006-01-02", s)]. *)
Definition Parse_date (s : string) : option Time :=
  match take_digits 4 0 s with
  | Some (year, s1) =>
      match expect_dash s1 with
      | Some s2 => parse_month_day year s2
      | None => None
      end
  | None => None
  end.

(** [time.Parse("01-02", s)]: the year is left at 0. *)
Definition Parse_month_day (s : string) : option Time := parse_month_day 0 s.

(** ** The list command (package cmd) *)

Record ListFlags : Type := {
  listPaidBy : string;
  listPaidFor : list string;
  listAmount : string;
  listName : string;
  listPaymentMethod : string;
  listCategory : string;
  listLimit : Z;
  listDate : string;
  listToday : bool;
  listThisMonth : bool;
  listThisWeek : bool;
  listRecent : string
}.

Record amountFilter : Type := {
  af_operator : string;
  af_value : float
}.

Record dateFilter : Type := {
  df_operator : string;
  df_date : string
}.

Definition billFilter : Type := BillResponse -> bool.

Record resolvedBill : Type := {
  rb_ID : Z;
  rb_Date : string;
  rb_Name : string;
  rb_Amount : float;
  rb_PaidBy : string;
  rb_PaidFor : slice string;
  rb_Category : string;
  rb_PaymentMethod : string
}.

Definition bind {A B} (r : result A) (k : A -> result B) : result B :=
  match r with
  | Ok a => k a
  | Err msg => Err msg
  end.

Notation "x <- r ;; k" := (bind r (fun x => k))
  (at level 100, r at next level, k at level 200, right associativity).

(** [fmt.Errorf(prefix + ": %w", err)] *)
Definition wrap_error {A} (prefix : string) (r : result A) : result A :=
  match r with
  | Ok a => Ok a
  | Err msg => Err (prefix +:+ ": " +:+ msg)
  end.

Definition newline : ascii := ascii_of_nat 10.

Fixpoint has_newline (s : string) : bool :=
  match s with
  | EmptyString => false
  | String c s' => Ascii.eqb c newline || has_newline s'
  end.

(** What the sub-expression [(.+)$] accepts: a non-empty text without a
    line feed, up to the end of the input. *)
Definition dot_plus (s : string) : bool :=
  negb (String.eqb s EmptyString) && negb (has_newline s).

Fixpoint strip_prefix (pfx s : string) : option string :=
  match pfx, s with
  | EmptyString, _ => Some s
  | String a pfx', String b s' => if Ascii.eqb a b then strip_prefix pfx' s' else None
  | String _ _, EmptyString => None
  end.

Definition operators : list string := [">="; "<="; ">"; "<"; "="].

(** The alternatives of the operator group, tried in the order written. *)
Fixpoint try_operators (ops : list string) (s : string) : option (string * string) :=
  match ops with
  | [] => None
  | op :: ops' =>
      match strip_prefix op s with
      | Some rest => if dot_plus rest then Some (op, rest) else try_operators ops' s
      | None => try_operators ops' s
      end
  end.

(** [regexp.MustCompile(`^(>=|<=|>|<|=)?(.+)$`).FindStringSubmatch(s)]: the
    two groups of the leftmost-first match, or [None] when there is none. *)
Definition FindOperatorOperand (s : string) : option (string * string) :=
  match try_operators operators s with
  | Some m => Some m
  | None => if dot_plus s then Some (EmptyString, s) else None
  end.

Section ListCommand.
Context `{std : GoStd}.

Fixpoint passes (filters : list billFilter) (bill : BillResponse) : bool :=
  match filters with
  | [] => true
  | filter :: rest => if filter bill then passes rest bill else false
  end.

Definition append {A} (s : slice A) (x : A) : slice A := Some (elems s ++ [x]).

Definition applyFilters (bills : slice BillResponse) (filters : list billFilter)
  : slice BillResponse :=
  match filters with
  | [] => bills
  | _ =>
      fold_left (fun result bill => if passes filters bill then append result bill else result)
                (elems bills) None
  end.

Definition parseAmountFilter (s : string) : result amountFilter :=
  let s := TrimSpace s in
  match FindOperatorOperand s with
  | None => Err ("invalid amount filter format: " +:+ s)
  | Some (op, operand) =>
      let operator := if String.eqb op EmptyString then "=" else op in
      match ParseFloat (TrimSpace operand) with
      | None => Err ("invalid amount value: " +:+ operand)
      | Some value => Ok {| af_operator := operator; af_value := value |}
      end
  end.

Definition matchAmount (amount : float) (af : amountFilter) : bool :=
  if String.eqb (af_operator af) "=" then PrimFloat.eqb amount (af_value af)
  else if String.eqb (af_operator af) ">" then PrimFloat.ltb (af_value af) amount
  else if String.eqb (af_operator af) "<" then PrimFloat.ltb amount (af_value af)
  else if String.eqb (af_operator af) ">=" then PrimFloat.leb (af_value af) amount
  else if String.eqb (af_operator af) "<=" then PrimFloat.leb amount (af_value af)
  else false.

Definition parseDateFilter (now : Time) (s : string) : result dateFilter :=
  let s := TrimSpace s in
  match FindOperatorOperand s with
  | None => Err ("invalid date filter format: " +:+ s)
  | Some (op, operand) =>
      let operator := if String.eqb op EmptyString then "=" else op in
      let dateStr := TrimSpace operand in
      match Parse_date dateStr with
      | Some _ => Ok {| df_operator := operator; df_date := dateStr |}
      | None =>
          match Parse_month_day dateStr with
          | Some t =>
              Ok {| df_operator := operator;
                    df_date := Itoa (Year now) +:+ "-" +:+ Format_month_day t |}
          | None =>
              Err ("invalid date format: " +:+ dateStr
                   +:+ " (expected YYYY-MM-DD or MM-DD)")
          end
      end
  end.

Definition matchDate (billDate : string) (df : dateFilter) : bool :=
  if String.eqb (df_operator df) "=" then String.eqb billDate (df_date df)
  else if String.eqb (df_operator df) ">" then String.ltb (df_date df) billDate
  else if String.eqb (df_operator df) "<" then String.ltb billDate (df_date df)
  else if String.eqb (df_operator df) ">=" then String.leb (df_date df) billDate
  else if String.eqb (df_operator df) "<=" then String.leb billDate (df_date df)
  else false.

(** [s[:len(s)-1]] and [s[len(s)-1]] of a non-empty string. *)
Fixpoint split_last (s : string) : option (string * ascii) :=
  match s with
  | EmptyString => None
  | String c s' =>
      match split_last s' with
      | None => Some (EmptyString, c)
      | Some (init, last) => Some (String c init, last)
      end
  end.

Definition parseRecent (now : Time) (s : string) : result Time :=
  let s := TrimSpace s in
  if (String.length s <? 2)%nat then
    Err ("invalid recent format: " +:+ s +:+ " (expected e.g. 7d, 2w, 1m)")
  else
    match split_last s with
    | None => Err ("invalid recent format: " +:+ s +:+ " (expected e.g. 7d, 2w, 1m)")
    | Some (valueStr, unit) =>
        match Atoi valueStr with
        | None => Err ("invalid recent value: " +:+ valueStr)
        | Some value =>
            if Ascii.eqb unit "d" then Ok (AddDate now 0 0 (wrap64 (- value)))
            else if Ascii.eqb unit "w" then
              Ok (AddDate now 0 0 (wrap64 (wrap64 (- value) * 7)))
            else if Ascii.eqb unit "m" then Ok (AddDate now 0 (wrap64 (- value)) 0)
            else Err ("invalid recent unit: " +:+ String unit EmptyString
                      +:+ " (expected d, w, or m)")
        end
    end.

(** The predicate built from the cutoff of [--recent]. *)
Definition recentFilter (cutoff : Time) : billFilter :=
  fun bill => String.leb (Format_date cutoff) (Date bill).

Fixpoint resolveMembers (project : Project) (usernames : list string)
  : result (list Z) :=
  match usernames with
  | [] => Ok []
  | username :: rest =>
      memberID <- wrap_error "resolving owed member filter"
                    (ResolveMember project username) ;;
      owedIDs <- resolveMembers project rest ;;
      Ok (memberID :: owedIDs)
  end.

Definition owedFilter (owedIDs : list Z) : billFilter :=
  fun bill =>
    forallb (fun requiredID =>
               existsb (fun ower => Ower_ID ower =? requiredID) (elems (Owers bill)))
            owedIDs.

Definition buildFilters (flags : ListFlags) (now : Time) (project : Project)
  : result (list billFilter) :=
  let filters := [] in
  filters <-
    (if String.eqb (listPaidBy flags) EmptyString then Ok filters else
       payerID <- wrap_error "resolving payer filter"
                    (ResolveMember project (listPaidBy flags)) ;;
       Ok (filters ++ [fun bill => PayerID bill =? payerID])) ;;
  filters <-
    (match listPaidFor flags with
     | [] => Ok filters
     | usernames =>
         owedIDs <- resolveMembers project usernames ;;
         Ok (filters ++ [owedFilter owedIDs])
     end) ;;
  filters <-
    (if String.eqb (listAmount flags) EmptyString then Ok filters else
       af <- wrap_error "parsing amount filter" (parseAmountFilter (listAmount flags)) ;;
       Ok (filters ++ [fun bill => matchAmount (Amount bill) af])) ;;
  filters <-
    (if String.eqb (listName flags) EmptyString then Ok filters else
       let lowerName := ToLower (listName flags) in
       Ok (filters ++ [fun bill => Contains (ToLower (What bill)) lowerName])) ;;
  filters <-
    (if String.eqb (listPaymentMethod flags) EmptyString then Ok filters else
       methodID <- wrap_error "resolving payment method filter"
                     (ResolvePaymentMode project (listPaymentMethod flags)) ;;
       Ok (filters ++ [fun bill => PaymentModeID bill =? methodID])) ;;
  filters <-
    (if String.eqb (listCategory flags) EmptyString then Ok filters else
       categoryID <- wrap_error "resolving category filter"
                       (ResolveCategory project (listCategory flags)) ;;
       Ok (filters ++ [fun bill => CategoryID bill =? categoryID])) ;;
  filters <-
    (if listToday flags then
       let today := Format_date now in
       Ok (filters ++ [fun bill => String.eqb (Date bill) today])
     else Ok filters) ;;
  filters <-
    (if String.eqb (listDate flags) EmptyString then Ok filters else
       df <- wrap_error "parsing date filter" (parseDateFilter now (listDate flags)) ;;
       Ok (filters ++ [fun bill => matchDate (Date bill) df])) ;;
  filters <-
    (if listThisMonth flags then
       let prefix := Format_year_month now in
       Ok (filters ++ [fun bill => HasPrefix (Date bill) prefix])
     else Ok filters) ;;
  filters <-
    (if listThisWeek flags then
       let weekday := if Weekday now =? 0 then 7 else Weekday now in
       let startOfWeek := AddDate now 0 0 (- (weekday - 1)) in
       let endOfWeek := AddDate startOfWeek 0 0 6 in
       let startStr := Format_date startOfWeek in
       let endStr := Format_date endOfWeek in
       Ok (filters ++ [fun bill => String.leb startStr (Date bill)
                                   && String.leb (Date bill) endStr])
     else Ok filters) ;;
  filters <-
    (if String.eqb (listRecent flags) EmptyString then Ok filters else
       cutoff <- wrap_error "parsing recent filter" (parseRecent now (listRecent flags)) ;;
       Ok (filters ++ [recentFilter cutoff])) ;;
  Ok filters.

(** The [less] passed to [sort.Slice]: a later date first, and for one date
    a larger timestamp first. *)
Definition billLess (a b : BillResponse) : bool :=
  if negb (String.eqb (Date a) (Date b)) then String.ltb (Date b) (Date a)
  else Timestamp b <? Timestamp a.

Definition names_by_id {A} (ID : A -> Z) (Name : A -> string) (l : list A)
  : gmap Z string :=
  fold_left (fun names x => <[ID x := Name x]> names) l ∅.

(** [names[id]], the empty string for a missing key. *)
Definition name_of (names : gmap Z string) (id : Z) : string :=
  default EmptyString (names !! id).

Definition or_number (name : string) (id : Z) : string :=
  if String.eqb name EmptyString then "#" +:+ Itoa id else name.

(** [strings.Map] with the function that turns line feed, carriage return
    and tab into a space, on text that is valid UTF-8. *)
Fixpoint blank_controls (s : string) : string :=
  match s with
  | EmptyString => EmptyString
  | String c s' =>
      String (if (byte_of c =? 10) || (byte_of c =? 13) || (byte_of c =? 9)
              then " "%char else c)
             (blank_controls s')
  end.

(** The body of the loop that builds the result. *)
Definition resolveBill (memberNames categoryNames paymentModeNames : gmap Z string)
    (bill : BillResponse) : resolvedBill :=
  let payerName := or_number (name_of memberNames (PayerID bill)) (PayerID bill) in
  let owerNames :=
    fold_left (fun names ower =>
                 append names (or_number (name_of memberNames (Ower_ID ower))
                                         (Ower_ID ower)))
              (elems (Owers bill)) None in
  let catName :=
    let n := name_of categoryNames (CategoryID bill) in
    if String.eqb n EmptyString && negb (CategoryID bill =? 0)
    then "#" +:+ Itoa (CategoryID bill) else n in
  let methodName :=
    let n := name_of paymentModeNames (PaymentModeID bill) in
    if String.eqb n EmptyString && negb (PaymentModeID bill =? 0)
    then "#" +:+ Itoa (PaymentModeID bill) else n in
  {| rb_ID := Bill_ID bill; rb_Date := Date bill;
     rb_Name := blank_controls (TrimSpace (What bill));
     rb_Amount := Amount bill; rb_PaidBy := payerName; rb_PaidFor := owerNames;
     rb_Category := catName; rb_PaymentMethod := methodName |}.

Definition resolveBillNames (flags : ListFlags) (project : Project)
    (bills : slice BillResponse) : slice resolvedBill :=
  let bills := sortSlice billLess (elems bills) in
  let bills :=
    if (0 <? listLimit flags) && (listLimit flags <? Z.of_nat (length bills))
    then take (Z.to_nat (listLimit flags)) bills else bills in
  let memberNames := names_by_id Member_ID Member_Name (elems (Members project)) in
  let categoryNames :=
    names_by_id Category_ID Category_Name (elems (Categories project)) in
  let paymentModeNames :=
    names_by_id PaymentMode_ID PaymentMode_Name (elems (PaymentModes project)) in
  fold_left
    (fun result bill =>
       append result (resolveBill memberNames categoryNames paymentModeNames bill))
    bills None.

End ListCommand.

(** ** JSON documents (package encoding/json)

    A document is its value tree.  A number is kept as the Go value that
    wrote it and a string as the text it denotes: the printing and the
    reading of the text of a document are left to [encoding/json] and are
    the identity on trees.  Decoding follows
    [json.Unmarshal]: null leaves a value as it is (and makes a pointer, a
    slice or a map nil), a value of the wrong kind is skipped and reported
    once decoding has finished, an unknown object key is skipped, and of two
    equal keys the later one is decoded last. *)

#[warnings="-register-all"]
Inductive json : Type :=
| JNull
| JBool (b : bool)
| JInt (z : Z)
| JFloat (f : float)
| JStr (s : string)
| JArr (l : list json)
| JObj (members : list (string * json)).

(** A decoder into a Go value: the value after decoding, and whether no
    error was recorded. *)
Definition decoder (T : Type) : Type := T -> json -> T * bool.

Definition decodeString : decoder string :=
  fun old j =>
    match j with
    | JNull => (old, true)
    | JStr s => (s, true)
    | _ => (old, false)
    end.

Definition decodeBool : decoder bool :=
  fun old j =>
    match j with
    | JNull => (old, true)
    | JBool b => (b, true)
    | _ => (old, false)
    end.

Definition decodeInt : decoder Z :=
  fun old j =>
    match j with
    | JNull => (old, true)
    | JInt z => if (min_int <=? z) && (z <=? max_int) then (z, true) else (old, false)
    | _ => (old, false)
    end.

(** A number is read with [strconv.ParseFloat]; a literal it rejects, as one
    out of the range of a [float64], is an error.  [JInt z] stands for the
    literal that is the decimal text of [z]. *)
Definition decodeFloat `{std : GoStd} : decoder float :=
  fun old j =>
    match j with
    | JNull => (old, true)
    | JFloat f => (f, true)
    | JInt z =>
        match ParseFloat (Itoa z) with
        | Some f => (f, true)
        | None => (old, false)
        end
    | _ => (old, false)
    end.

(** The field whose name is the object key. *)
Definition find_field {T} (fields : list (string * decoder T)) (key : string)
  : option (decoder T) :=
  match find (fun f => String.eqb f.1 key) fields with
  | Some f => Some f.2
  | None => None
  end.

Section Decoding.
Context `{std : GoStd}.

(** The field an object key selects: the one with that name, else the first
    one whose name matches it up to letter case. *)
Definition field_of {T} (fields : list (string * decoder T)) (key : string)
  : option (decoder T) :=
  match find_field fields key with
  | Some d => Some d
  | None =>
      match find (fun f => EqualFold f.1 key) fields with
      | Some f => Some f.2
      | None => None
      end
  end.

Definition decodeStruct {T} (fields : list (string * decoder T)) : decoder T :=
  fun old j =>
    match j with
    | JNull => (old, true)
    | JObj members =>
        fold_left
          (fun acc member =>
             match field_of fields member.1 with
             | Some d => let '(v, ok) := d acc.1 member.2 in (v, acc.2 && ok)
             | None => acc
             end)
          members (old, true)
    | _ => (old, false)
    end.

(** The elements of an array, each decoded into the element the slice
    already had at that index, or into a zero element. *)
Fixpoint decodeElems {T} (d : decoder T) (zero : T) (l : list json) (old : list T)
  : list T * bool :=
  match l with
  | [] => ([], true)
  | j :: l' =>
      let '(x, ok) := d (hd zero old) j in
      let '(xs, oks) := decodeElems d zero l' (tl old) in
      (x :: xs, ok && oks)
  end.

Definition decodeSlice {T} (d : decoder T) (zero : T) : decoder (slice T) :=
  fun old j =>
    match j with
    | JNull => (None, true)
    | JArr l => let '(xs, ok) := decodeElems d zero l (elems old) in (Some xs, ok)
    | _ => (old, false)
    end.

(** Into a [map[string]T], which starts out nil: every member is decoded
    into a zero element and stored under its key. *)
Definition decodeMap {T} (d : decoder T) (zero : T) (j : json)
  : option (gmap string T) * bool :=
  match j with
  | JNull => (None, true)
  | JObj members =>
      let '(m, ok) :=
        fold_left
          (fun acc member =>
             let '(x, ok) := d zero member.2 in
             (<[member.1 := x]> acc.1, acc.2 && ok))
          members (∅, true) in
      (Some m, ok)
  | _ => (None, false)
  end.

(** *** The records of package api *)

Definition zeroMember : Member :=
  {| Member_ID := 0; Member_Name := EmptyString; Member_UserID := EmptyString;
     Member_Activated := false |}.

Definition zeroCategory : Category :=
  {| Category_ID := 0; Category_Name := EmptyString; Category_Icon := EmptyString;
     Category_Color := EmptyString |}.

Definition zeroPaymentMode : PaymentMode :=
  {| PaymentMode_ID := 0; PaymentMode_Name := EmptyString;
     PaymentMode_Icon := EmptyString; PaymentMode_Color := EmptyString |}.

Definition zeroCurrency : Currency :=
  {| Currency_ID := 0; Currency_Name := EmptyString; Currency_ExchangeRate := 0%float |}.

Definition zeroProject : Project :=
  {| Project_ID := EmptyString; Project_Name := EmptyString;
     Project_CurrencyName := EmptyString; Members := None; Categories := None;
     PaymentModes := None; Currencies := None |}.

Definition zeroUserInfo : UserInfo :=
  {| Locale := EmptyString; Language := EmptyString |}.

Definition decodeMember : decoder Member :=
  decodeStruct
    [ ("id", fun m j => let '(v, ok) := decodeInt (Member_ID m) j in
                        ({| Member_ID := v; Member_Name := Member_Name m;
                            Member_UserID := Member_UserID m;
                            Member_Activated := Member_Activated m |}, ok));
      ("name", fun m j => let '(v, ok) := decodeString (Member_Name m) j in
                          ({| Member_ID := Member_ID m; Member_Name := v;
                              Member_UserID := Member_UserID m;
                              Member_Activated := Member_Activated m |}, ok));
      ("userid", fun m j => let '(v, ok) := decodeString (Member_UserID m) j in
                            ({| Member_ID := Member_ID m; Member_Name := Member_Name m;
                                Member_UserID := v;
                                Member_Activated := Member_Activated m |}, ok));
      ("activated", fun m j => let '(v, ok) := decodeBool (Member_Activated m) j in
                               ({| Member_ID := Member_ID m;
                                   Member_Name := Member_Name m;
                                   Member_UserID := Member_UserID m;
                                   Member_Activated := v |}, ok)) ].

Definition decodeCategory : decoder Category :=
  decodeStruct
    [ ("id", fun c j => let '(v, ok) := decodeInt (Category_ID c) j in
                        ({| Category_ID := v; Category_Name := Category_Name c;
                            Category_Icon := Category_Icon c;
                            Category_Color := Category_Color c |}, ok));
      ("name", fun c j => let '(v, ok) := decodeString (Category_Name c) j in
                          ({| Category_ID := Category_ID c; Category_Name := v;
                              Category_Icon := Category_Icon c;
                              Category_Color := Category_Color c |}, ok));
      ("icon", fun c j => let '(v, ok) := decodeString (Category_Icon c) j in
                          ({| Category_ID := Category_ID c;
                              Category_Name := Category_Name c; Category_Icon := v;
                              Category_Color := Category_Color c |}, ok));
      ("color", fun c j => let '(v, ok) := decodeString (Category_Color c) j in
                           ({| Category_ID := Category_ID c;
                               Category_Name := Category_Name c;
                               Category_Icon := Category_Icon c;
                               Category_Color := v |}, ok)) ].

Definition decodePaymentMode : decoder PaymentMode :=
  decodeStruct
    [ ("id", fun c j => let '(v, ok) := decodeInt (PaymentMode_ID c) j in
                        ({| PaymentMode_ID := v; PaymentMode_Name := PaymentMode_Name c;
                            PaymentMode_Icon := PaymentMode_Icon c;
                            PaymentMode_Color := PaymentMode_Color c |}, ok));
      ("name", fun c j => let '(v, ok) := decodeString (PaymentMode_Name c) j in
                          ({| PaymentMode_ID := PaymentMode_ID c; PaymentMode_Name := v;
                              PaymentMode_Icon := PaymentMode_Icon c;
                              PaymentMode_Color := PaymentMode_Color c |}, ok));
      ("icon", fun c j => let '(v, ok) := decodeString (PaymentMode_Icon c) j in
                          ({| PaymentMode_ID := PaymentMode_ID c;
                              PaymentMode_Name := PaymentMode_Name c;
                              PaymentMode_Icon := v;
                              PaymentMode_Color := PaymentMode_Color c |}, ok));
      ("color", fun c j => let '(v, ok) := decodeString (PaymentMode_Color c) j in
                           ({| PaymentMode_ID := PaymentMode_ID c;
                               PaymentMode_Name := PaymentMode_Name c;
                               PaymentMode_Icon := PaymentMode_Icon c;
                               PaymentMode_Color := v |}, ok)) ].

Definition decodeCurrency : decoder Currency :=
  decodeStruct
    [ ("id", fun c j => let '(v, ok) := decodeInt (Currency_ID c) j in
                        ({| Currency_ID := v; Currency_Name := Currency_Name c;
                            Currency_ExchangeRate := Currency_ExchangeRate c |}, ok));
      ("name", fun c j => let '(v, ok) := decodeString (Currency_Name c) j in
                          ({| Currency_ID := Currency_ID c; Currency_Name := v;
                              Currency_ExchangeRate := Currency_ExchangeRate c |}, ok));
      ("exchange_rate",
       fun c j => let '(v, ok) := decodeFloat (Currency_ExchangeRate c) j in
                  ({| Currency_ID := Currency_ID c; Currency_Name := Currency_Name c;
                      Currency_ExchangeRate := v |}, ok)) ].

Definition decodeUserInfo : decoder UserInfo :=
  decodeStruct
    [ ("locale", fun u j => let '(v, ok) := decodeString (Locale u) j in
                            ({| Locale := v; Language := Language u |}, ok));
      ("language", fun u j => let '(v, ok) := decodeString (Language u) j in
                              ({| Locale := Locale u; Language := v |}, ok)) ].

Definition with_ID (c : Category) (id : Z) : Category :=
  {| Category_ID := id; Category_Name := Category_Name c;
     Category_Icon := Category_Icon c; Category_Color := Category_Color c |}.

Definition with_mode_ID (pm : PaymentMode) (id : Z) : PaymentMode :=
  {| PaymentMode_ID := id; PaymentMode_Name := PaymentMode_Name pm;
     PaymentMode_Icon := PaymentMode_Icon pm; PaymentMode_Color := PaymentMode_Color pm |}.

Definition parseCategories (data : json) : slice Category :=
  match decodeMap decodeCategory zeroCategory data with
  | (obj, true) =>
      fold_left
        (fun result entry =>
           let '(idStr, cat) := entry in
           let cat := match Atoi idStr with
                      | Some id => with_ID cat id
                      | None => cat
                      end in
           append result cat)
        (mapRange (default ∅ obj)) (Some [])
  | (_, false) =>
      match decodeSlice decodeCategory zeroCategory None data with
      | (arr, true) => arr
      | (_, false) => None
      end
  end.

Definition parsePaymentModes (data : json) : slice PaymentMode :=
  match decodeMap decodePaymentMode zeroPaymentMode data with
  | (obj, true) =>
      fold_left
        (fun result entry =>
           let '(idStr, pm) := entry in
           let pm := match Atoi idStr with
                     | Some id => with_mode_ID pm id
                     | None => pm
                     end in
           append result pm)
        (mapRange (default ∅ obj)) (Some [])
  | (_, false) =>
      match decodeSlice decodePaymentMode zeroPaymentMode None data with
      | (arr, true) => arr
      | (_, false) => None
      end
  end.

(** [raw[key]] for the [map[string]json.RawMessage] read from an object. *)
Definition raw_lookup (members : list (string * json)) (key : string) : option json :=
  match find (fun member => String.eqb member.1 key) (rev members) with
  | Some member => Some member.2
  | None => None
  end.

(** [if v, ok := raw[key]; ok { ... }] *)
Definition if_present (raw : list (string * json)) (key : string)
    (store : Project -> json -> Project) (p : Project) : Project :=
  match raw_lookup raw key with
  | Some v => store p v
  | None => p
  end.

Definition set_ID (p : Project) (v : string) : Project :=
  {| Project_ID := v; Project_Name := Project_Name p;
     Project_CurrencyName := Project_CurrencyName p; Members := Members p;
     Categories := Categories p; PaymentModes := PaymentModes p;
     Currencies := Currencies p |}.

Definition set_Name (p : Project) (v : string) : Project :=
  {| Project_ID := Project_ID p; Project_Name := v;
     Project_CurrencyName := Project_CurrencyName p; Members := Members p;
     Categories := Categories p; PaymentModes := PaymentModes p;
     Currencies := Currencies p |}.

Definition set_CurrencyName (p : Project) (v : string) : Project :=
  {| Project_ID := Project_ID p; Project_Name := Project_Name p;
     Project_CurrencyName := v; Members := Members p;
     Categories := Categories p; PaymentModes := PaymentModes p;
     Currencies := Currencies p |}.

Definition set_Members (p : Project) (v : slice Member) : Project :=
  {| Project_ID := Project_ID p; Project_Name := Project_Name p;
     Project_CurrencyName := Project_CurrencyName p; Members := v;
     Categories := Categories p; PaymentModes := PaymentModes p;
     Currencies := Currencies p |}.

Definition set_Categories (p : Project) (v : slice Category) : Project :=
  {| Project_ID := Project_ID p; Project_Name := Project_Name p;
     Project_CurrencyName := Project_CurrencyName p; Members := Members p;
     Categories := v; PaymentModes := PaymentModes p;
     Currencies := Currencies p |}.

Definition set_PaymentModes (p : Project) (v : slice PaymentMode) : Project :=
  {| Project_ID := Project_ID p; Project_Name := Project_Name p;
     Project_CurrencyName := Project_CurrencyName p; Members := Members p;
     Categories := Categories p; PaymentModes := v;
     Currencies := Currencies p |}.

Definition set_Currencies (p : Project) (v : slice Currency) : Project :=
  {| Project_ID := Project_ID p; Project_Name := Project_Name p;
     Project_CurrencyName := Project_CurrencyName p; Members := Members p;
     Categories := Categories p; PaymentModes := PaymentModes p;
     Currencies := v |}.

(** [Project.UnmarshalJSON], on the receiver [p]; the errors of the inner
    calls of [json.Unmarshal] are dropped, as in the source. *)
Definition Project_UnmarshalJSON (p : Project) (data : json) : result Project :=
  match data with
  | JNull => Ok p
  | JObj raw =>
      let p := if_present raw "id"
                 (fun p v => set_ID p (decodeString (Project_ID p) v).1) p in
      let p := if_present raw "name"
                 (fun p v => set_Name p (decodeString (Project_Name p) v).1) p in
      let p := if_present raw "currencyname"
                 (fun p v =>
                    set_CurrencyName p (decodeString (Project_CurrencyName p) v).1) p in
      let p := if_present raw "members"
                 (fun p v =>
                    set_Members p (decodeSlice decodeMember zeroMember (Members p) v).1)
                 p in
      let p := if_present raw "currencies"
                 (fun p v =>
                    set_Currencies p
                      (decodeSlice decodeCurrency zeroCurrency (Currencies p) v).1)
                 p in
      let p := if_present raw "categories"
                 (fun p v => set_Categories p (parseCategories v)) p in
      let p := if_present raw "paymentmodes"
                 (fun p v => set_PaymentModes p (parsePaymentModes v)) p in
      Ok p
  | _ => Err "json: cannot unmarshal into Go value of type map[string]json.RawMessage"
  end.

(** *** Encoding *)

Definition encodeSlice {T} (enc : T -> option json) (s : slice T) : option json :=
  match s with
  | None => Some JNull
  | Some l => JArr <$> mapM enc l
  end.

Definition encodeString (s : string) : json := JStr (ToValidUTF8 s).

Definition encodeMember (m : Member) : option json :=
  Some (JObj [ ("id", JInt (Member_ID m)); ("name", encodeString (Member_Name m));
               ("userid", encodeString (Member_UserID m));
               ("activated", JBool (Member_Activated m)) ]).

Definition encodeCategory (c : Category) : option json :=
  Some (JObj [ ("id", JInt (Category_ID c)); ("name", encodeString (Category_Name c));
               ("icon", encodeString (Category_Icon c));
               ("color", encodeString (Category_Color c)) ]).

Definition encodePaymentMode (pm : PaymentMode) : option json :=
  Some (JObj [ ("id", JInt (PaymentMode_ID pm));
               ("name", encodeString (PaymentMode_Name pm));
               ("icon", encodeString (PaymentMode_Icon pm));
               ("color", encodeString (PaymentMode_Color pm)) ]).

(** A float that is not finite cannot be written. *)
Definition encodeFloat (f : float) : option json :=
  if PrimFloat.is_nan f || PrimFloat.is_infinity f then None else Some (JFloat f).

Definition encodeCurrency (c : Currency) : option json :=
  rate ← encodeFloat (Currency_ExchangeRate c);
  Some (JObj [ ("id", JInt (Currency_ID c)); ("name", encodeString (Currency_Name c));
               ("exchange_rate", rate) ]).

(** [Project.MarshalJSON]. *)
Definition Project_MarshalJSON (p : Project) : option json :=
  members ← encodeSlice encodeMember (Members p);
  categories ← encodeSlice encodeCategory (Categories p);
  paymentmodes ← encodeSlice encodePaymentMode (PaymentModes p);
  currencies ← encodeSlice encodeCurrency (Currencies p);
  Some (JObj [ ("id", encodeString (Project_ID p));
               ("name", encodeString (Project_Name p));
               ("currencyname", encodeString (Project_CurrencyName p));
               ("members", members); ("categories", categories);
               ("paymentmodes", paymentmodes); ("currencies", currencies) ]).

Definition encodeUserInfo (u : UserInfo) : option json :=
  Some (JObj [ ("locale", encodeString (Locale u));
               ("language", encodeString (Language u)) ]).

(** ** Cache store (package cache) *)

(** Nanoseconds; [cacheTTL = 1 * time.Hour]. *)
Definition cacheTTL : Z := 3600 * 1000000000.

Definition appName : string := "cospend".

(** The zero [time.Time], 1 January of year 1, in nanoseconds since the Unix
    epoch. *)
Definition zeroTime : Z := - 62135596800 * 1000000000.

(** [time.Since(t)] at the instant [now]: a [Duration] is an [int64] and the
    difference saturates. *)
Definition Since (now t : Z) : Z := Z.max min_int (Z.min max_int (now - t)).

Record CachedProject : Type := {
  cp_Project : option Project;
  cp_CachedAt : Z
}.

Record CachedUserInfo : Type := {
  cu_UserInfo : option UserInfo;
  cu_CachedAt : Z
}.

(** A [time.Time] field: null is ignored, a string is parsed, anything else
    and a string that does not parse end the decoding with an error. *)
Definition decodeTime (old : Z) (j : json) : result Z :=
  match j with
  | JNull => Ok old
  | JStr s =>
      match timeUnmarshal s with
      | Some t => Ok t
      | None => Err "parsing time"
      end
  | _ => Err "Time.UnmarshalJSON: input is not a JSON string"
  end.

(** A [*api.Project] field: null makes it nil, anything else is handed to
    [UnmarshalJSON] on the project it points to, a new one if it is nil. *)
Definition decodeProjectPtr (old : option Project) (j : json) : result (option Project) :=
  match j with
  | JNull => Ok None
  | _ => p <- Project_UnmarshalJSON (default zeroProject old) j ;; Ok (Some p)
  end.

Definition decodeUserInfoPtr (old : option UserInfo) (j : json)
  : option UserInfo * bool :=
  match j with
  | JNull => (None, true)
  | _ => let '(u, ok) := decodeUserInfo (default zeroUserInfo old) j in (Some u, ok)
  end.

(** [json.Unmarshal(data, &cached)] for a zero [CachedProject]. *)
Definition unmarshalCachedProject (data : json) : result CachedProject :=
  let zero := {| cp_Project := None; cp_CachedAt := zeroTime |} in
  match data with
  | JNull => Ok zero
  | JObj members =>
      fold_left
        (fun acc member =>
           cached <- acc ;;
           if String.eqb "project" member.1
              || (negb (String.eqb "cached_at" member.1) && EqualFold "project" member.1)
           then
             p <- decodeProjectPtr (cp_Project cached) member.2 ;;
             Ok {| cp_Project := p; cp_CachedAt := cp_CachedAt cached |}
           else if String.eqb "cached_at" member.1 || EqualFold "cached_at" member.1
           then
             t <- decodeTime (cp_CachedAt cached) member.2 ;;
             Ok {| cp_Project := cp_Project cached; cp_CachedAt := t |}
           else Ok cached)
        members (Ok zero)
  | _ => Err "json: cannot unmarshal into Go value of type cache.CachedProject"
  end.

(** [json.Unmarshal(data, &cached)] for a zero [CachedUserInfo]; an error
    recorded while decoding the user info is returned at the end. *)
Definition unmarshalCachedUserInfo (data : json) : result CachedUserInfo :=
  let zero := {| cu_UserInfo := None; cu_CachedAt := zeroTime |} in
  match data with
  | JNull => Ok zero
  | JObj members =>
      r <- fold_left
            (fun acc member =>
               st <- acc ;;
               let '(cached, ok) := st in
               if String.eqb "user_info" member.1
                  || (negb (String.eqb "cached_at" member.1)
                      && EqualFold "user_info" member.1)
               then
                 let '(u, ok') := decodeUserInfoPtr (cu_UserInfo cached) member.2 in
                 Ok ({| cu_UserInfo := u; cu_CachedAt := cu_CachedAt cached |},
                     ok && ok')
               else if String.eqb "cached_at" member.1
                       || EqualFold "cached_at" member.1
               then
                 t <- decodeTime (cu_CachedAt cached) member.2 ;;
                 Ok ({| cu_UserInfo := cu_UserInfo cached; cu_CachedAt := t |}, ok)
               else Ok (cached, ok))
            members (Ok (zero, true)) ;;
      if r.2 then Ok r.1
      else Err "json: cannot unmarshal into Go struct field of cache.CachedUserInfo"
  | _ => Err "json: cannot unmarshal into Go value of type cache.CachedUserInfo"
  end.

Definition marshalCachedProject (cached : CachedProject) : option json :=
  project ← match cp_Project cached with
            | None => Some JNull
            | Some p => Project_MarshalJSON p
            end;
  cached_at ← timeMarshal (cp_CachedAt cached);
  Some (JObj [("project", project); ("cached_at", JStr cached_at)]).

Definition marshalCachedUserInfo (cached : CachedUserInfo) : option json :=
  user_info ← match cu_UserInfo cached with
              | None => Some JNull
              | Some u => encodeUserInfo u
              end;
  cached_at ← timeMarshal (cu_CachedAt cached);
  Some (JObj [("user_info", user_info); ("cached_at", JStr cached_at)]).

(** *** The file system and the environment

    A file is unreadable, or readable with a content that is a JSON document
    or is not one.  Directories are not tracked: [mkdir_fails] tells for
    which of them [os.MkdirAll] returns an error, [write_fails] for which
    paths [os.WriteFile] does, and a write that succeeds leaves a readable
    file with the content written. *)

Inductive content : Type :=
| NotJSON
| Document (data : json).

Inductive file : Type :=
| Unreadable
| Readable (c : content).

Record World : Type := {
  XDG_CACHE_HOME : string;
  xdg_CacheHome : string;
  mkdir_fails : string -> bool;
  write_fails : string -> bool;
  files : gmap string file
}.

Definition ReadFile (w : World) (path : string) : option content :=
  match files w !! path with
  | Some (Readable c) => Some c
  | _ => None
  end.

Definition WriteFile (w : World) (path : string) (c : content) : option World :=
  if write_fails w path then None
  else Some {| XDG_CACHE_HOME := XDG_CACHE_HOME w; xdg_CacheHome := xdg_CacheHome w;
               mkdir_fails := mkdir_fails w; write_fails := write_fails w;
               files := <[path := Readable c]> (files w) |}.

Definition getCacheHome (w : World) : string :=
  if String.eqb (XDG_CACHE_HOME w) EmptyString then xdg_CacheHome w
  else XDG_CACHE_HOME w.

Definition getCachePath (w : World) (projectID : string) : result string :=
  let cacheDir := filepathJoin (getCacheHome w) appName in
  if mkdir_fails w cacheDir then Err "creating cache directory"
  else Ok (filepathJoin cacheDir (projectID +:+ ".json")).

Definition Load (w : World) (now : Z) (projectID : string) : option Project * bool :=
  match getCachePath w projectID with
  | Err _ => (None, false)
  | Ok path =>
      match ReadFile w path with
      | None => (None, false)
      | Some NotJSON => (None, false)
      | Some (Document data) =>
          match unmarshalCachedProject data with
          | Err _ => (None, false)
          | Ok cached =>
              if cacheTTL <? Since now (cp_CachedAt cached) then (None, false)
              else (cp_Project cached, true)
          end
      end
  end.

Definition Save (w : World) (now : Z) (projectID : string) (project : option Project)
  : result World :=
  path <- getCachePath w projectID ;;
  let cached := {| cp_Project := project; cp_CachedAt := now |} in
  match marshalCachedProject cached with
  | None => Err "marshaling cache data"
  | Some data =>
      match WriteFile w path (Document data) with
      | None => Err "writing cache file"
      | Some w' => Ok w'
      end
  end.

Definition userInfoPath (w : World) : string :=
  filepathJoin (filepathJoin (getCacheHome w) appName) "_userinfo.json".

Definition LoadUserInfo (w : World) (now : Z) : option UserInfo * bool :=
  match ReadFile w (userInfoPath w) with
  | None => (None, false)
  | Some NotJSON => (None, false)
  | Some (Document data) =>
      match unmarshalCachedUserInfo data with
      | Err _ => (None, false)
      | Ok cached =>
          if cacheTTL <? Since now (cu_CachedAt cached) then (None, false)
          else (cu_UserInfo cached, true)
      end
  end.

Definition SaveUserInfo (w : World) (now : Z) (userInfo : option UserInfo)
  : result World :=
  let cacheDir := filepathJoin (getCacheHome w) appName in
  if mkdir_fails w cacheDir then Err "creating cache directory" else
  let cached := {| cu_UserInfo := userInfo; cu_CachedAt := now |} in
  match marshalCachedUserInfo cached with
  | None => Err "marshaling user info cache"
  | Some data =>
      match WriteFile w (userInfoPath w) (Document data) with
      | None => Err "writing user info cache"
      | Some w' => Ok w'
      end
  end.

End Decoding.

(** ** Predicates used to state the resolver's behaviour *)

(** [x] is the first element of [l], in order, that satisfies [P]. *)
Definition first_match {A} (P : A -> bool) (l : list A) (x : A) : Prop :=
  exists l1 l2, l = l1 ++ x :: l2 /\ P x = true /\ Forall (fun y => P y = false) l1.

(** Some element of [l] has the integer that [tok] denotes as its ID. *)
Definition literal_id_hit {A} (ID : A -> Z) (l : list A) (tok : string) : Prop :=
  exists id x, Atoi tok = Some id /\ x ∈ l /\ ID x = id.

(** Some element of [l] has a name equal to [tok] up to letter case. *)
Definition exact_name_hit `{std : GoStd} {A} (Name : A -> string) (l : list A)
    (tok : string) : Prop :=
  exists x, x ∈ l /\ ToLower (Name x) = ToLower tok.

(** ** An instance of the standard-library interface for the examples

    Each function agrees with its Go counterpart on the inputs it is used on
    in this file: ASCII text, decimal numerals short enough to be converted
    exactly, and dates of four-digit years in a zone without transitions. *)

Definition lower_ascii (c : ascii) : ascii :=
  if (65 <=? byte_of c) && (byte_of c <=? 90)
  then ascii_of_nat (nat_of_ascii c + 32) else c.

Fixpoint ascii_ToLower (s : string) : string :=
  match s with
  | EmptyString => EmptyString
  | String c s' => String (lower_ascii c) (ascii_ToLower s')
  end.

Definition is_space (c : ascii) : bool :=
  (byte_of c =? 32) || ((9 <=? byte_of c) && (byte_of c <=? 13)).

Fixpoint trim_left (s : string) : string :=
  match s with
  | String c s' => if is_space c then trim_left s' else s
  | EmptyString => EmptyString
  end.

Fixpoint trim_right (s : string) : string :=
  match s with
  | EmptyString => EmptyString
  | String c s' =>
      match trim_right s' with
      | EmptyString => if is_space c then EmptyString else String c EmptyString
      | r => String c r
      end
  end.

Definition ascii_TrimSpace (s : string) : string := trim_right (trim_left s).

Fixpoint split_dot (s : string) : string * option string :=
  match s with
  | EmptyString => (EmptyString, None)
  | String c s' =>
      if Ascii.eqb c "."%char then (EmptyString, Some s')
      else let '(a, b) := split_dot s' in (String c a, b)
  end.

Definition float_of_Z (z : Z) : float := PrimFloat.of_uint63 (Uint63.of_Z z).

(** Decimal numerals [[+-]ddd[.ddd]] whose digits form an integer below
    [2^53] with at most 18 of them after the point: the quotient of two
    exactly represented integers, rounded once, which is the value
    [strconv.ParseFloat] returns for them. *)
Definition decimal_ParseFloat (s : string) : option float :=
  let '(neg, body) :=
    match s with
    | String "-"%char r => (true, r)
    | String "+"%char r => (false, r)
    | _ => (false, s)
    end in
  let '(ip, fp) := split_dot body in
  let fp := default EmptyString fp in
  match String.append ip fp with
  | EmptyString => None
  | ds =>
      match digits_value 0 ds with
      | Some m =>
          if (m <? 2 ^ 53) && (Z.of_nat (String.length fp) <=? 18) then
            let x := PrimFloat.div (float_of_Z m)
                       (float_of_Z (10 ^ Z.of_nat (String.length fp))) in
            Some (if neg then PrimFloat.opp x else x)
          else None
      | None => None
      end
  end.

Fixpoint insert_sorted {A} (less : A -> A -> bool) (x : A) (l : list A) : list A :=
  match l with
  | [] => [x]
  | y :: l' => if less y x then y :: insert_sorted less x l' else x :: l
  end.

Definition insertion_sort {A} (less : A -> A -> bool) (l : list A) : list A :=
  fold_right (insert_sorted less) [] l.

#[export] Instance ascii_std : GoStd := {|
  ToLower := ascii_ToLower;
  TrimSpace := ascii_TrimSpace;
  EqualFold := fun a b => String.eqb (ascii_ToLower a) (ascii_ToLower b);
  ParseFloat := decimal_ParseFloat;
  filepathJoin := fun a b => a +:+ "/" +:+ b;
  timeMarshal := fun t => Some (NilZero.string_of_int (Z.to_int t));
  timeUnmarshal := fun s => Z.of_int <$> NilZero.int_of_string s;
  Date_ := calendar_Date;
  sortSlice := @insertion_sort;
  mapRange := fun A m => map_to_list m;
  ToValidUTF8 := fun s => s
|}.

(** ** Inputs of the worked examples *)

Definition a_member (id : Z) (name userid : string) : Member :=
  {| Member_ID := id; Member_Name := name; Member_UserID := userid;
     Member_Activated := true |}.

Definition a_category (id : Z) (name : string) : Category :=
  {| Category_ID := id; Category_Name := name; Category_Icon := EmptyString;
     Category_Color := EmptyString |}.

Definition a_payment_mode (id : Z) (name : string) : PaymentMode :=
  {| PaymentMode_ID := id; PaymentMode_Name := name;
     PaymentMode_Icon := EmptyString; PaymentMode_Color := EmptyString |}.

Definition a_currency (id : Z) (name : string) : Currency :=
  {| Currency_ID := id; Currency_Name := name; Currency_ExchangeRate := 1%float |}.

Definition a_project (ms : list Member) (cs : list Category)
    (pms : list PaymentMode) (curs : list Currency) : Project :=
  {| Project_ID := "demo"; Project_Name := "Demo";
     Project_CurrencyName := "$";
     Members := Some ms; Categories := Some cs; PaymentModes := Some pms;
     Currencies := Some curs |}.

(** Every collection holds an entity with ID 2 whose name is the numeral 5 and
    an entity with ID 5. *)
Definition project_numeric_names : Project :=
  a_project
    [a_member 2 "5" "five"; a_member 5 "Bob" "bob"]
    [a_category 2 "5"; a_category 5 "Travel"]
    [a_payment_mode 2 "5"; a_payment_mode 5 "Cash"]
    [a_currency 2 "5"; a_currency 5 "€"].

(** Every collection holds one entity, with ID 1 and name Food, followed in
    the categories by a second name that also contains the token foo. *)
Definition project_food : Project :=
  a_project
    [a_member 1 "Food" "fd"]
    [a_category 1 "Food"; a_category 2 "Seafood"]
    [a_payment_mode 1 "Food"; a_payment_mode 2 "Seafood"]
    [a_currency 1 "Food"].

Definition project_dollars : Project :=
  a_project [] [] [] [a_currency 4 "US Dollar ($)"; a_currency 7 "$"].

(** The symbols that several codes share and that no preferred code has. *)
Definition unsettled_symbols : list string := ["kr"; "Rs"; "﷼"].

(** The symbols of the preferred codes. *)
Definition preferred_symbols : list string := ["$"; "¥"; "£"; "€"].

Definition string_in (x : string) (l : list string) : bool :=
  existsb (String.eqb x) l.

(** Two entries with the same symbol are the same entry, unless the symbol is
    one of those listed. *)
Definition shared_symbols_are_listed (entries : list (string * string)) : bool :=
  forallb
    (fun e1 =>
       forallb
         (fun e2 =>
            implb (String.eqb e1.2 e2.2)
                  (String.eqb e1.1 e2.1
                   || string_in e1.2 (unsettled_symbols ++ preferred_symbols)))
         entries)
    entries.

(** ** Predicates used to state the filters' behaviour *)

(** Every filter is evaluated, none is skipped. *)
Definition passes_all (filters : list billFilter) (bill : BillResponse) : bool :=
  fold_left (fun acc filter => filter bill && acc) filters true.

(** The operator a filter gets from the operator group of the match. *)
Definition operator_of (op : string) : string :=
  if String.eqb op EmptyString then "=" else op.

Definition first_byte_in (s : string) (cs : list ascii) : bool :=
  match s with
  | EmptyString => false
  | String c _ => existsb (Ascii.eqb c) cs
  end.

(** The binary64 number nearest to 49.99. *)
Definition amount_49_99 : float := 0x1.8feb851eb851fp+5%float.

(** The check that [civil_of_doe] inverts [doe_of_civil] at one day of the
    era, with the year of the era and the month in range. *)
Definition doe_roundtrip (doe : Z) : bool :=
  let '(yoe, mp, d) := civil_of_doe doe in
  (0 <=? yoe) && (yoe <? 400) && (0 <=? mp) && (mp <? 12)
  && (doe_of_civil yoe mp d =? doe).

(** [p] holds at the [n] integers from [z] on. *)
Fixpoint holds_from (n : nat) (z : Z) (p : Z -> bool) : bool :=
  match n with
  | O => true
  | S n' => p z && holds_from n' (z + 1) p
  end.

Definition example_now : Time := {| Year := 2026; Month := 3; Day := 31; Clock := 0 |}.

(** The flags of [cospend list --recent s]. *)
Definition only_recent (s : string) : ListFlags :=
  {| listPaidBy := EmptyString; listPaidFor := []; listAmount := EmptyString;
     listName := EmptyString; listPaymentMethod := EmptyString;
     listCategory := EmptyString; listLimit := 0; listDate := EmptyString;
     listToday := false; listThisMonth := false; listThisWeek := false;
     listRecent := s |}.

(** [a] is not older than [b]: its date is not smaller, and for one date its
    timestamp is not smaller. *)
Definition not_older (a b : BillResponse) : Prop :=
  String.leb (Date b) (Date a) = true
  /\ (Date a = Date b -> Timestamp b <= Timestamp a).

(** The names a project resolves bill IDs with. *)
Definition resolveWith `{std : GoStd} (project : Project) : BillResponse -> resolvedBill :=
  resolveBill
    (names_by_id Member_ID Member_Name (elems (Members project)))
    (names_by_id Category_ID Category_Name (elems (Categories project)))
    (names_by_id PaymentMode_ID PaymentMode_Name (elems (PaymentModes project))).

Definition a_bill (id : Z) (date : string) (timestamp : Z) : BillResponse :=
  {| Bill_ID := id; What := "lunch"; Amount := 50%float; Date := date;
     PayerID := 1; Owers := None; Comment := EmptyString; PaymentModeID := 0;
     CategoryID := 0; Repeat := "n"; Timestamp := timestamp |}.

(** Three bills in the order the API returned them: the oldest first. *)
Definition example_bills : list BillResponse :=
  [a_bill 1 "2026-01-01" 100; a_bill 2 "2026-02-01" 200; a_bill 3 "2026-02-01" 300].

Definition limit_flags (n : Z) : ListFlags :=
  {| listPaidBy := EmptyString; listPaidFor := []; listAmount := EmptyString;
     listName := EmptyString; listPaymentMethod := EmptyString;
     listCategory := EmptyString; listLimit := n; listDate := EmptyString;
     listToday := false; listThisMonth := false; listThisWeek := false;
     listRecent := EmptyString |}.

(** ** Predicates used to state the cache's behaviour *)

Definition is_int (z : Z) : Prop := min_int <= z <= max_int.

(** The string is valid UTF-8, as every string decoded from JSON is. *)
Definition is_text `{std : GoStd} (s : string) : Prop := ToValidUTF8 s = s.

Definition Member_ok `{std : GoStd} (m : Member) : Prop :=
  is_int (Member_ID m) /\ is_text (Member_Name m) /\ is_text (Member_UserID m).

Definition Category_ok `{std : GoStd} (c : Category) : Prop :=
  is_int (Category_ID c) /\ is_text (Category_Name c) /\ is_text (Category_Icon c)
  /\ is_text (Category_Color c).

Definition PaymentMode_ok `{std : GoStd} (pm : PaymentMode) : Prop :=
  is_int (PaymentMode_ID pm) /\ is_text (PaymentMode_Name pm)
  /\ is_text (PaymentMode_Icon pm) /\ is_text (PaymentMode_Color pm).

Definition Currency_ok `{std : GoStd} (c : Currency) : Prop :=
  is_int (Currency_ID c) /\ is_text (Currency_Name c).

(** The values of the project are values of their Go types: every ID is an
    [int] and every string is valid UTF-8. *)
Definition Project_ok `{std : GoStd} (p : Project) : Prop :=
  is_text (Project_ID p) /\ is_text (Project_Name p)
  /\ is_text (Project_CurrencyName p)
  /\ Forall Member_ok (elems (Members p))
  /\ Forall Category_ok (elems (Categories p))
  /\ Forall PaymentMode_ok (elems (PaymentModes p))
  /\ Forall Currency_ok (elems (Currencies p)).

(** The project a cache file gives back for [p]: the same fields, with a nil
    slice of categories or payment modes turned into an empty one. *)
Definition as_loaded (p : Project) : Project :=
  {| Project_ID := Project_ID p; Project_Name := Project_Name p;
     Project_CurrencyName := Project_CurrencyName p; Members := Members p;
     Categories := Some (elems (Categories p));
     PaymentModes := Some (elems (PaymentModes p));
     Currencies := Currencies p |}.

(** Field-for-field equality, slices being compared by their elements. *)
Definition same_fields (p q : Project) : Prop :=
  Project_ID p = Project_ID q /\ Project_Name p = Project_Name q
  /\ Project_CurrencyName p = Project_CurrencyName q
  /\ elems (Members p) = elems (Members q)
  /\ elems (Categories p) = elems (Categories q)
  /\ elems (PaymentModes p) = elems (PaymentModes q)
  /\ elems (Currencies p) = elems (Currencies q).

Definition example_world : World :=
  {| XDG_CACHE_HOME := "/tmp/cache"; xdg_CacheHome := "/home/user/.cache";
     mkdir_fails := fun _ => false; write_fails := fun _ => false; files := ∅ |}.

(** The project of the test of an expired entry: every slice is nil. *)
Definition project_without_slices : Project :=
  {| Project_ID := "expired-project"; Project_Name := "Expired Project";
     Project_CurrencyName := EmptyString; Members := None; Categories := None;
     PaymentModes := None; Currencies := None |}.

(** The cache file of the test of an expired entry, written at instant 0. *)
Definition expired_document : json :=
  JObj [ ("project",
          JObj [ ("id", JStr "expired-project"); ("name", JStr "Expired Project");
                 ("members", JNull); ("categories", JNull);
                 ("paymentmodes", JNull); ("currencies", JNull) ]);
         ("cached_at", JStr "0") ].

Definition world_with (path : string) (f : file) : World :=
  {| XDG_CACHE_HOME := "/tmp/cache"; xdg_CacheHome := "/home/user/.cache";
     mkdir_fails := fun _ => false; write_fails := fun _ => false;
     files := {[ path := f ]} |}.

Definition expired_path : string := "/tmp/cache/cospend/expired-project.json".

(** The letter case of the codes of the table survives upper-casing. *)
Definition codes_survive_upper_casing (entries : list (string * string)) : bool :=
  forallb (fun e => String.eqb (ascii_ToLower (ToUpper e.1)) e.1) entries.

Definition example_user : UserInfo := {| Locale := "de_DE"; Language := "de" |}.

(** ** Predicates used to state the decoding of object-keyed collections *)

(** The category an entry of the object gives: the decoded value, with the
    key as its ID when the key is a decimal integer. *)
Definition category_of_entry (entry : string * Category) : Category :=
  match Atoi entry.1 with
  | Some id => with_ID entry.2 id
  | None => entry.2
  end.

Definition payment_mode_of_entry (entry : string * PaymentMode) : PaymentMode :=
  match Atoi entry.1 with
  | Some id => with_mode_ID entry.2 id
  | None => entry.2
  end.

(** The member [key: value] of a document decodes, from a zero element, to the
    entry with that key. *)
Definition decodes_to {T} (d : decoder T) (zero : T) (member : string * json)
    (entry : string * T) : Prop :=
  member.1 = entry.1 /\ d zero member.2 = (entry.2, true).

(** The categories object of the test of object-keyed collections. *)
Definition keyed_categories : json :=
  JObj [ ("5", JObj [("name", JStr "Food"); ("icon", JStr "F"); ("color", JStr "#ff0000")]);
         ("12", JObj [("name", JStr "Transport"); ("icon", JStr "T");
                      ("color", JStr "#00ff00")]) ].

(** ** Predicates used to state how the filter list is built *)

Definition given (s : string) : nat := if String.eqb s EmptyString then 0 else 1.

Definition switched (b : bool) : nat := if b then 1 else 0.

(** The number of filter flags given on the command line; the repeatable
    flag counts once. *)
Definition flags_given (flags : ListFlags) : nat :=
  (given (listPaidBy flags)
   + match listPaidFor flags with [] => 0 | _ => 1 end
   + given (listAmount flags) + given (listName flags)
   + given (listPaymentMethod flags) + given (listCategory flags)
   + switched (listToday flags) + given (listDate flags)
   + switched (listThisMonth flags) + switched (listThisWeek flags)
   + given (listRecent flags))%nat.

(** Every operand that was given resolves or parses. *)
Definition operands_ok `{std : GoStd} (flags : ListFlags) (now : Time) (project : Project)
  : Prop :=
  (listPaidBy flags = EmptyString
   \/ is_ok (ResolveMember project (listPaidBy flags)) = true)
  /\ Forall (fun username => is_ok (ResolveMember project username) = true)
            (listPaidFor flags)
  /\ (listAmount flags = EmptyString
      \/ is_ok (parseAmountFilter (listAmount flags)) = true)
  /\ (listPaymentMethod flags = EmptyString
      \/ is_ok (ResolvePaymentMode project (listPaymentMethod flags)) = true)
  /\ (listCategory flags = EmptyString
      \/ is_ok (ResolveCategory project (listCategory flags)) = true)
  /\ (listDate flags = EmptyString
      \/ is_ok (parseDateFilter now (listDate flags)) = true)
  /\ (listRecent flags = EmptyString
      \/ is_ok (parseRecent now (listRecent flags)) = true).

(** The flags of [cospend list --by alice --for bob --for alice --today]. *)
Definition some_flags : ListFlags :=
  {| listPaidBy := "fd"; listPaidFor := ["Food"; "fd"]; listAmount := EmptyString;
     listName := EmptyString; listPaymentMethod := EmptyString;
     listCategory := EmptyString; listLimit := 0; listDate := EmptyString;
     listToday := true; listThisMonth := false; listThisWeek := false;
     listRecent := EmptyString |}.

(** The flags of [cospend list --for u1 --for u2 ...]. *)
Definition only_paid_for (usernames : list string) : ListFlags :=
  {| listPaidBy := EmptyString; listPaidFor := usernames; listAmount := EmptyString;
     listName := EmptyString; listPaymentMethod := EmptyString;
     listCategory := EmptyString; listLimit := 0; listDate := EmptyString;
     listToday := false; listThisMonth := false; listThisWeek := false;
     listRecent := EmptyString |}.

(** ** Predicates used to state what a resolved bill shows *)





(** A bill paid by member 1 for the members 1 and 9, in category 7. *)
Definition a_shared_bill : BillResponse :=
  {| Bill_ID := 4; What := "tea" +:+ String newline " and cake"; Amount := 50%float;
     Date := "2026-02-01";
     PayerID := 1;
     Owers := Some [ {| Ower_ID := 1; Ower_Weight := 1%float |};
                     {| Ower_ID := 9; Ower_Weight := 1%float |} ];
     Comment := EmptyString; PaymentModeID := 0; CategoryID := 7; Repeat := "n";
     Timestamp := 100 |}.

(** ** Predicates used to state the date filters' behaviour *)

(** The check that the day of the era [doe] is a day of its month. *)
Definition doe_valid (doe : Z) : bool :=
  let '(yoe, mp, d) := civil_of_doe doe in
  let m := if mp <? 10 then mp + 3 else mp - 9 in
  let y := if m <=? 2 then yoe + 1 else yoe in
  (1 <=? m) && (m <=? 12) && (1 <=? d) && (d <=? daysIn m y).

(** The months counted from January of year 0, and the day number of the
    first day of a month so counted. *)
Definition month_index (t : Time) : Z := 12 * Year t + (Month t - 1).

Definition month_start (n : Z) : Z := days_from_civil (n / 12) (n mod 12 + 1) 1.

(** The order of the calendar: by year, then month, then day. *)
Definition date_compare (a b : Time) : comparison :=
  match Year a ?= Year b with
  | Eq => match Month a ?= Month b with
          | Eq => Day a ?= Day b
          | c => c
          end
  | c => c
  end.

(** A date that [Format_date] writes with a four-digit year. *)
Definition printable (t : Time) : Prop := valid_date t /\ 0 <= Year t <= 9999.

(** The decimal digit [i] as a byte, and the texts of two and of four
    digits of a number. *)
Definition digit (i : Z) : ascii := ascii_of_nat (Z.to_nat (48 + i)).

Definition two_digits (n : Z) : string :=
  String (digit (n / 10)) (String (digit (n mod 10)) EmptyString).

Definition four_digits (n : Z) : string :=
  two_digits (n / 100) +:+ two_digits (n mod 100).

(** The check that [pad_int] writes [n] with these digits. *)
Definition pads_as_digits (n : Z) : bool :=
  String.eqb (pad_int 4 n) (four_digits n)
  && (if n <? 100 then String.eqb (pad_int 2 n) (two_digits n) else true).

(** The flags of [cospend list --this-week], [--today], [--this-month] and
    [--date s]. *)
Definition only_this_week : ListFlags :=
  {| listPaidBy := EmptyString; listPaidFor := []; listAmount := EmptyString;
     listName := EmptyString; listPaymentMethod := EmptyString;
     listCategory := EmptyString; listLimit := 0; listDate := EmptyString;
     listToday := false; listThisMonth := false; listThisWeek := true;
     listRecent := EmptyString |}.

Definition only_today : ListFlags :=
  {| listPaidBy := EmptyString; listPaidFor := []; listAmount := EmptyString;
     listName := EmptyString; listPaymentMethod := EmptyString;
     listCategory := EmptyString; listLimit := 0; listDate := EmptyString;
     listToday := true; listThisMonth := false; listThisWeek := false;
     listRecent := EmptyString |}.

Definition only_this_month : ListFlags :=
  {| listPaidBy := EmptyString; listPaidFor := []; listAmount := EmptyString;
     listName := EmptyString; listPaymentMethod := EmptyString;
     listCategory := EmptyString; listLimit := 0; listDate := EmptyString;
     listToday := false; listThisMonth := true; listThisWeek := false;
     listRecent := EmptyString |}.

(** The Monday-based week a day number lies in; day 0 is a Thursday. *)
Definition week_of (day : Z) : Z := (day + 3) / 7.

(** The number of days from the Monday of its week to [now], and that
    Monday by the calendar, at the clock reading of [now]. *)
Definition days_since_monday (now : Time) : Z :=
  (if Weekday now =? 0 then 7 else Weekday now) - 1.

Definition monday_of (now : Time) : Time :=
  calendar_Date (Year now) (Month now) (Day now - days_since_monday now) (Clock now).

(** [time.Date] gives the dates of the calendar for the two calls behind the
    week of [now]: the Monday, and the day six days after it. *)
Definition week_in_calendar `{std : GoStd} (now : Time) : Prop :=
  Date_is_calendar (Year now) (Month now) (Day now - days_since_monday now) (Clock now)
  /\ Date_is_calendar (Year (monday_of now)) (Month (monday_of now))
       (Day (monday_of now) + 6) (Clock (monday_of now)).

Definition a_day (year month day : Z) : Time :=
  {| Year := year; Month := month; Day := day; Clock := 0 |}.

(** A bill of the given date. *)
Definition bill_of (date : string) : BillResponse := a_bill 1 date 100.

(** ** Configuration (package config) *)

Record Config : Type := {
  Domain : string;
  User : string;
  Password : string
}.

(** The three environment variables [config.Load] reads; an unset variable
    reads as the empty string. *)
Record Env : Type := {
  NEXTCLOUD_DOMAIN : string;
  NEXTCLOUD_USER : string;
  NEXTCLOUD_PASSWORD : string
}.

Definition zeroConfig : Config :=
  {| Domain := EmptyString; User := EmptyString; Password := EmptyString |}.

(** [config.Load].  [configFile] is what the search for a config file gave:
    [None] when [GetConfigPath] found no file, else the result of
    [LoadFromFile] on the file found. *)
Definition config_Load (configFile : option (result Config)) (env : Env) : result Config :=
  cfg <-
    (match configFile with
     | None => Ok zeroConfig
     | Some (Ok fileCfg) => Ok fileCfg
     | Some (Err msg) => Err msg
     end) ;;
  let cfg := if String.eqb (NEXTCLOUD_DOMAIN env) EmptyString then cfg
             else {| Domain := NEXTCLOUD_DOMAIN env; User := User cfg;
                     Password := Password cfg |} in
  let cfg := if String.eqb (NEXTCLOUD_USER env) EmptyString then cfg
             else {| Domain := Domain cfg; User := NEXTCLOUD_USER env;
                     Password := Password cfg |} in
  let cfg := if String.eqb (NEXTCLOUD_PASSWORD env) EmptyString then cfg
             else {| Domain := Domain cfg; User := User cfg;
                     Password := NEXTCLOUD_PASSWORD env |} in
  if String.eqb (Domain cfg) EmptyString then
    Err "domain is required (set in config file or NEXTCLOUD_DOMAIN env var)"
  else if String.eqb (User cfg) EmptyString then
    Err "user is required (set in config file or NEXTCLOUD_USER env var)"
  else if String.eqb (Password cfg) EmptyString then
    Err "password is required (set in config file or NEXTCLOUD_PASSWORD env var)"
  else Ok cfg.

(** ** The resolvers of the earlier cache package

    The add command assigns the result of [ResolveCurrency] to an integer
    field of the bill: it is written against the version of package cache
    whose resolvers all return IDs.  In that version [ResolveMember] is the
    function above; the other three are these. *)

Module cache_v1.
Section Resolver.
Context `{std : GoStd}.

Definition ResolveCategory (project : Project) (nameOrID : string) : result Z :=
  let byID :=
    match Atoi nameOrID with
    | Some id =>
        if existsb (fun c => Category_ID c =? id) (elems (Categories project))
        then Some id else None
    | None => None
    end in
  match byID with
  | Some id => Ok id
  | None =>
      let lowerName := ToLower nameOrID in
      match find (fun c => String.eqb (ToLower (Category_Name c)) lowerName)
                 (elems (Categories project)) with
      | Some c => Ok (Category_ID c)
      | None => Err ("category not found: " +:+ nameOrID)
      end
  end.

Definition ResolvePaymentMode (project : Project) (nameOrID : string) : result Z :=
  let byID :=
    match Atoi nameOrID with
    | Some id =>
        if existsb (fun pm => PaymentMode_ID pm =? id) (elems (PaymentModes project))
        then Some id else None
    | None => None
    end in
  match byID with
  | Some id => Ok id
  | None =>
      let lowerName := ToLower nameOrID in
      match find (fun pm => String.eqb (ToLower (PaymentMode_Name pm)) lowerName)
                 (elems (PaymentModes project)) with
      | Some pm => Ok (PaymentMode_ID pm)
      | None => Err ("payment mode not found: " +:+ nameOrID)
      end
  end.

Definition ResolveCurrency (project : Project) (nameOrID : string) : result Z :=
  let byID :=
    match Atoi nameOrID with
    | Some id =>
        if existsb (fun cur => Currency_ID cur =? id) (elems (Currencies project))
        then Some id else None
    | None => None
    end in
  match byID with
  | Some id => Ok id
  | None =>
      let lowerName := ToLower nameOrID in
      match find (fun cur => String.eqb (ToLower (Currency_Name cur)) lowerName)
                 (elems (Currencies project)) with
      | Some cur => Ok (Currency_ID cur)
      | None =>
          let bySymbol :=
            match currencyCodeToSymbol !! lowerName with
            | Some symbol =>
                find (fun cur => Contains (Currency_Name cur) symbol)
                     (elems (Currencies project))
            | None => None
            end in
          match bySymbol with
          | Some cur => Ok (Currency_ID cur)
          | None => Err ("currency not found: " +:+ nameOrID)
          end
      end
  end.

End Resolver.
End cache_v1.

(** ** The add command (package cmd) *)

(** [api.Bill], the bill to create. *)
Record Bill : Type := {
  Bill_What : string;
  Bill_Amount : float;
  Bill_PayerID : Z;
  Bill_OwedTo : slice Z;
  Bill_Date : string;
  Bill_Comment : string;
  Bill_PaymentModeID : Z;
  Bill_CategoryID : Z;
  Bill_OriginalCurrencyID : Z
}.

(** The flags of the add command. *)
Record AddFlags : Type := {
  category : string;
  paidBy : string;
  paidFor : list string;
  convertTo : string;
  paymentMethod : string;
  comment : string
}.

(** The calls a command makes to the server, in the order made. *)
Inductive request : Type :=
| GetProjectRequest (projectID : string)
| CreateBillRequest (projectID : string) (bill : Bill).

(** What a run of the command leaves behind: the cache files, the calls made
    to the server, the lines written to the error and to the standard
    output, and the error returned; [None] stands for a run that ended in a
    nil-pointer panic. *)
Record Run : Type := {
  run_world : World;
  run_requests : list request;
  run_stderr : list string;
  run_stdout : list string;
  run_returned : option (result unit)
}.

Section AddCommand.
Context `{std : GoStd}.

(** The server, as the two methods of the client the command calls: each
    gives the value its call returns. *)
Variable GetProject : Config -> string -> result Project.
Variable CreateBill : Config -> string -> Bill -> result unit.

(** The verb [%.2f]. *)
Variable Sprintf_2f : float -> string.

(** "Get project (from cache or API)": the cache files afterwards, the calls
    made, the warnings written and the project.  [cache.Load] can report
    found with a nil project, hence the option. *)
Definition acquireProject (w : World) (now : Z) (cfg : Config) (ProjectID : string)
  : World * list request * list string * result (option Project) :=
  match Load w now ProjectID with
  | (project, true) => (w, [], [], Ok project)
  | (_, false) =>
      match GetProject cfg ProjectID with
      | Err msg =>
          (w, [GetProjectRequest ProjectID], [], Err ("fetching project: " +:+ msg))
      | Ok project =>
          match Save w now ProjectID (Some project) with
          | Ok w' => (w', [GetProjectRequest ProjectID], [], Ok (Some project))
          | Err msg =>
              (w, [GetProjectRequest ProjectID],
               ["Warning: failed to cache project: " +:+ msg
                +:+ String newline EmptyString],
               Ok (Some project))
          end
      end
  end.

(** The loop of "Resolve owed members", from the IDs collected so far. *)
Fixpoint resolveOwed (project : Project) (usernames : list string) (owedIDs : slice Z)
  : result (slice Z) :=
  match usernames with
  | [] => Ok owedIDs
  | username :: rest =>
      memberID <- wrap_error "resolving owed member" (ResolveMember project username) ;;
      resolveOwed project rest (append owedIDs memberID)
  end.

(** From "Resolve payer" to "Add optional comment": the bill the command
    sends. *)
Definition buildBill (project : Project) (cfg : Config) (flags : AddFlags) (today : Time)
    (expenseName : string) (amount : float) : result Bill :=
  let payerUsername :=
    if String.eqb (paidBy flags) EmptyString then User cfg else paidBy flags in
  payerID <- wrap_error "resolving payer" (ResolveMember project payerUsername) ;;
  owedIDs <-
    (match paidFor flags with
     | [] => Ok (Some [payerID])
     | _ => resolveOwed project (paidFor flags) None
     end) ;;
  categoryID <-
    (if String.eqb (category flags) EmptyString then Ok 0
     else wrap_error "resolving category"
            (cache_v1.ResolveCategory project (category flags))) ;;
  methodID <-
    (if String.eqb (paymentMethod flags) EmptyString then Ok 0
     else wrap_error "resolving payment method"
            (cache_v1.ResolvePaymentMode project (paymentMethod flags))) ;;
  currencyID <-
    (if String.eqb (convertTo flags) EmptyString then Ok 0
     else wrap_error "resolving currency"
            (cache_v1.ResolveCurrency project (convertTo flags))) ;;
  Ok {| Bill_What := expenseName; Bill_Amount := amount; Bill_PayerID := payerID;
        Bill_OwedTo := owedIDs; Bill_Date := Format_date today;
        Bill_Comment := comment flags; Bill_PaymentModeID := methodID;
        Bill_CategoryID := categoryID; Bill_OriginalCurrencyID := currencyID |}.

Definition stopped (w : World) (requests : list request) (stderr : list string)
    (msg : string) : Run :=
  {| run_world := w; run_requests := requests; run_stderr := stderr; run_stdout := [];
     run_returned := Some (Err msg) |}.

(** [runAdd].  The two arguments are the ones [cobra.ExactArgs(2)] lets
    through; [now] is the instant and [today] the local date of the run. *)
Definition runAdd (w : World) (configFile : option (result Config)) (env : Env)
    (now : Z) (today : Time) (ProjectID : string) (flags : AddFlags)
    (expenseName amountStr : string) : Run :=
  if String.eqb ProjectID EmptyString then
    stopped w [] [] "project is required (use -p or --project)"
  else
    match ParseFloat amountStr with
    | None => stopped w [] [] ("invalid amount: " +:+ amountStr)
    | Some amount =>
        match config_Load configFile env with
        | Err msg => stopped w [] [] msg
        | Ok cfg =>
            let '(w', requests, warnings, acquired) :=
              acquireProject w now cfg ProjectID in
            match acquired with
            | Err msg => stopped w' requests warnings msg
            | Ok None =>
                {| run_world := w'; run_requests := requests; run_stderr := warnings;
                   run_stdout := []; run_returned := None |}
            | Ok (Some project) =>
                match buildBill project cfg flags today expenseName amount with
                | Err msg => stopped w' requests warnings msg
                | Ok bill =>
                    let requests := requests ++ [CreateBillRequest ProjectID bill] in
                    match CreateBill cfg ProjectID bill with
                    | Err msg => stopped w' requests warnings ("creating bill: " +:+ msg)
                    | Ok _ =>
                        {| run_world := w'; run_requests := requests;
                           run_stderr := warnings;
                           run_stdout :=
                             ["Successfully added expense: " +:+ expenseName +:+ " ("
                              +:+ Sprintf_2f amount +:+ ")"
                              +:+ String newline EmptyString];
                           run_returned := Some (Ok tt) |}
                    end
                end
            end
        end
    end.

(** The four ways the project is acquired. *)
Inductive acquired (w : World) (now : Z) (cfg : Config) (ProjectID : string)
  : World -> list request -> list string -> result (option Project) -> Prop :=
| from_cache project :
    Load w now ProjectID = (project, true) ->
    acquired w now cfg ProjectID w [] [] (Ok project)
| fetch_failed msg :
    (Load w now ProjectID).2 = false ->
    GetProject cfg ProjectID = Err msg ->
    acquired w now cfg ProjectID w [GetProjectRequest ProjectID] []
      (Err ("fetching project: " +:+ msg))
| fetched_and_cached project w' :
    (Load w now ProjectID).2 = false ->
    GetProject cfg ProjectID = Ok project ->
    Save w now ProjectID (Some project) = Ok w' ->
    acquired w now cfg ProjectID w' [GetProjectRequest ProjectID] [] (Ok (Some project))
| fetched_not_cached project msg :
    (Load w now ProjectID).2 = false ->
    GetProject cfg ProjectID = Ok project ->
    Save w now ProjectID (Some project) = Err msg ->
    acquired w now cfg ProjectID w [GetProjectRequest ProjectID]
      ["Warning: failed to cache project: " +:+ msg +:+ String newline EmptyString]
      (Ok (Some project)).

(** The runs of the command, by the step at which they end. *)
Inductive add_run (w : World) (configFile : option (result Config)) (env : Env)
    (now : Z) (today : Time) (ProjectID : string) (flags : AddFlags)
    (expenseName amountStr : string) : Run -> Prop :=
| rejected msg :
    ProjectID = EmptyString \/ ParseFloat amountStr = None
    \/ is_ok (config_Load configFile env) = false ->
    add_run w configFile env now today ProjectID flags expenseName amountStr
      (stopped w [] [] msg)
| no_project amount cfg w' requests warnings msg :
    ProjectID <> EmptyString -> ParseFloat amountStr = Some amount ->
    config_Load configFile env = Ok cfg ->
    acquired w now cfg ProjectID w' requests warnings (Err msg) ->
    add_run w configFile env now today ProjectID flags expenseName amountStr
      (stopped w' requests warnings msg)
| nil_project amount cfg w' requests warnings :
    ProjectID <> EmptyString -> ParseFloat amountStr = Some amount ->
    config_Load configFile env = Ok cfg ->
    acquired w now cfg ProjectID w' requests warnings (Ok None) ->
    add_run w configFile env now today ProjectID flags expenseName amountStr
      {| run_world := w'; run_requests := requests; run_stderr := warnings;
         run_stdout := []; run_returned := None |}
| not_resolved amount cfg w' requests warnings project msg :
    ProjectID <> EmptyString -> ParseFloat amountStr = Some amount ->
    config_Load configFile env = Ok cfg ->
    acquired w now cfg ProjectID w' requests warnings (Ok (Some project)) ->
    buildBill project cfg flags today expenseName amount = Err msg ->
    add_run w configFile env now today ProjectID flags expenseName amountStr
      (stopped w' requests warnings msg)
| sent amount cfg w' requests warnings project bill stdout returned :
    ProjectID <> EmptyString -> ParseFloat amountStr = Some amount ->
    config_Load configFile env = Ok cfg ->
    acquired w now cfg ProjectID w' requests warnings (Ok (Some project)) ->
    buildBill project cfg flags today expenseName amount = Ok bill ->
    (returned = Some (Ok tt) /\ stdout <> [] /\ CreateBill cfg ProjectID bill = Ok tt
     \/ (exists msg, returned = Some (Err msg)) /\ stdout = []
        /\ is_ok (CreateBill cfg ProjectID bill) = false) ->
    add_run w configFile env now today ProjectID flags expenseName amountStr
      {| run_world := w'; run_requests := requests ++ [CreateBillRequest ProjectID bill];
         run_stderr := warnings; run_stdout := stdout; run_returned := returned |}.

End AddCommand.

(** ** Inputs of the worked examples of the add command *)

Definition example_env : Env :=
  {| NEXTCLOUD_DOMAIN := "cloud.example.com"; NEXTCLOUD_USER := "fd";
     NEXTCLOUD_PASSWORD := "secret" |}.

Definition file_config : Config :=
  {| Domain := "files.example.com"; User := "bob"; Password := "hunter2" |}.

Definition no_add_flags : AddFlags :=
  {| category := EmptyString; paidBy := EmptyString; paidFor := [];
     convertTo := EmptyString; paymentMethod := EmptyString; comment := EmptyString |}.

(** A server that knows one project and accepts every bill. *)
Definition food_server (cfg : Config) (projectID : string) : result Project :=
  if String.eqb projectID "demo" then Ok project_food else Err "API error: not found".

Definition accepting (cfg : Config) (projectID : string) (bill : Bill) : result unit :=
  Ok tt.

Definition example_config : Config :=
  {| Domain := "cloud.example.com"; User := "fd"; Password := "secret" |}.

Definition two_decimals (amount : float) : string := "49.99".

(** The bill of [add "Lunch" 49.99 -p demo] on the last day of March 2026. *)
Definition lunch : Bill :=
  {| Bill_What := "Lunch"; Bill_Amount := amount_49_99; Bill_PayerID := 1;
     Bill_OwedTo := Some [1]; Bill_Date := "2026-03-31"; Bill_Comment := EmptyString;
     Bill_PaymentModeID := 0; Bill_CategoryID := 0; Bill_OriginalCurrencyID := 0 |}.

Definition is_fetch (r : request) : bool :=
  match r with GetProjectRequest _ => true | CreateBillRequest _ _ => false end.

(** The ID belongs to an element of the collection. *)
Definition id_of {A} (ID : A -> Z) (l : slice A) (id : Z) : Prop :=
  exists x, x ∈ elems l /\ ID x = id.

(** ** The server address (package config) *)

(** [strings.TrimRight(s, cutset)] for a cutset of one byte. *)
Fixpoint TrimRight (s : string) (c : ascii) : string :=
  match s with
  | EmptyString => EmptyString
  | String a rest =>
      match TrimRight rest c with
      | EmptyString => if Ascii.eqb a c then EmptyString else String a EmptyString
      | trimmed => String a trimmed
      end
  end.

Definition NormalizeURL `{std : GoStd} (url : string) : string :=
  let url := TrimRight url "/" in
  let lower := ToLower url in
  if negb (HasPrefix lower "http://") && negb (HasPrefix lower "https://")
  then "https://" +:+ url
  else url.

(** ** Tables (package cmd) *)

Record Table : Type := {
  headers : list string;
  rows : list (list string);
  colWidths : list Z
}.

Section TableCode.

(** [runewidth.StringWidth] *)
Variable StringWidth : string -> Z.

Definition NewTable (headers : list string) : Table :=
  {| headers := headers; rows := []; colWidths := map StringWidth headers |}.

(** The loop "Update column widths" from index [i] on; indexing the widths
    out of range panics, which is [None]. *)
Fixpoint widen (i : nat) (values : list string) (colWidths : list Z) : option (list Z) :=
  match values with
  | [] => Some colWidths
  | v :: rest =>
      match colWidths !! i with
      | None => None
      | Some old =>
          let w := StringWidth v in
          widen (S i) rest (if old <? w then <[i := w]> colWidths else colWidths)
      end
  end.

Definition AddRow (t : Table) (values : list string) : option Table :=
  let values :=
    values ++ replicate (length (headers t) - length values) EmptyString in
  let values :=
    if (length (headers t) <? length values)%nat
    then take (length (headers t)) values else values in
  match widen 0 values (colWidths t) with
  | None => None
  | Some widths =>
      Some {| headers := headers t; rows := rows t ++ [values]; colWidths := widths |}
  end.

(** A table after a sequence of [AddRow] calls. *)
Fixpoint AddRows (t : Table) (calls : list (list string)) : option Table :=
  match calls with
  | [] => Some t
  | values :: rest =>
      match AddRow t values with
      | None => None
      | Some t' => AddRows t' rest
      end
  end.

End TableCode.

(** The row [AddRow] stores for the values it is given, in a table of [n]
    columns. *)
Definition fitted (n : nat) (values : list string) : list string :=
  take n (values ++ replicate (n - length values) EmptyString).

(** The cells of column [i]: the header and the cell of every row. *)
Definition column (t : Table) (i : nat) : list string :=
  omap (fun row => row !! i) (headers t :: rows t).

(** [w] is the largest width in the column. *)
Definition widest (StringWidth : string -> Z) (cells : list string) (w : Z) : Prop :=
  Forall (fun cell => StringWidth cell <= w) cells
  /\ exists cell, cell ∈ cells /\ StringWidth cell = w.

(** A table as [NewTable] and [AddRow] leave it. *)
Definition table_ok (StringWidth : string -> Z) (t : Table) : Prop :=
  length (colWidths t) = length (headers t)
  /\ Forall (fun row => length row = length (headers t)) (rows t)
  /\ forall i w, colWidths t !! i = Some w -> widest StringWidth (column t i) w.

(** The width of text without wide characters. *)
Definition byte_width (s : string) : Z := Z.of_nat (String.length s).

(** * Properties *)

(** ** Lists and strings *)

Lemma find_first_match {A} (P : A -> bool) (l : list A) (x : A) :
  find P l = Some x <-> first_match P l x.
Proof.
  split.
  - induction l as [|a l IH]; simpl; [discriminate|].
    destruct (P a) eqn:Pa.
    + intros [= ->]. exists [], l. repeat split; [assumption | constructor].
    + intros Hf. destruct (IH Hf) as (l1 & l2 & -> & Px & Hl1).
      exists (a :: l1), l2. repeat split; [assumption | constructor; assumption].
  - intros (l1 & l2 & -> & Px & Hl1).
    induction Hl1 as [|a l1 Pa _ IH]; simpl.
    + now rewrite Px.
    + now rewrite Pa.
Qed.

Lemma find_none_iff {A} (P : A -> bool) (l : list A) :
  find P l = None <-> Forall (fun y => P y = false) l.
Proof.
  induction l as [|a l IH]; simpl.
  - split; [constructor | reflexivity].
  - destruct (P a) eqn:Pa.
    + split; [discriminate | intros HF; inversion HF; congruence].
    + rewrite IH. split; [now constructor | now inversion 1].
Qed.

Lemma find_app_first {A} (P : A -> bool) (l1 l2 : list A) :
  find P (l1 ++ l2) =
    match find P l1 with Some x => Some x | None => find P l2 end.
Proof.
  induction l1 as [|a l1 IH]; simpl; [reflexivity|].
  now destruct (P a).
Qed.

Lemma Atoi_nonempty (s : string) (id : Z) : Atoi s = Some id -> s <> EmptyString.
Proof. intros HA ->. discriminate HA. Qed.

(** ** Resolver *)

Section ResolverFacts.
Context `{std : GoStd}.

Lemma existsb_of_hit {A} (ID : A -> Z) (l : list A) (id : Z) :
  (exists x, x ∈ l /\ ID x = id) -> existsb (fun x => ID x =? id) l = true.
Proof.
  intros (x & Hin & Hid). apply existsb_exists. exists x.
  split; [now apply list_elem_of_In|].
  now apply Z.eqb_eq.
Qed.

Lemma existsb_no_hit {A} (ID : A -> Z) (l : list A) (tok : string) (id : Z) :
  ~ literal_id_hit ID l tok -> Atoi tok = Some id ->
  existsb (fun x => ID x =? id) l = false.
Proof.
  intros Hno HA. destruct (existsb _ l) eqn:E; [|reflexivity].
  apply existsb_exists in E as (x & Hin & Hx). apply Z.eqb_eq in Hx.
  apply list_elem_of_In in Hin. exfalso. apply Hno. exists id, x. auto.
Qed.

Lemma find_no_hit {A} (ID : A -> Z) (l : list A) (tok : string) (id : Z) :
  ~ literal_id_hit ID l tok -> Atoi tok = Some id ->
  find (fun x => ID x =? id) l = None.
Proof.
  intros Hno HA. apply find_none_iff, Forall_forall. intros x Hin.
  apply Z.eqb_neq. intros Hx. apply Hno. exists id, x. auto.
Qed.

Lemma find_no_exact {A} (Name : A -> string) (l : list A) (tok : string) :
  ~ exact_name_hit Name l tok ->
  find (fun x => String.eqb (ToLower (Name x)) (ToLower tok)) l = None.
Proof.
  intros Hno. apply find_none_iff, Forall_forall. intros x Hin.
  apply String.eqb_neq. intros Hx. apply Hno. exists x. auto.
Qed.

(** What [ResolveCategory] does once the literal-ID step has found nothing. *)
Lemma ResolveCategory_by_name (project : Project) (tok : string) :
  tok <> EmptyString ->
  ~ literal_id_hit Category_ID (elems (Categories project)) tok ->
  ResolveCategory project tok =
    match find (fun c => String.eqb (ToLower (Category_Name c)) (ToLower tok))
               (elems (Categories project)) with
    | Some c => Ok (Category_ID c)
    | None =>
        match find (fun c => Contains (ToLower (Category_Name c)) (ToLower tok))
                   (elems (Categories project)) with
        | Some c => Ok (Category_ID c)
        | None => Err ("category not found: " +:+ tok)
        end
    end.
Proof.
  intros Hne Hno. unfold ResolveCategory.
  destruct (String.eqb_spec tok EmptyString) as [->|_]; [contradiction|].
  destruct (Atoi tok) as [id|] eqn:HA; [|reflexivity].
  now rewrite (existsb_no_hit _ _ _ _ Hno HA).
Qed.

Lemma ResolvePaymentMode_by_name (project : Project) (tok : string) :
  tok <> EmptyString ->
  ~ literal_id_hit PaymentMode_ID (elems (PaymentModes project)) tok ->
  ResolvePaymentMode project tok =
    match find (fun pm => String.eqb (ToLower (PaymentMode_Name pm)) (ToLower tok))
               (elems (PaymentModes project)) with
    | Some pm => Ok (PaymentMode_ID pm)
    | None =>
        match find (fun pm => Contains (ToLower (PaymentMode_Name pm)) (ToLower tok))
                   (elems (PaymentModes project)) with
        | Some pm => Ok (PaymentMode_ID pm)
        | None => Err ("payment mode not found: " +:+ tok)
        end
    end.
Proof.
  intros Hne Hno. unfold ResolvePaymentMode.
  destruct (String.eqb_spec tok EmptyString) as [->|_]; [contradiction|].
  destruct (Atoi tok) as [id|] eqn:HA; [|reflexivity].
  now rewrite (existsb_no_hit _ _ _ _ Hno HA).
Qed.

(** What [ResolveCurrency] does once the literal-ID and the name steps have
    found nothing. *)
Lemma ResolveCurrency_by_code (project : Project) (tok : string) :
  ~ literal_id_hit Currency_ID (elems (Currencies project)) tok ->
  ~ exact_name_hit Currency_Name (elems (Currencies project)) tok ->
  ResolveCurrency project tok =
    match currencyCodeToSymbol !! ToLower tok with
    | Some symbol =>
        match find (fun cur => Contains (Currency_Name cur) symbol)
                   (elems (Currencies project)) with
        | Some cur => Ok cur
        | None => Err ("currency not found: " +:+ tok)
        end
    | None => Err ("currency not found: " +:+ tok)
    end.
Proof.
  intros Hid Hname. unfold ResolveCurrency.
  assert (match Atoi tok with
          | Some id => find (fun cur => Currency_ID cur =? id) (elems (Currencies project))
          | None => None
          end = None) as ->.
  { destruct (Atoi tok) as [id|] eqn:HA; [|reflexivity].
    now apply (find_no_hit _ _ tok). }
  rewrite (find_no_exact _ _ _ Hname).
  destruct (currencyCodeToSymbol !! ToLower tok) as [symbol|]; [|reflexivity].
  now destruct (find _ _).
Qed.

End ResolverFacts.

Section ResolverProperties.
Context `{std : GoStd}.

(** C1 (as amended): for categories, payment modes and currencies, a token
    that is a decimal integer and is the ID of some entity of the collection
    resolves to that ID, whatever the names in the collection are; for
    currencies the entity returned is the first one, in collection order,
    with that ID.  Member resolution has no such step. *)
Theorem literal_id_match_wins (project : Project) (tok : string) (id : Z) :
  Atoi tok = Some id ->
  ((exists c, c ∈ elems (Categories project) /\ Category_ID c = id) ->
     ResolveCategory project tok = Ok id)
  /\ ((exists pm, pm ∈ elems (PaymentModes project) /\ PaymentMode_ID pm = id) ->
     ResolvePaymentMode project tok = Ok id)
  /\ ((exists cur, cur ∈ elems (Currencies project) /\ Currency_ID cur = id) ->
     exists cur, ResolveCurrency project tok = Ok cur /\ Currency_ID cur = id
       /\ first_match (fun c => Currency_ID c =? id) (elems (Currencies project)) cur).
Proof.
  intros HA. pose proof (Atoi_nonempty _ _ HA) as Hne.
  split; [|split].
  - intros Hhit. unfold ResolveCategory.
    destruct (String.eqb_spec tok EmptyString) as [->|_]; [contradiction|].
    now rewrite HA, (existsb_of_hit _ _ _ Hhit).
  - intros Hhit. unfold ResolvePaymentMode.
    destruct (String.eqb_spec tok EmptyString) as [->|_]; [contradiction|].
    now rewrite HA, (existsb_of_hit _ _ _ Hhit).
  - intros (x & Hin & Hx). unfold ResolveCurrency. rewrite HA.
    destruct (find (fun c => Currency_ID c =? id) (elems (Currencies project)))
      as [cur|] eqn:Hf.
    + exists cur. split; [reflexivity|]. split.
      * apply find_some in Hf as [_ Hf]. now apply Z.eqb_eq.
      * now apply find_first_match.
    + exfalso. apply find_none_iff in Hf. rewrite Forall_forall in Hf.
      specialize (Hf x Hin). apply Z.eqb_neq in Hf. contradiction.
Qed.

(** C5: for categories and payment modes, a non-empty token that matches no
    ID and no name exactly resolves to the first entity, in collection order,
    whose lower-cased name contains the lower-cased token, however many
    others contain it too, and an exact name match is preferred to any
    substring match; member resolution fails whenever no name and no user ID
    equals the token up to case, and currency resolution fails whenever no ID
    and no name matches and the lower-cased token is not a currency code,
    whether or not the token occurs inside a name. *)
Theorem substring_match_is_a_fallback_for_categories_and_payment_modes
    (project : Project) (tok : string) :
  (tok <> EmptyString ->
   ~ literal_id_hit Category_ID (elems (Categories project)) tok ->
   (forall c,
      first_match (fun c => String.eqb (ToLower (Category_Name c)) (ToLower tok))
        (elems (Categories project)) c ->
      ResolveCategory project tok = Ok (Category_ID c))
   /\ (~ exact_name_hit Category_Name (elems (Categories project)) tok ->
       (forall c,
          first_match (fun c => Contains (ToLower (Category_Name c)) (ToLower tok))
            (elems (Categories project)) c ->
          ResolveCategory project tok = Ok (Category_ID c))
       /\ (Forall (fun c => Contains (ToLower (Category_Name c)) (ToLower tok) = false)
             (elems (Categories project)) ->
           ResolveCategory project tok = Err ("category not found: " +:+ tok))))
  /\ (tok <> EmptyString ->
      ~ literal_id_hit PaymentMode_ID (elems (PaymentModes project)) tok ->
      (forall pm,
         first_match (fun pm => String.eqb (ToLower (PaymentMode_Name pm)) (ToLower tok))
           (elems (PaymentModes project)) pm ->
         ResolvePaymentMode project tok = Ok (PaymentMode_ID pm))
      /\ (~ exact_name_hit PaymentMode_Name (elems (PaymentModes project)) tok ->
          (forall pm,
             first_match (fun pm => Contains (ToLower (PaymentMode_Name pm)) (ToLower tok))
               (elems (PaymentModes project)) pm ->
             ResolvePaymentMode project tok = Ok (PaymentMode_ID pm))
          /\ (Forall (fun pm => Contains (ToLower (PaymentMode_Name pm)) (ToLower tok) = false)
                (elems (PaymentModes project)) ->
              ResolvePaymentMode project tok
              = Err ("payment mode not found: " +:+ tok))))
  /\ (~ exact_name_hit Member_Name (elems (Members project)) tok ->
      ~ exact_name_hit Member_UserID (elems (Members project)) tok ->
      ResolveMember project tok = Err ("member not found: " +:+ tok))
  /\ (~ literal_id_hit Currency_ID (elems (Currencies project)) tok ->
      ~ exact_name_hit Currency_Name (elems (Currencies project)) tok ->
      currencyCodeToSymbol !! ToLower tok = None ->
      ResolveCurrency project tok = Err ("currency not found: " +:+ tok)).
Proof.
  split; [|split; [|split]].
  - intros Hne Hid. rewrite (ResolveCategory_by_name _ _ Hne Hid). split.
    + intros c Hc. apply find_first_match in Hc. now rewrite Hc.
    + intros Hname. rewrite (find_no_exact _ _ _ Hname). split.
      * intros c Hc. apply find_first_match in Hc. now rewrite Hc.
      * intros Hnone. apply find_none_iff in Hnone. now rewrite Hnone.
  - intros Hne Hid. rewrite (ResolvePaymentMode_by_name _ _ Hne Hid). split.
    + intros pm Hpm. apply find_first_match in Hpm. now rewrite Hpm.
    + intros Hname. rewrite (find_no_exact _ _ _ Hname). split.
      * intros pm Hpm. apply find_first_match in Hpm. now rewrite Hpm.
      * intros Hnone. apply find_none_iff in Hnone. now rewrite Hnone.
  - intros Hname Huid. unfold ResolveMember.
    assert (find (fun m => String.eqb (ToLower (Member_Name m)) (ToLower tok)
                           || String.eqb (ToLower (Member_UserID m)) (ToLower tok))
              (elems (Members project)) = None) as ->; [|reflexivity].
    apply find_none_iff, Forall_forall. intros m Hin.
    apply orb_false_iff. split; apply String.eqb_neq; intros Heq.
    + apply Hname. exists m. auto.
    + apply Huid. exists m. auto.
  - intros Hid Hname Hcode.
    now rewrite (ResolveCurrency_by_code _ _ Hid Hname), Hcode.
Qed.

(** C6: when a currency token matches no ID and no currency name, and its
    lower-cased form is a code of the code-to-symbol table, [ResolveCurrency]
    returns the first currency, in collection order, whose name contains the
    symbol of that code; when no name contains it, the error
    "currency not found: <token>" is returned. *)
Theorem currency_code_resolves_through_its_symbol
    (project : Project) (tok symbol : string) :
  ~ literal_id_hit Currency_ID (elems (Currencies project)) tok ->
  ~ exact_name_hit Currency_Name (elems (Currencies project)) tok ->
  currencyCodeToSymbol !! ToLower tok = Some symbol ->
  (forall cur,
     first_match (fun c => Contains (Currency_Name c) symbol)
       (elems (Currencies project)) cur ->
     ResolveCurrency project tok = Ok cur)
  /\ (Forall (fun c => Contains (Currency_Name c) symbol = false)
        (elems (Currencies project)) ->
      ResolveCurrency project tok = Err ("currency not found: " +:+ tok)).
Proof.
  intros Hid Hname Hcode.
  rewrite (ResolveCurrency_by_code _ _ Hid Hname), Hcode. split.
  - intros cur Hc. apply find_first_match in Hc. now rewrite Hc.
  - intros Hnone. apply find_none_iff in Hnone. now rewrite Hnone.
Qed.

End ResolverProperties.

(** Discharges [~ literal_id_hit _ l tok] and [~ exact_name_hit _ l tok] on
    closed inputs. *)
Ltac no_hit :=
  let Hin := fresh "Hin" in
  let Hx := fresh "Hx" in
  first
    [ intros (? & ? & Hx & _); now vm_compute in Hx
    | intros (? & ? & _ & Hin & Hx); apply list_elem_of_In in Hin; simpl in Hin;
      repeat (destruct Hin as [<-|Hin]; [now vm_compute in Hx|]); destruct Hin
    | intros (? & Hin & Hx); apply list_elem_of_In in Hin; simpl in Hin;
      repeat (destruct Hin as [<-|Hin]; [now vm_compute in Hx|]); destruct Hin ].

Lemma literal_id_match_wins_witness :
  Atoi "5" = Some 5
  /\ ResolveCategory project_numeric_names "5" = Ok 5
  /\ ResolvePaymentMode project_numeric_names "5" = Ok 5
  /\ exists cur, ResolveCurrency project_numeric_names "5" = Ok cur
       /\ Currency_ID cur = 5.
Proof.
  assert (HA : Atoi "5" = Some 5) by reflexivity.
  destruct (literal_id_match_wins project_numeric_names "5" 5 HA)
    as (Hcat & Hpm & Hcur).
  split; [exact HA|]. split; [|split].
  - apply Hcat. exists (a_category 5 "Travel"). split; [|reflexivity].
    apply list_elem_of_In. simpl. auto.
  - apply Hpm. exists (a_payment_mode 5 "Cash"). split; [|reflexivity].
    apply list_elem_of_In. simpl. auto.
  - destruct Hcur as (cur & Hres & Hid & _).
    + exists (a_currency 5 "€"). split; [|reflexivity].
      apply list_elem_of_In. simpl. auto.
    + exists cur. split; assumption.
Defined.

(** C1 as stated fails for members: the token 5 is a decimal integer and a
    member has ID 5, yet [ResolveMember] returns the ID of the member whose
    name is the numeral 5; and where no name or user ID equals the numeral,
    resolution by the ID of an existing member is an error. *)
Lemma member_resolution_ignores_literal_ids :
  Atoi "5" = Some 5
  /\ (exists m, m ∈ elems (Members project_numeric_names) /\ Member_ID m = 5)
  /\ ResolveMember project_numeric_names "5" = Ok 2
  /\ ResolveMember project_numeric_names "5" <> Ok 5
  /\ Atoi "1" = Some 1
  /\ (exists m, m ∈ elems (Members project_food) /\ Member_ID m = 1)
  /\ ResolveMember project_food "1" = Err "member not found: 1".
Proof.
  repeat split; try reflexivity; try discriminate.
  - exists (a_member 5 "Bob" "bob"). split; [|reflexivity].
    apply list_elem_of_In. simpl. auto.
  - exists (a_member 1 "Food" "fd"). split; [|reflexivity].
    apply list_elem_of_In. simpl. auto.
Qed.

Lemma substring_match_is_a_fallback_witness :
  ResolveCategory project_food "FOO" = Ok 1
  /\ ResolvePaymentMode project_food "FOO" = Ok 1
  /\ ResolveMember project_food "FOO" = Err "member not found: FOO"
  /\ ResolveCurrency project_food "FOO" = Err "currency not found: FOO".
Proof.
  destruct (substring_match_is_a_fallback_for_categories_and_payment_modes
              project_food "FOO") as (Hcat & Hpm & Hmem & Hcur).
  assert (Hne : "FOO" <> EmptyString) by discriminate.
  split; [|split; [|split]].
  - destruct (Hcat Hne) as [_ Hsub]; [no_hit|].
    destruct Hsub as [Hfirst _]; [no_hit|].
    apply (Hfirst (a_category 1 "Food")). now apply find_first_match.
  - destruct (Hpm Hne) as [_ Hsub]; [no_hit|].
    destruct Hsub as [Hfirst _]; [no_hit|].
    apply (Hfirst (a_payment_mode 1 "Food")). now apply find_first_match.
  - apply Hmem; no_hit.
  - apply Hcur; [no_hit | no_hit | reflexivity].
Defined.

Lemma currency_code_resolves_through_its_symbol_witness :
  currencyCodeToSymbol !! ToLower "usd" = Some "$"
  /\ ResolveCurrency project_dollars "usd" = Ok (a_currency 4 "US Dollar ($)")
  /\ ResolveCurrency project_food "usd" = Err "currency not found: usd".
Proof.
  assert (Hcode : currencyCodeToSymbol !! ToLower "usd" = Some "$") by reflexivity.
  split; [exact Hcode|]. split.
  - destruct (currency_code_resolves_through_its_symbol project_dollars "usd" "$")
      as [Hfirst _]; [no_hit | no_hit | exact Hcode |].
    apply Hfirst. now apply find_first_match.
  - destruct (currency_code_resolves_through_its_symbol project_food "usd" "$")
      as [_ Hnone]; [no_hit | no_hit | exact Hcode |].
    apply Hnone. repeat constructor.
Defined.

(** ** Symbol/code table *)

Lemma currencyCodeToSymbol_keys_NoDup : NoDup currencyCodeToSymbol_entries.*1.
Proof. apply (bool_decide_unpack _). by vm_compute. Qed.

Lemma source_order_is_a_range_order : range_order currencyCodeToSymbol_entries.
Proof.
  unfold range_order, currencyCodeToSymbol. symmetry.
  apply map_to_list_to_map, currencyCodeToSymbol_keys_NoDup.
Qed.

Lemma reverse_order_is_a_range_order : range_order (rev currencyCodeToSymbol_entries).
Proof.
  pose proof source_order_is_a_range_order as Hsrc.
  unfold range_order in *. rewrite <- Hsrc. symmetry. apply Permutation_rev.
Qed.

Lemma range_order_elem (order : list (string * string)) (code sym : string) :
  range_order order ->
  (code, sym) ∈ order <-> currencyCodeToSymbol !! code = Some sym.
Proof.
  intros Hperm. unfold range_order in Hperm. rewrite Hperm.
  apply elem_of_map_to_list.
Qed.

(** The first pass: the last entry written for a symbol is the one kept. *)
Lemma first_pass_lookup (order : list (string * string)) (m0 : gmap string string)
    (sym : string) :
  fold_left write_symbol order m0 !! sym =
    match find (fun e => String.eqb e.2 sym) (rev order) with
    | Some e => Some (ToUpper e.1)
    | None => m0 !! sym
    end.
Proof.
  revert m0. induction order as [|[code s] order IH]; intros m0; simpl.
  - reflexivity.
  - rewrite IH, find_app_first.
    destruct (find _ (rev order)) as [e|]; [reflexivity|]. simpl.
    destruct (String.eqb_spec s sym) as [->|Hne].
    + now rewrite lookup_insert_eq.
    + now rewrite lookup_insert_ne.
Qed.

Lemma buildSymbolToISOMap_unfold (order : list (string * string)) :
  buildSymbolToISOMap order =
    <["€" := "EUR"]> (<["£" := "GBP"]> (<["¥" := "CNY"]> (<["$" := "USD"]>
      (fold_left write_symbol order ∅)))).
Proof. reflexivity. Qed.

Lemma SymbolToISO_result (order : list (string * string)) (symbol : string) :
  (SymbolToISO order None symbol).2 =
    default EmptyString (buildSymbolToISOMap order !! symbol).
Proof. reflexivity. Qed.

(** Within one process the map is built once: every later call, whatever the
    iteration order would be then, returns what the first call returned. *)
Lemma SymbolToISO_same_within_a_process
    (order order' : list (string * string)) (symbol : string) :
  let '(st, iso) := SymbolToISO order None symbol in
  SymbolToISO order' st symbol = (st, iso).
Proof. reflexivity. Qed.

(** The preferred codes win for their symbols under every iteration order. *)
Lemma SymbolToISO_preferred (order : list (string * string)) :
  (SymbolToISO order None "$").2 = "USD"
  /\ (SymbolToISO order None "¥").2 = "CNY"
  /\ (SymbolToISO order None "£").2 = "GBP"
  /\ (SymbolToISO order None "€").2 = "EUR".
Proof.
  rewrite !SymbolToISO_result, buildSymbolToISOMap_unfold.
  repeat split.
  - rewrite !lookup_insert_ne by discriminate. now rewrite lookup_insert_eq.
  - rewrite !lookup_insert_ne by discriminate. now rewrite lookup_insert_eq.
  - rewrite lookup_insert_ne by discriminate. now rewrite lookup_insert_eq.
  - now rewrite lookup_insert_eq.
Qed.

Lemma table_lookup_entries (code sym : string) :
  currencyCodeToSymbol !! code = Some sym <-> (code, sym) ∈ currencyCodeToSymbol_entries.
Proof.
  rewrite <- (range_order_elem _ _ _ source_order_is_a_range_order). reflexivity.
Qed.

Lemma shared_symbols (c1 c2 sym : string) :
  currencyCodeToSymbol !! c1 = Some sym ->
  currencyCodeToSymbol !! c2 = Some sym ->
  c1 = c2 \/ string_in sym (unsettled_symbols ++ preferred_symbols) = true.
Proof.
  rewrite !table_lookup_entries. intros H1 H2.
  assert (Hall : shared_symbols_are_listed currencyCodeToSymbol_entries = true)
    by (vm_compute; reflexivity).
  unfold shared_symbols_are_listed in Hall.
  rewrite forallb_forall in Hall.
  apply list_elem_of_In in H1, H2.
  specialize (Hall _ H1). rewrite forallb_forall in Hall. specialize (Hall _ H2).
  simpl in Hall. rewrite String.eqb_refl in Hall. simpl in Hall.
  apply orb_true_iff in Hall as [Heq|Hin]; [left|right; assumption].
  now apply String.eqb_eq.
Qed.

(** For every symbol other than the three unsettled ones, the first pass and
    the overrides give a result that does not depend on the iteration order. *)
Lemma SymbolToISO_order_independent
    (order1 order2 : list (string * string)) (symbol : string) :
  range_order order1 -> range_order order2 ->
  string_in symbol unsettled_symbols = false ->
  (SymbolToISO order1 None symbol).2 = (SymbolToISO order2 None symbol).2.
Proof.
  intros Ho1 Ho2 Hsettled.
  destruct (string_in symbol preferred_symbols) eqn:Hpref.
  - unfold string_in in Hpref. simpl in Hpref.
    destruct (SymbolToISO_preferred order1) as (A1 & B1 & C1 & D1).
    destruct (SymbolToISO_preferred order2) as (A2 & B2 & C2 & D2).
    repeat (apply orb_true_iff in Hpref as [Hpref|Hpref];
            [apply String.eqb_eq in Hpref; subst symbol; congruence|]).
    discriminate Hpref.
  - rewrite !SymbolToISO_result, !buildSymbolToISOMap_unfold.
    unfold string_in in Hpref. simpl in Hpref.
    repeat (apply orb_false_iff in Hpref as [?%String.eqb_neq Hpref]).
    rewrite !lookup_insert_ne by congruence.
    rewrite !first_pass_lookup, !lookup_empty.
    assert (Hfind : forall order, range_order order ->
              forall e, find (fun e => String.eqb e.2 symbol) (rev order) = Some e ->
              currencyCodeToSymbol !! e.1 = Some symbol).
    { intros order Ho [c sy] Hf. apply find_some in Hf as [Hin Heq].
      apply String.eqb_eq in Heq. simpl in *. subst sy.
      apply (range_order_elem order); [assumption|].
      apply list_elem_of_In. now apply in_rev. }
    assert (Hnone : forall order order', range_order order -> range_order order' ->
              find (fun e => String.eqb e.2 symbol) (rev order) = None ->
              find (fun e => String.eqb e.2 symbol) (rev order') = None).
    { intros order order' Ho Ho' Hf.
      destruct (find _ (rev order')) as [e|] eqn:Hf'; [|reflexivity].
      apply (Hfind _ Ho') in Hf'.
      apply (range_order_elem order) in Hf'; [|assumption].
      apply find_none_iff in Hf. rewrite Forall_forall in Hf.
      assert (Hin : (e.1, symbol) ∈ rev order).
      { apply list_elem_of_In. apply -> in_rev. now apply list_elem_of_In. }
      specialize (Hf _ Hin). simpl in Hf. rewrite String.eqb_refl in Hf.
      discriminate Hf. }
    destruct (find _ (rev order1)) as [e1|] eqn:Hf1.
    + destruct (find _ (rev order2)) as [e2|] eqn:Hf2.
      * apply (Hfind _ Ho1) in Hf1. apply (Hfind _ Ho2) in Hf2.
        destruct (shared_symbols _ _ _ Hf1 Hf2) as [->|Hin]; [reflexivity|].
        unfold string_in in Hin, Hsettled.
        rewrite existsb_app, Hsettled in Hin. simpl in Hin.
        repeat (apply orb_true_iff in Hin as [Hin|Hin];
                [apply String.eqb_eq in Hin; congruence|]).
        discriminate.
      * now rewrite (Hnone _ _ Ho2 Ho1 Hf2) in Hf1.
    + now rewrite (Hnone _ _ Ho1 Ho2 Hf1).
Qed.

(** A symbol that no code of the table has yields the absent value. *)
Lemma SymbolToISO_unknown (order : list (string * string)) (symbol : string) :
  range_order order ->
  (forall code, currencyCodeToSymbol !! code <> Some symbol) ->
  (SymbolToISO order None symbol).2 = EmptyString.
Proof.
  intros Ho Hunknown.
  rewrite SymbolToISO_result, buildSymbolToISOMap_unfold.
  rewrite !lookup_insert_ne.
  - rewrite first_pass_lookup, lookup_empty.
    destruct (find _ (rev order)) as [[c sy]|] eqn:Hf; [|reflexivity].
    apply find_some in Hf as [Hin Heq]. apply String.eqb_eq in Heq. simpl in *.
    subst sy. exfalso. apply (Hunknown c), (range_order_elem order); [assumption|].
    apply list_elem_of_In. now apply in_rev.
  - intros <-. now apply (Hunknown "usd").
  - intros <-. now apply (Hunknown "cny").
  - intros <-. now apply (Hunknown "gbp").
  - intros <-. now apply (Hunknown "eur").
Qed.

(** C2, at the input where it fails: the symbol kr belongs to dkk, isk, nok
    and sek, none of which is a preferred code, so the code returned is the
    one the map iteration of that process run happened to visit last. *)
Theorem SymbolToISO_kr_depends_on_iteration_order :
  range_order currencyCodeToSymbol_entries
  /\ range_order (rev currencyCodeToSymbol_entries)
  /\ (SymbolToISO currencyCodeToSymbol_entries None "kr").2 = "SEK"
  /\ (SymbolToISO (rev currencyCodeToSymbol_entries) None "kr").2 = "DKK".
Proof.
  split; [apply source_order_is_a_range_order|].
  split; [apply reverse_order_is_a_range_order|].
  split; vm_compute; reflexivity.
Qed.

(** ** Filter composition *)

Lemma passes_forallb (filters : list billFilter) (bill : BillResponse) :
  passes filters bill = forallb (fun filter => filter bill) filters.
Proof.
  induction filters as [|f fs IH]; simpl; [reflexivity|].
  now destruct (f bill).
Qed.

Lemma passes_all_forallb (filters : list billFilter) (bill : BillResponse) :
  passes_all filters bill = forallb (fun filter => filter bill) filters.
Proof.
  unfold passes_all.
  assert (Hgen : forall acc,
            fold_left (fun acc filter => filter bill && acc) filters acc
            = forallb (fun filter => filter bill) filters && acc).
  { induction filters as [|f fs IH]; intros acc; simpl; [reflexivity|].
    rewrite IH.
    now destruct (f bill), (forallb (fun filter => filter bill) fs), acc. }
  rewrite Hgen. apply andb_true_r.
Qed.

Lemma fold_append_filter {A} (keep : A -> bool) (l : list A) (acc : slice A) :
  elems (fold_left (fun result x => if keep x then append result x else result) l acc)
  = elems acc ++ List.filter keep l.
Proof.
  revert acc. induction l as [|x l IH]; intros acc; simpl.
  - now rewrite app_nil_r.
  - rewrite IH. destruct (keep x); [|reflexivity].
    unfold append. simpl. now rewrite <- app_assoc.
Qed.

Lemma filter_sublist {A} (keep : A -> bool) (l : list A) :
  sublist (List.filter keep l) l.
Proof.
  induction l as [|x l IH]; simpl; [constructor|].
  destruct (keep x); now constructor.
Qed.

(** C7: [applyFilters] returns exactly the bills on which every filter is
    true, as a subsequence of the input in its order; with no filter the
    input is returned unchanged; and stopping at the first filter that is
    false gives the same verdict as evaluating all of them. *)
Theorem applyFilters_keeps_the_bills_passing_every_filter
    (bills : slice BillResponse) (filters : list billFilter) :
  elems (applyFilters bills filters)
  = List.filter (fun bill => forallb (fun filter => filter bill) filters) (elems bills)
  /\ sublist (elems (applyFilters bills filters)) (elems bills)
  /\ (forall bill,
        bill ∈ elems (applyFilters bills filters)
        <-> bill ∈ elems bills /\ Forall (fun filter => filter bill = true) filters)
  /\ applyFilters bills [] = bills
  /\ (forall bill, passes filters bill = passes_all filters bill).
Proof.
  assert (Heq : elems (applyFilters bills filters)
                = List.filter (fun bill => forallb (fun filter => filter bill) filters)
                    (elems bills)).
  { destruct filters as [|f fs].
    - simpl. induction (elems bills) as [|b l IH]; simpl; congruence.
    - unfold applyFilters. rewrite fold_append_filter. simpl.
      apply filter_ext. intros b. apply (passes_forallb (f :: fs)). }
  split; [exact Heq|]. split; [|split; [|split]].
  - rewrite Heq. apply filter_sublist.
  - intros bill. rewrite Heq, list_elem_of_In, filter_In, <- list_elem_of_In.
    rewrite forallb_forall, Forall_forall.
    split; intros [Hin Hall]; (split; [exact Hin|]); intros f Hf; apply Hall;
      now apply list_elem_of_In.
  - reflexivity.
  - intros bill. now rewrite passes_forallb, passes_all_forallb.
Qed.

(** ** Operator-value filters *)

Lemma strip_prefix_app (pfx rest : string) : strip_prefix pfx (pfx +:+ rest) = Some rest.
Proof.
  induction pfx as [|a pfx IH]; simpl; [now destruct rest|].
  now rewrite Ascii.eqb_refl.
Qed.

Lemma strip_prefix_spec (pfx s rest : string) :
  strip_prefix pfx s = Some rest -> s = pfx +:+ rest.
Proof.
  revert s. induction pfx as [|a pfx IH]; intros s; simpl.
  - now intros [= ->].
  - destruct s as [|b s]; [discriminate|].
    destruct (Ascii.eqb_spec a b) as [->|_]; [|discriminate].
    intros Hs. now rewrite (IH _ Hs).
Qed.

Lemma try_operators_spec (ops : list string) (s op operand : string) :
  try_operators ops s = Some (op, operand) ->
  In op ops /\ s = op +:+ operand /\ dot_plus operand = true.
Proof.
  induction ops as [|o ops IH]; simpl; [discriminate|].
  destruct (strip_prefix o s) as [rest|] eqn:Hstrip.
  - destruct (dot_plus rest) eqn:Hdot.
    + intros [= <- <-]. apply strip_prefix_spec in Hstrip. auto.
    + intros Hrec. destruct (IH Hrec) as (? & ? & ?). auto.
  - intros Hrec. destruct (IH Hrec) as (? & ? & ?). auto.
Qed.

Lemma FindOperatorOperand_spec (s op operand : string) :
  FindOperatorOperand s = Some (op, operand) ->
  s = op +:+ operand /\ (op = EmptyString \/ In op operators)
  /\ dot_plus operand = true.
Proof.
  unfold FindOperatorOperand.
  destruct (try_operators operators s) as [[o r]|] eqn:Htry.
  - intros [= <- <-]. destruct (try_operators_spec _ _ _ _ Htry) as (? & ? & ?). auto.
  - destruct (dot_plus s) eqn:Hdot; [|discriminate].
    intros [= <- <-]. auto.
Qed.

Lemma FindOperatorOperand_operator (op operand : string) :
  In op operators -> dot_plus operand = true ->
  (op = ">" \/ op = "<" -> first_byte_in operand ["="%char] = false) ->
  FindOperatorOperand (op +:+ operand) = Some (op, operand).
Proof.
  intros Hop Hdot Hsingle. unfold FindOperatorOperand, operators in *.
  simpl in Hop.
  destruct Hop as [<-|[<-|[<-|[<-|[<-|[]]]]]].
  - cbn [try_operators]. now rewrite strip_prefix_app, Hdot.
  - cbn [try_operators]. simpl strip_prefix at 1.
    now rewrite strip_prefix_app, Hdot.
  - specialize (Hsingle (or_introl eq_refl)).
    destruct operand as [|c r]; [discriminate Hdot|]. simpl in Hsingle.
    rewrite orb_false_r in Hsingle. rewrite Ascii.eqb_sym in Hsingle.
    change (">" +:+ String c r) with (String ">" (String c r)).
    cbn [try_operators strip_prefix]. rewrite Hsingle, Ascii.eqb_refl.
    change ("<" =? ">")%char with false. cbv iota. now rewrite Hdot.
  - specialize (Hsingle (or_intror eq_refl)).
    destruct operand as [|c r]; [discriminate Hdot|]. simpl in Hsingle.
    rewrite orb_false_r in Hsingle. rewrite Ascii.eqb_sym in Hsingle.
    change ("<" +:+ String c r) with (String "<" (String c r)).
    cbn [try_operators strip_prefix]. rewrite Hsingle, Ascii.eqb_refl.
    change (">" =? "<")%char with false. cbv iota. now rewrite Hdot.
  - change ("=" +:+ operand) with (String "=" operand).
    cbn [try_operators strip_prefix].
    change (">" =? "=")%char with false. change ("<" =? "=")%char with false.
    rewrite Ascii.eqb_refl. cbv iota. now rewrite Hdot.
Qed.

Lemma FindOperatorOperand_no_operator (s : string) :
  first_byte_in s [">"; "<"; "="]%char = false -> dot_plus s = true ->
  FindOperatorOperand s = Some (EmptyString, s).
Proof.
  intros Hfirst Hdot. unfold FindOperatorOperand, operators.
  destruct s as [|c r]; [discriminate Hdot|].
  simpl in Hfirst. rewrite orb_false_r in Hfirst.
  apply orb_false_iff in Hfirst as [Hgt Hfirst].
  apply orb_false_iff in Hfirst as [Hlt Heq].
  rewrite Ascii.eqb_sym in Hgt, Hlt, Heq.
  cbn [try_operators strip_prefix]. rewrite Hgt, Hlt, Heq. now rewrite Hdot.
Qed.

Lemma bind_not_ok {A B} (r : result A) (k : A -> result B) :
  (forall a, is_ok (k a) = false) -> is_ok (bind r k) = false.
Proof. intros Hk. destruct r; simpl; [apply Hk | reflexivity]. Qed.

Lemma bind_err_not_ok {A B} (r : result A) (k : A -> result B) :
  is_ok r = false -> is_ok (bind r k) = false.
Proof. now destruct r. Qed.

Lemma wrap_error_not_ok {A} (prefix : string) (r : result A) :
  is_ok r = false -> is_ok (wrap_error prefix r) = false.
Proof. now destruct r. Qed.

Section OperatorFilters.
Context `{std : GoStd}.

Lemma parseAmountFilter_of_match (s op operand : string) :
  FindOperatorOperand (TrimSpace s) = Some (op, operand) ->
  parseAmountFilter s =
    match ParseFloat (TrimSpace operand) with
    | Some value => Ok {| af_operator := operator_of op; af_value := value |}
    | None => Err ("invalid amount value: " +:+ operand)
    end.
Proof. intros Hm. unfold parseAmountFilter. now rewrite Hm. Qed.

Lemma parseDateFilter_of_match (now : Time) (s op operand : string) :
  FindOperatorOperand (TrimSpace s) = Some (op, operand) ->
  parseDateFilter now s =
    match Parse_date (TrimSpace operand) with
    | Some _ => Ok {| df_operator := operator_of op; df_date := TrimSpace operand |}
    | None =>
        match Parse_month_day (TrimSpace operand) with
        | Some t =>
            Ok {| df_operator := operator_of op;
                  df_date := Itoa (Year now) +:+ "-" +:+ Format_month_day t |}
        | None =>
            Err ("invalid date format: " +:+ TrimSpace operand
                 +:+ " (expected YYYY-MM-DD or MM-DD)")
        end
    end.
Proof. intros Hm. unfold parseDateFilter. now rewrite Hm. Qed.

Lemma buildFilters_fails_on_amount (flags : ListFlags) (now : Time) (project : Project) :
  listAmount flags <> EmptyString ->
  is_ok (parseAmountFilter (listAmount flags)) = false ->
  is_ok (buildFilters flags now project) = false.
Proof.
  intros Hset Hbad. unfold buildFilters.
  apply bind_not_ok. intros filters1. apply bind_not_ok. intros filters2.
  apply bind_err_not_ok.
  destruct (String.eqb_spec (listAmount flags) EmptyString) as [Heq|_];
    [contradiction|].
  now apply bind_err_not_ok, wrap_error_not_ok.
Qed.

Lemma buildFilters_fails_on_date (flags : ListFlags) (now : Time) (project : Project) :
  listDate flags <> EmptyString ->
  is_ok (parseDateFilter now (listDate flags)) = false ->
  is_ok (buildFilters flags now project) = false.
Proof.
  intros Hset Hbad. unfold buildFilters.
  do 7 (apply bind_not_ok; intros ?).
  apply bind_err_not_ok.
  destruct (String.eqb_spec (listDate flags) EmptyString) as [Heq|_];
    [contradiction|].
  now apply bind_err_not_ok, wrap_error_not_ok.
Qed.

(** C8: the amount and the date filter take their operator and operand from
    the same match: one of >=, <=, >, <, = when the trimmed text starts with
    it, the operator = when it starts with none, and the rest of the text,
    trimmed, as the operand.  The amount filter is that operator with the
    number the operand parses to, and the date filter that operator with the
    operand when it is a date in the long form, or with the year of now put
    before it when it is one in the short form; an operand that parses as
    neither is an error, of the filter and of the whole filter list.  Each
    operator compares as it reads, numbers for amounts and texts for dates;
    and the filters parsed from ">=50" and ">=2026-01-15" reject 49.99 and
    the 14th and accept 50 and the 15th, while "50" and "2026-01-15" parse
    with the operator =. *)
Theorem amount_and_date_filters_share_the_operator_grammar (now : Time) (s : string) :
  (forall op operand,
     In op operators -> TrimSpace s = op +:+ operand -> dot_plus operand = true ->
     (op = ">" \/ op = "<" -> first_byte_in operand ["="%char] = false) ->
     FindOperatorOperand (TrimSpace s) = Some (op, operand)
     /\ operator_of op = op)
  /\ (first_byte_in (TrimSpace s) [">"; "<"; "="]%char = false ->
      dot_plus (TrimSpace s) = true ->
      FindOperatorOperand (TrimSpace s) = Some (EmptyString, TrimSpace s)
      /\ operator_of EmptyString = "=")
  /\ (forall op operand,
        FindOperatorOperand (TrimSpace s) = Some (op, operand) ->
        TrimSpace s = op +:+ operand
        /\ (op = EmptyString \/ In op operators)
        /\ (forall value,
              ParseFloat (TrimSpace operand) = Some value ->
              parseAmountFilter s
              = Ok {| af_operator := operator_of op; af_value := value |})
        /\ (ParseFloat (TrimSpace operand) = None ->
            parseAmountFilter s = Err ("invalid amount value: " +:+ operand))
        /\ (forall df,
              parseDateFilter now s = Ok df ->
              df_operator df = operator_of op
              /\ (df_date df = TrimSpace operand
                  \/ exists t,
                       Parse_month_day (TrimSpace operand) = Some t
                       /\ df_date df
                          = Itoa (Year now) +:+ "-" +:+ Format_month_day t))
        /\ (forall t,
              Parse_date (TrimSpace operand) = Some t ->
              parseDateFilter now s
              = Ok {| df_operator := operator_of op; df_date := TrimSpace operand |})
        /\ (forall t,
              Parse_date (TrimSpace operand) = None ->
              Parse_month_day (TrimSpace operand) = Some t ->
              parseDateFilter now s
              = Ok {| df_operator := operator_of op;
                      df_date := Itoa (Year now) +:+ "-" +:+ Format_month_day t |})
        /\ (Parse_date (TrimSpace operand) = None ->
            Parse_month_day (TrimSpace operand) = None ->
            parseDateFilter now s
            = Err ("invalid date format: " +:+ TrimSpace operand
                   +:+ " (expected YYYY-MM-DD or MM-DD)")))
  /\ (FindOperatorOperand (TrimSpace s) = None ->
      parseAmountFilter s = Err ("invalid amount filter format: " +:+ TrimSpace s)
      /\ parseDateFilter now s
         = Err ("invalid date filter format: " +:+ TrimSpace s))
  /\ (forall flags project,
        listAmount flags = s -> s <> EmptyString ->
        is_ok (parseAmountFilter s) = false ->
        is_ok (buildFilters flags now project) = false)
  /\ (TrimSpace ">=50" = ">=50" -> TrimSpace "50" = "50" ->
      ParseFloat "50" = Some 50%float ->
      exists af,
        parseAmountFilter ">=50" = Ok af
        /\ matchAmount amount_49_99 af = false
        /\ matchAmount 50%float af = true
        /\ parseAmountFilter "50"
           = Ok {| af_operator := "="; af_value := 50%float |})
  /\ (forall flags project,
        listDate flags = s -> s <> EmptyString ->
        is_ok (parseDateFilter now s) = false ->
        is_ok (buildFilters flags now project) = false)
  /\ (TrimSpace ">=2026-01-15" = ">=2026-01-15" ->
      TrimSpace "2026-01-15" = "2026-01-15" ->
      exists df,
        parseDateFilter now ">=2026-01-15" = Ok df
        /\ df = {| df_operator := ">="; df_date := "2026-01-15" |}
        /\ matchDate "2026-01-14" df = false
        /\ matchDate "2026-01-15" df = true
        /\ parseDateFilter now "2026-01-15"
           = Ok {| df_operator := "="; df_date := "2026-01-15" |})
  /\ (forall amount value,
        matchAmount amount {| af_operator := "="; af_value := value |}
        = PrimFloat.eqb amount value
        /\ matchAmount amount {| af_operator := ">"; af_value := value |}
           = PrimFloat.ltb value amount
        /\ matchAmount amount {| af_operator := "<"; af_value := value |}
           = PrimFloat.ltb amount value
        /\ matchAmount amount {| af_operator := ">="; af_value := value |}
           = PrimFloat.leb value amount
        /\ matchAmount amount {| af_operator := "<="; af_value := value |}
           = PrimFloat.leb amount value)
  /\ (forall billDate date,
        matchDate billDate {| df_operator := "="; df_date := date |}
        = String.eqb billDate date
        /\ matchDate billDate {| df_operator := ">"; df_date := date |}
           = String.ltb date billDate
        /\ matchDate billDate {| df_operator := "<"; df_date := date |}
           = String.ltb billDate date
        /\ matchDate billDate {| df_operator := ">="; df_date := date |}
           = String.leb date billDate
        /\ matchDate billDate {| df_operator := "<="; df_date := date |}
           = String.leb billDate date).
Proof.
  split; [|split; [|split; [|split; [|split; [|split; [|split; [|split; [|split]]]]]]]].
  - intros op operand Hop Hs Hdot Hsingle. rewrite Hs. split.
    + now apply FindOperatorOperand_operator.
    + unfold operators in Hop. simpl in Hop.
      now destruct Hop as [<-|[<-|[<-|[<-|[<-|[]]]]]].
  - intros Hfirst Hdot. split; [|reflexivity].
    now apply FindOperatorOperand_no_operator.
  - intros op operand Hm.
    destruct (FindOperatorOperand_spec _ _ _ Hm) as (Hs & Hop & _).
    split; [exact Hs|]. split; [exact Hop|]. split; [|split; [|split; [|split; [|split]]]].
    + intros value Hv. now rewrite (parseAmountFilter_of_match _ _ _ Hm), Hv.
    + intros Hv. now rewrite (parseAmountFilter_of_match _ _ _ Hm), Hv.
    + intros df Hdf. rewrite (parseDateFilter_of_match _ _ _ _ Hm) in Hdf.
      destruct (Parse_date _).
      { injection Hdf as <-. split; [reflexivity | now left]. }
      destruct (Parse_month_day _) as [t|]; [|discriminate].
      injection Hdf as <-. split; [reflexivity|]. right. now exists t.
    + intros t Ht. now rewrite (parseDateFilter_of_match _ _ _ _ Hm), Ht.
    + intros t Hnone Ht. now rewrite (parseDateFilter_of_match _ _ _ _ Hm), Hnone, Ht.
    + intros Hnone Hshort.
      now rewrite (parseDateFilter_of_match _ _ _ _ Hm), Hnone, Hshort.
  - intros Hm. unfold parseAmountFilter, parseDateFilter. now rewrite Hm.
  - intros flags project <- Hne Hbad. now apply buildFilters_fails_on_amount.
  - intros Ht1 Ht2 Hf.
    exists {| af_operator := ">="; af_value := 50%float |}.
    assert (H1 : parseAmountFilter ">=50"
                 = Ok {| af_operator := ">="; af_value := 50%float |}).
    { rewrite (parseAmountFilter_of_match ">=50" ">=" "50");
        [now rewrite Ht2, Hf | now rewrite Ht1]. }
    assert (H2 : parseAmountFilter "50"
                 = Ok {| af_operator := "="; af_value := 50%float |}).
    { rewrite (parseAmountFilter_of_match "50" EmptyString "50");
        [now rewrite Ht2, Hf | now rewrite Ht2]. }
    split; [exact H1|]. split; [reflexivity|]. split; [reflexivity | exact H2].
  - intros flags project <- Hne Hbad. now apply buildFilters_fails_on_date.
  - intros Ht1 Ht2.
    exists {| df_operator := ">="; df_date := "2026-01-15" |}.
    assert (H1 : parseDateFilter now ">=2026-01-15"
                 = Ok {| df_operator := ">="; df_date := "2026-01-15" |}).
    { rewrite (parseDateFilter_of_match now ">=2026-01-15" ">=" "2026-01-15");
        [now rewrite Ht2 | now rewrite Ht1]. }
    assert (H2 : parseDateFilter now "2026-01-15"
                 = Ok {| df_operator := "="; df_date := "2026-01-15" |}).
    { rewrite (parseDateFilter_of_match now "2026-01-15" EmptyString "2026-01-15");
        [now rewrite Ht2 | now rewrite Ht2]. }
    split; [exact H1|]. split; [reflexivity|]. split; [reflexivity|].
    split; [reflexivity | exact H2].
  - intros amount value. repeat split.
  - intros billDate date. repeat split.
Qed.

End OperatorFilters.

Lemma amount_and_date_filters_share_the_operator_grammar_witness :
  TrimSpace " >= 50 " = ">=" +:+ " 50"
  /\ parseAmountFilter " >= 50 "
     = Ok {| af_operator := ">="; af_value := 50%float |}
  /\ parseAmountFilter ">=abc" = Err "invalid amount value: abc"
  /\ (exists af,
        parseAmountFilter ">=50" = Ok af
        /\ matchAmount amount_49_99 af = false
        /\ matchAmount 50%float af = true
        /\ parseAmountFilter "50"
           = Ok {| af_operator := "="; af_value := 50%float |})
  /\ parseDateFilter example_now " <= 2026-01-15 "
     = Ok {| df_operator := "<="; df_date := "2026-01-15" |}
  /\ parseDateFilter example_now ">01-15"
     = Ok {| df_operator := ">"; df_date := "2026-01-15" |}
  /\ parseDateFilter example_now "=2026-02-30"
     = Err "invalid date format: 2026-02-30 (expected YYYY-MM-DD or MM-DD)"
  /\ (exists df,
        parseDateFilter example_now ">=2026-01-15" = Ok df
        /\ df = {| df_operator := ">="; df_date := "2026-01-15" |}
        /\ matchDate "2026-01-14" df = false
        /\ matchDate "2026-01-15" df = true
        /\ parseDateFilter example_now "2026-01-15"
           = Ok {| df_operator := "="; df_date := "2026-01-15" |}).
Proof.
  pose (now := {| Year := 2026; Month := 3; Day := 31; Clock := 0 |}).
  assert (Hs : TrimSpace " >= 50 " = ">=" +:+ " 50") by reflexivity.
  split; [exact Hs|]. split; [|split; [|split; [|split; [|split; [|split]]]]].
  - destruct (amount_and_date_filters_share_the_operator_grammar now " >= 50 ")
      as (Hop & _ & Hparse & _).
    destruct (Hop ">=" " 50") as [Hm _];
      [simpl; auto | exact Hs | reflexivity | intros [?|?]; discriminate |].
    destruct (Hparse _ _ Hm) as (_ & _ & Hval & _).
    apply Hval. reflexivity.
  - destruct (amount_and_date_filters_share_the_operator_grammar now ">=abc")
      as (Hop & _ & Hparse & _).
    destruct (Hop ">=" "abc") as [Hm _];
      [simpl; auto | reflexivity | reflexivity | intros [?|?]; discriminate |].
    destruct (Hparse _ _ Hm) as (_ & _ & _ & Herr & _).
    apply Herr. reflexivity.
  - destruct (amount_and_date_filters_share_the_operator_grammar now ">=50")
      as (_ & _ & _ & _ & _ & Hex & _).
    apply Hex; reflexivity.
  - destruct (amount_and_date_filters_share_the_operator_grammar
                example_now " <= 2026-01-15 ")
      as (Hop & _ & Hparse & _).
    destruct (Hop "<=" " 2026-01-15") as [Hm _];
      [simpl; auto | reflexivity | reflexivity | intros [?|?]; discriminate |].
    destruct (Hparse _ _ Hm) as (_ & _ & _ & _ & _ & Hlong & _).
    exact (Hlong (a_day 2026 1 15) eq_refl).
  - destruct (amount_and_date_filters_share_the_operator_grammar example_now ">01-15")
      as (Hop & _ & Hparse & _).
    destruct (Hop ">" "01-15") as [Hm _];
      [simpl; auto | reflexivity | reflexivity | intros _; reflexivity |].
    destruct (Hparse _ _ Hm) as (_ & _ & _ & _ & _ & _ & Hshort & _).
    exact (Hshort (a_day 0 1 15) eq_refl eq_refl).
  - destruct (amount_and_date_filters_share_the_operator_grammar
                example_now "=2026-02-30")
      as (Hop & _ & Hparse & _).
    destruct (Hop "=" "2026-02-30") as [Hm _];
      [simpl; tauto | reflexivity | reflexivity | intros [?|?]; discriminate |].
    destruct (Hparse _ _ Hm) as (_ & _ & _ & _ & _ & _ & _ & Hbad).
    exact (Hbad eq_refl eq_refl).
  - destruct (amount_and_date_filters_share_the_operator_grammar example_now ">=50")
      as (_ & _ & _ & _ & _ & _ & _ & Hex & _).
    apply Hex; reflexivity.
Defined.

(** ** Calendar arithmetic *)

Lemma holds_from_spec (n : nat) (z : Z) (p : Z -> bool) :
  holds_from n z p = true -> forall k, z <= k < z + Z.of_nat n -> p k = true.
Proof.
  revert z. induction n as [|n IH]; intros z Hall k Hk; [lia|].
  simpl in Hall. apply andb_true_iff in Hall as [Hz Hrest].
  destruct (Z.eq_dec k z) as [->|Hne]; [assumption|].
  apply (IH (z + 1) Hrest). lia.
Qed.

Lemma every_day_of_the_era_roundtrips :
  holds_from (Z.to_nat 146097) 0 doe_roundtrip = true.
Proof. vm_cast_no_check (eq_refl true). Qed.

Lemma doe_roundtrip_ok (doe : Z) : 0 <= doe < 146097 -> doe_roundtrip doe = true.
Proof.
  intros Hdoe. apply (holds_from_spec _ _ _ every_day_of_the_era_roundtrips). lia.
Qed.

Lemma days_from_civil_from_days (z : Z) :
  let '(y, m, d) := civil_from_days z in days_from_civil y m d = z.
Proof.
  unfold civil_from_days.
  set (era := (z + 719468) / 146097).
  set (doe := z + 719468 - era * 146097).
  assert (Hdoe : 0 <= doe < 146097).
  { subst doe era. pose proof (Z.mod_pos_bound (z + 719468) 146097 ltac:(lia)).
    rewrite Z.mod_eq in H by lia. lia. }
  pose proof (doe_roundtrip_ok doe Hdoe) as Hok. unfold doe_roundtrip in Hok.
  destruct (civil_of_doe doe) as [[yoe mp] d].
  repeat (apply andb_true_iff in Hok as [Hok ?]).
  apply Z.leb_le in Hok.
  repeat match goal with
         | H : (_ <? _) = true |- _ => apply Z.ltb_lt in H
         | H : (_ <=? _) = true |- _ => apply Z.leb_le in H
         | H : (_ =? _) = true |- _ => apply Z.eqb_eq in H
         end.
  unfold days_from_civil.
  destruct (Z.ltb_spec mp 10) as [Hmp|Hmp].
  - destruct (Z.leb_spec (mp + 3) 2) as [?|_]; [lia|].
    replace ((yoe + era * 400) / 400) with era
      by (rewrite Z.div_add by lia; rewrite Z.div_small by lia; lia).
    replace ((mp + 3 + 9) mod 12) with mp
      by (replace (mp + 3 + 9) with (mp + 1 * 12) by lia;
          rewrite Z.mod_add by lia; now rewrite Z.mod_small by lia).
    replace (yoe + era * 400 - era * 400) with yoe by lia.
    subst doe. lia.
  - destruct (Z.leb_spec (mp - 9) 2) as [_|?]; [|lia].
    replace (yoe + era * 400 + 1 - 1) with (yoe + era * 400) by lia.
    replace ((yoe + era * 400) / 400) with era
      by (rewrite Z.div_add by lia; rewrite Z.div_small by lia; lia).
    replace ((mp - 9 + 9) mod 12) with mp
      by (replace (mp - 9 + 9) with mp by lia; now rewrite Z.mod_small by lia).
    replace (yoe + era * 400 - era * 400) with yoe by lia.
    subst doe. lia.
Qed.

Lemma days_from_civil_day (y m d : Z) :
  days_from_civil y m d = days_from_civil y m 1 + (d - 1).
Proof. unfold days_from_civil, doe_of_civil. lia. Qed.

(** The day number of the date the calendar gives: as many days into the
    month, counted from year 0, as the day says. *)
Lemma day_number_calendar_Date_month (y m d clock : Z) :
  day_number (calendar_Date y m d clock) = month_start (12 * y + (m - 1)) + (d - 1).
Proof.
  unfold calendar_Date, day_number, month_start.
  replace ((12 * y + (m - 1)) / 12) with (y + (m - 1) / 12)
    by (Z.div_mod_to_equations; lia).
  replace ((12 * y + (m - 1)) mod 12) with ((m - 1) mod 12)
    by (Z.div_mod_to_equations; lia).
  pose proof (days_from_civil_from_days
                (days_from_civil (y + (m - 1) / 12) ((m - 1) mod 12 + 1) 1 + (d - 1)))
    as Hrt.
  now destruct (civil_from_days _) as [[y' m'] d'].
Qed.

(** The day number of a normalised date is the one it was built from. *)
Lemma day_number_calendar_Date (y m d clock : Z) :
  1 <= m <= 12 ->
  day_number (calendar_Date y m d clock) = days_from_civil y m 1 + (d - 1).
Proof.
  intros Hm. rewrite day_number_calendar_Date_month. unfold month_start.
  replace ((12 * y + (m - 1)) / 12) with y by (Z.div_mod_to_equations; lia).
  replace ((12 * y + (m - 1)) mod 12 + 1) with m by (Z.div_mod_to_equations; lia).
  reflexivity.
Qed.

Lemma daysIn_bounds (m y : Z) : 28 <= daysIn m y <= 31.
Proof.
  unfold daysIn. destruct (m =? 2); [destruct (isLeap y); lia|].
  destruct ((m =? 4) || (m =? 6) || (m =? 9) || (m =? 11)); lia.
Qed.

Lemma wrap64_in_range (z : Z) : min_int <= z <= max_int -> wrap64 z = z.
Proof.
  unfold wrap64, min_int, max_int. intros Hz.
  rewrite Z.mod_small; lia.
Qed.

Section AddingDates.
Context `{std : GoStd}.

(** Sums that fit an [int] reach [time.Date] as they are. *)
Lemma AddDate_in_range (t : Time) (years months days : Z) :
  is_int (Year t + years) -> is_int (Month t + months) -> is_int (Day t + days) ->
  AddDate t years months days
  = Date_ (Year t + years) (Month t + months) (Day t + days) (Clock t).
Proof.
  intros Hy Hm Hd. unfold AddDate. unfold is_int in *.
  now rewrite !wrap64_in_range by assumption.
Qed.

Lemma AddDate_days (t : Time) (days : Z) :
  is_int (Year t) -> 1 <= Month t <= 12 -> is_int (Day t + days) ->
  AddDate t 0 0 days = Date_ (Year t) (Month t) (Day t + days) (Clock t).
Proof.
  intros Hy Hm Hd. rewrite AddDate_in_range.
  - now rewrite !Z.add_0_r.
  - now rewrite Z.add_0_r.
  - rewrite Z.add_0_r. unfold is_int, min_int, max_int. lia.
  - exact Hd.
Qed.

(** Adding days moves the day number by that many days, where [time.Date]
    gives the date of the calendar. *)
Lemma day_number_AddDate_days (t : Time) (days : Z) :
  is_int (Year t) -> 1 <= Month t <= 12 -> is_int (Day t + days) ->
  Date_is_calendar (Year t) (Month t) (Day t + days) (Clock t) ->
  day_number (AddDate t 0 0 days) = day_number t + days.
Proof.
  intros Hy Hm Hd Hcal. rewrite AddDate_days by assumption. rewrite Hcal.
  rewrite day_number_calendar_Date by assumption.
  unfold day_number. rewrite (days_from_civil_day _ _ (Day t)). lia.
Qed.

End AddingDates.

(** ** The recency filter *)

Lemma String_leb_refl (s : string) : String.leb s s = true.
Proof. now destruct (String.leb_total s s). Qed.

Lemma split_last_length (s init : string) (last : ascii) :
  split_last s = Some (init, last) -> String.length s = S (String.length init).
Proof.
  revert init last. induction s as [|c s IH]; intros init last; simpl; [discriminate|].
  destruct (split_last s) as [[i l]|] eqn:Hs.
  - intros [= <- <-]. simpl. now rewrite (IH _ _ eq_refl).
  - intros [= <- <-]. now destruct s as [|c' s]; [|simpl in Hs; destruct (split_last s) as [[? ?]|]].
Qed.

Lemma split_last_none (s : string) : split_last s = None -> s = EmptyString.
Proof.
  destruct s as [|c s]; [reflexivity|]. simpl.
  now destruct (split_last s) as [[? ?]|].
Qed.

Section RecentFilter.
Context `{std : GoStd}.

Lemma parseRecent_of_split (now : Time) (s valueStr : string) (unit : ascii) (value : Z) :
  split_last (TrimSpace s) = Some (valueStr, unit) ->
  Atoi valueStr = Some value ->
  parseRecent now s =
    if Ascii.eqb unit "d" then Ok (AddDate now 0 0 (wrap64 (- value)))
    else if Ascii.eqb unit "w" then
      Ok (AddDate now 0 0 (wrap64 (wrap64 (- value) * 7)))
    else if Ascii.eqb unit "m" then Ok (AddDate now 0 (wrap64 (- value)) 0)
    else Err ("invalid recent unit: " +:+ String unit EmptyString
              +:+ " (expected d, w, or m)").
Proof.
  intros Hsplit HA. unfold parseRecent.
  pose proof (split_last_length _ _ _ Hsplit) as Hlen.
  destruct valueStr as [|c v]; [discriminate HA|].
  rewrite Hlen. simpl String.length.
  destruct (Nat.ltb_spec (S (S (String.length v))) 2) as [?|_]; [lia|].
  now rewrite Hsplit, HA.
Qed.

Lemma Atoi_is_int (s : string) (value : Z) : Atoi s = Some value -> is_int value.
Proof.
  unfold Atoi, is_int.
  destruct (match s with
            | String "-"%char r => (true, r)
            | String "+"%char r => (false, r)
            | _ => (false, s)
            end) as [neg body].
  destruct body; [discriminate|].
  destruct (digits_value 0 _); [|discriminate].
  destruct ((min_int <=? _) && (_ <=? max_int)) eqn:Hr; [|discriminate].
  intros [= <-]. apply andb_true_iff in Hr as [?%Z.leb_le ?%Z.leb_le]. lia.
Qed.

(** C9 (as amended): for an operand whose value [Atoi] accepts, the cutoff
    is what [time.Date] returns for the date and clock of now with the day
    lowered by the value (unit d), by seven times the value (unit w), or
    with the month lowered by the value (unit m), provided the negated count
    and the sum fit an [int].  Where [time.Date] gives the date of the
    calendar for these arguments, as it does unless the count of seconds
    leaves 64 bits or the wall time does not exist in the local zone, the
    units d and w move the day number of now back by the value and by seven
    times the value, and the unit m gives the day that is as far into the
    month that many months back as now is into its month.  The predicate is
    the byte-wise comparison of the bill date with the formatted cutoff,
    which a bill dated at the cutoff passes; and an operand shorter than two
    bytes, with a value [Atoi] rejects, or with another unit is an error, of
    [parseRecent] and of the filter list. *)
Theorem recent_filter_cutoff_and_errors (now : Time) (s : string) :
  valid_date now ->
  is_int (Year now) ->
  (forall valueStr unit value,
     split_last (TrimSpace s) = Some (valueStr, unit) ->
     Atoi valueStr = Some value ->
     (unit = "d"%char -> min_int < value -> is_int (Day now - value) ->
      parseRecent now s
      = Ok (Date_ (Year now) (Month now) (Day now - value) (Clock now))
      /\ (Date_is_calendar (Year now) (Month now) (Day now - value) (Clock now) ->
          exists cutoff, parseRecent now s = Ok cutoff
            /\ day_number cutoff = day_number now - value))
     /\ (unit = "w"%char -> min_int <= - (7 * value) <= max_int ->
         is_int (Day now - 7 * value) ->
         parseRecent now s
         = Ok (Date_ (Year now) (Month now) (Day now - 7 * value) (Clock now))
         /\ (Date_is_calendar (Year now) (Month now) (Day now - 7 * value) (Clock now) ->
             exists cutoff, parseRecent now s = Ok cutoff
               /\ day_number cutoff = day_number now - 7 * value))
     /\ (unit = "m"%char -> min_int < value -> is_int (Month now - value) ->
         parseRecent now s
         = Ok (Date_ (Year now) (Month now - value) (Day now) (Clock now))
         /\ (Date_is_calendar (Year now) (Month now - value) (Day now) (Clock now) ->
             exists cutoff, parseRecent now s = Ok cutoff
               /\ day_number cutoff
                  = month_start (month_index now - value) + (Day now - 1)))
     /\ (unit <> "d"%char -> unit <> "w"%char -> unit <> "m"%char ->
         is_ok (parseRecent now s) = false))
  /\ ((String.length (TrimSpace s) < 2)%nat -> is_ok (parseRecent now s) = false)
  /\ (forall valueStr unit,
        split_last (TrimSpace s) = Some (valueStr, unit) ->
        Atoi valueStr = None -> is_ok (parseRecent now s) = false)
  /\ (forall project cutoff,
        s <> EmptyString -> parseRecent now s = Ok cutoff ->
        buildFilters (only_recent s) now project = Ok [recentFilter cutoff])
  /\ (forall flags project,
        listRecent flags = s -> s <> EmptyString ->
        is_ok (parseRecent now s) = false ->
        is_ok (buildFilters flags now project) = false)
  /\ (forall cutoff bill,
        recentFilter cutoff bill = String.leb (Format_date cutoff) (Date bill)
        /\ (Date bill = Format_date cutoff -> recentFilter cutoff bill = true)).
Proof.
  intros Hnow Hyear. pose proof Hnow as [Hmonth Hday].
  assert (Hdaymax : Day now <= 31)
    by (pose proof (daysIn_bounds (Month now) (Year now)); lia).
  split; [|split; [|split; [|split; [|split]]]].
  - intros valueStr unit value Hsplit HA.
    rewrite (parseRecent_of_split _ _ _ _ _ Hsplit HA).
    pose proof (Atoi_is_int _ _ HA) as Hvalue. unfold is_int in Hvalue.
    split; [|split; [|split]].
    + intros -> Hmin Hsum. rewrite Ascii.eqb_refl.
      rewrite wrap64_in_range by (unfold min_int, max_int in *; lia).
      assert (Hcall : AddDate now 0 0 (- value)
                      = Date_ (Year now) (Month now) (Day now - value) (Clock now)).
      { rewrite AddDate_days; [reflexivity|assumption|assumption|exact Hsum]. }
      split; [now rewrite Hcall|].
      intros Hcal. eexists. split; [reflexivity|].
      rewrite day_number_AddDate_days; [lia|assumption|assumption|exact Hsum|exact Hcal].
    + intros -> Hrange Hsum. change (Ascii.eqb "w" "d") with false. cbv iota.
      rewrite Ascii.eqb_refl.
      rewrite (wrap64_in_range (- value)) by (unfold min_int, max_int in *; lia).
      rewrite wrap64_in_range by (unfold min_int, max_int in *; lia).
      replace (- value * 7) with (- (7 * value)) by lia.
      assert (Hcall : AddDate now 0 0 (- (7 * value))
                      = Date_ (Year now) (Month now) (Day now - 7 * value) (Clock now)).
      { rewrite AddDate_days; [reflexivity|assumption|assumption|exact Hsum]. }
      split; [now rewrite Hcall|].
      intros Hcal. eexists. split; [reflexivity|].
      rewrite day_number_AddDate_days; [lia|assumption|assumption|exact Hsum|exact Hcal].
    + intros -> Hmin Hsum. change (Ascii.eqb "m" "d") with false.
      change (Ascii.eqb "m" "w") with false. cbv iota. rewrite Ascii.eqb_refl.
      rewrite wrap64_in_range by (unfold min_int, max_int in *; lia).
      assert (Hcall : AddDate now 0 (- value) 0
                      = Date_ (Year now) (Month now - value) (Day now) (Clock now)).
      { rewrite AddDate_in_range.
        - now rewrite !Z.add_0_r.
        - now rewrite Z.add_0_r.
        - exact Hsum.
        - rewrite Z.add_0_r. unfold is_int, min_int, max_int. lia. }
      split; [now rewrite Hcall|].
      intros Hcal. eexists. split; [reflexivity|].
      rewrite Hcall, Hcal, day_number_calendar_Date_month.
      unfold month_index. f_equal. f_equal. lia.
    + intros Hd Hw Hm.
      destruct (Ascii.eqb_spec unit "d"); [contradiction|].
      destruct (Ascii.eqb_spec unit "w"); [contradiction|].
      destruct (Ascii.eqb_spec unit "m"); [contradiction|]. reflexivity.
  - intros Hlen. unfold parseRecent.
    destruct (Nat.ltb_spec (String.length (TrimSpace s)) 2) as [_|?]; [reflexivity|lia].
  - intros valueStr unit Hsplit HA. unfold parseRecent.
    destruct (String.length (TrimSpace s) <? 2)%nat; [reflexivity|].
    now rewrite Hsplit, HA.
  - intros project cutoff Hne Hparse. unfold buildFilters, only_recent. simpl.
    destruct (String.eqb_spec s EmptyString) as [->|_]; [contradiction|].
    now rewrite Hparse.
  - intros flags project <- Hne Hbad. unfold buildFilters.
    do 10 (apply bind_not_ok; intros ?).
    apply bind_err_not_ok.
    destruct (String.eqb_spec (listRecent flags) EmptyString) as [Heq|_];
      [contradiction|].
    now apply bind_err_not_ok, wrap_error_not_ok.
  - intros cutoff bill. split; [reflexivity|].
    intros Heq. unfold recentFilter. rewrite Heq. apply String_leb_refl.
Qed.

End RecentFilter.

Lemma recent_filter_cutoff_and_errors_witness :
  valid_date example_now
  /\ is_int (Year example_now)
  /\ (exists cutoff, parseRecent example_now "2w" = Ok cutoff
        /\ day_number cutoff = day_number example_now - 14
        /\ Format_date cutoff = "2026-03-17"
        /\ buildFilters (only_recent "2w") example_now project_food
           = Ok [recentFilter cutoff])
  /\ (exists cutoff, parseRecent example_now "1m" = Ok cutoff
        /\ day_number cutoff
           = month_start (month_index example_now - 1) + (Day example_now - 1)
        /\ Format_date cutoff = "2026-03-03"
        /\ Format_date (AddDate example_now 0 0 (-30)) = "2026-03-01")
  /\ is_ok (parseRecent example_now "7x") = false
  /\ is_ok (parseRecent example_now "abcd") = false
  /\ is_ok (parseRecent example_now "d") = false.
Proof.
  assert (Hnow : valid_date example_now) by (vm_compute; repeat split; discriminate).
  assert (Hyear : is_int (Year example_now)) by (vm_compute; split; discriminate).
  destruct (recent_filter_cutoff_and_errors example_now "2w" Hnow Hyear)
    as (Hok & _ & _ & Hbuild & _).
  destruct (recent_filter_cutoff_and_errors example_now "7x" Hnow Hyear)
    as (Hunit & _).
  destruct (recent_filter_cutoff_and_errors example_now "abcd" Hnow Hyear)
    as (_ & _ & Hvalue & _).
  destruct (recent_filter_cutoff_and_errors example_now "d" Hnow Hyear)
    as (_ & Hshort & _).
  destruct (recent_filter_cutoff_and_errors example_now "1m" Hnow Hyear)
    as (Hmonths & _).
  split; [exact Hnow|]. split; [exact Hyear|].
  split; [|split; [|split; [|split]]].
  - destruct (Hok "2" "w"%char 2 eq_refl eq_refl) as (_ & Hw & _).
    destruct (Hw eq_refl) as (_ & Hcal).
    { unfold min_int, max_int. lia. }
    { vm_compute. split; discriminate. }
    destruct (Hcal eq_refl) as (cutoff & Hparse & Hday).
    exists cutoff. split; [exact Hparse|]. split; [exact Hday|]. split.
    + assert (Hc : Ok cutoff = Ok (AddDate example_now 0 0 (-14)))
        by (rewrite <- Hparse; reflexivity).
      injection Hc as ->. reflexivity.
    + apply Hbuild; [discriminate | exact Hparse].
  - destruct (Hmonths "1" "m"%char 1 eq_refl eq_refl) as (_ & _ & Hm & _).
    destruct (Hm eq_refl) as (_ & Hcal).
    { unfold min_int. lia. }
    { vm_compute. split; discriminate. }
    destruct (Hcal eq_refl) as (cutoff & Hparse & Hday).
    exists cutoff. split; [exact Hparse|]. split; [exact Hday|].
    assert (Hc : Ok cutoff = Ok (AddDate example_now 0 (-1) 0))
      by (rewrite <- Hparse; reflexivity).
    injection Hc as ->. split; reflexivity.
  - destruct (Hunit "7" "x"%char 7 eq_refl eq_refl) as (_ & _ & _ & Herr).
    apply Herr; discriminate.
  - apply (Hvalue "abc" "d"%char); reflexivity.
  - apply Hshort. simpl. lia.
Defined.

(** C9 as stated fails where the day count leaves the [int] range: seven
    times 7905747460161236407 is 3 * 2^64 + 1, so the cutoff of that many
    weeks is the day before now. *)
Lemma recent_weeks_wrap_around :
  Atoi "7905747460161236407" = Some 7905747460161236407
  /\ parseRecent example_now "7905747460161236407w"
     = Ok (AddDate example_now 0 0 (-1))
  /\ Format_date (AddDate example_now 0 0 (-1)) = "2026-03-30"
  /\ day_number (AddDate example_now 0 0 (-1)) = day_number example_now - 1
  /\ day_number (AddDate example_now 0 0 (-1))
     <> day_number example_now - 7 * 7905747460161236407.
Proof. repeat split; try reflexivity. vm_compute. discriminate. Qed.

(** ** Sorting and the limit *)

Lemma billLess_false_not_older (a b : BillResponse) :
  billLess b a = false <-> not_older a b.
Proof.
  unfold billLess, not_older, String.ltb, String.leb.
  destruct (String.eqb_spec (Date b) (Date a)) as [Heq|Hne]; simpl.
  - rewrite Heq. pose proof (String_leb_refl (Date a)) as Hrefl.
    unfold String.leb in Hrefl. rewrite Z.ltb_ge. split.
    + intros Hts. split; [exact Hrefl | intros _; exact Hts].
    + intros [_ Hts]. now apply Hts.
  - rewrite (String.compare_antisym (Date a) (Date b)).
    destruct (String.compare (Date b) (Date a)) eqn:Hc; simpl.
    + apply String.compare_eq_iff in Hc. contradiction.
    + split; [|reflexivity]. intros _. split; [reflexivity|].
      intros Heq. now symmetry in Heq.
    + split; [discriminate|]. now intros [? _].
Qed.

Lemma fold_append_map {A B} (f : A -> B) (l : list A) (acc : slice B) :
  elems (fold_left (fun result x => append result (f x)) l acc)
  = elems acc ++ map f l.
Proof.
  revert acc. induction l as [|x l IH]; intros acc; simpl.
  - now rewrite app_nil_r.
  - rewrite IH. unfold append. simpl. now rewrite <- app_assoc.
Qed.

Section Limit.
Context `{std : GoStd}.

(** C10: with a positive limit N the bills are sorted first, newest date
    first and for one date the larger timestamp first, and the first N of
    the sorted sequence are kept, so that no bill dropped is newer than a
    bill kept; with a limit of zero or less all bills are kept, sorted.
    [sort.Slice] is taken to return a permutation of its input that is
    ordered by the [less] it is given. *)
Theorem limit_keeps_the_newest_bills
    (flags : ListFlags) (project : Project) (bills : slice BillResponse) :
  sortSlice billLess (elems bills) ≡ₚ elems bills ->
  StronglySorted (fun a b => billLess b a = false) (sortSlice billLess (elems bills)) ->
  let sorted := sortSlice billLess (elems bills) in
  let N := Z.to_nat (listLimit flags) in
  StronglySorted not_older sorted
  /\ (0 < listLimit flags ->
      elems (resolveBillNames flags project bills)
      = map (resolveWith project) (take N sorted)
      /\ length (elems (resolveBillNames flags project bills))
         = Nat.min N (length (elems bills))
      /\ take N sorted ++ drop N sorted ≡ₚ elems bills
      /\ (forall kept dropped,
            kept ∈ take N sorted -> dropped ∈ drop N sorted ->
            not_older kept dropped))
  /\ (listLimit flags <= 0 ->
      elems (resolveBillNames flags project bills) = map (resolveWith project) sorted
      /\ length (elems (resolveBillNames flags project bills))
         = length (elems bills)).
Proof.
  intros Hperm Hsorted sorted N.
  assert (Hnewest : StronglySorted not_older sorted).
  { clear -Hsorted. subst sorted.
    induction Hsorted as [|a l Hl IH Ha]; constructor; [assumption|].
    eapply Forall_impl; [exact Ha|]. intros b Hb. now apply billLess_false_not_older. }
  assert (Hlen : length sorted = length (elems bills))
    by (subst sorted; now rewrite Hperm).
  split; [exact Hnewest|]. split.
  - intros Hpos. unfold resolveBillNames. rewrite fold_append_map. simpl.
    fold sorted. fold (resolveWith project).
    assert (Hres : (if (0 <? listLimit flags)
                       && (listLimit flags <? Z.of_nat (length sorted))
                    then take N sorted else sorted) = take N sorted).
    { destruct (Z.ltb_spec 0 (listLimit flags)) as [_|?]; [|lia].
      destruct (Z.ltb_spec (listLimit flags) (Z.of_nat (length sorted))) as [_|Hge];
        [reflexivity|].
      simpl. symmetry. apply take_ge. subst N. lia. }
    fold N. rewrite Hres. split; [reflexivity|]. split; [|split].
    + rewrite length_map, length_take, Hlen. reflexivity.
    + now rewrite take_drop.
    + intros kept dropped Hk Hd.
      apply (StronglySorted_app_1_elem_of not_older (take N sorted) (drop N sorted));
        [now rewrite take_drop | assumption | assumption].
  - intros Hnone. unfold resolveBillNames. rewrite fold_append_map. simpl.
    fold sorted. fold (resolveWith project).
    destruct (Z.ltb_spec 0 (listLimit flags)) as [?|_]; [lia|]. simpl.
    split; [reflexivity|]. now rewrite length_map.
Qed.

End Limit.

Lemma limit_keeps_the_newest_bills_witness :
  sortSlice billLess example_bills ≡ₚ example_bills
  /\ map rb_ID (elems (resolveBillNames (limit_flags 2) project_food (Some example_bills)))
     = [3; 2]
  /\ map rb_ID (elems (resolveBillNames (limit_flags 0) project_food (Some example_bills)))
     = [3; 2; 1]
  /\ map rb_ID (elems (resolveBillNames (limit_flags (-1)) project_food (Some example_bills)))
     = [3; 2; 1].
Proof.
  assert (Hperm : sortSlice billLess (elems (Some example_bills))
                  ≡ₚ elems (Some example_bills)).
  { change (sortSlice billLess (elems (Some example_bills)))
      with (reverse example_bills).
    apply reverse_Permutation. }
  assert (Hsorted : StronglySorted (fun a b => billLess b a = false)
                      (sortSlice billLess (elems (Some example_bills)))).
  { change (sortSlice billLess (elems (Some example_bills)))
      with (reverse example_bills).
    repeat constructor. }
  split; [exact Hperm|].
  destruct (limit_keeps_the_newest_bills (limit_flags 2) project_food
              (Some example_bills) Hperm Hsorted) as (_ & Hpos & _).
  destruct (limit_keeps_the_newest_bills (limit_flags 0) project_food
              (Some example_bills) Hperm Hsorted) as (_ & _ & Hzero).
  destruct (limit_keeps_the_newest_bills (limit_flags (-1)) project_food
              (Some example_bills) Hperm Hsorted) as (_ & _ & Hneg).
  split; [|split].
  - destruct Hpos as [-> _]; [simpl; lia | reflexivity].
  - destruct Hzero as [-> _]; [simpl; lia | reflexivity].
  - destruct Hneg as [-> _]; [simpl; lia | reflexivity].
Defined.

(** ** JSON round trip of the records *)

Section RoundTrip.
Context `{std : GoStd}.

Lemma decodeInt_int (old z : Z) : is_int z -> decodeInt old (JInt z) = (z, true).
Proof.
  intros [Hlo Hhi]. unfold decodeInt.
  destruct (Z.leb_spec min_int z); [|lia]. destruct (Z.leb_spec z max_int); [|lia].
  reflexivity.
Qed.

Lemma decodeMember_encode (m : Member) (j : json) :
  Member_ok m -> encodeMember m = Some j ->
  decodeMember zeroMember j = (m, true).
Proof.
  intros (Hid & Hname & Huid) [= <-]. destruct m as [id name userid activated].
  unfold is_text in *. simpl in Hid, Hname, Huid.
  unfold decodeMember, encodeString. cbn -[decodeInt].
  now rewrite (decodeInt_int _ _ Hid), Hname, Huid.
Qed.

Lemma decodeCategory_encode (c : Category) (j : json) :
  Category_ok c -> encodeCategory c = Some j ->
  decodeCategory zeroCategory j = (c, true).
Proof.
  intros (Hid & Hname & Hicon & Hcolor) [= <-]. destruct c as [id name icon color].
  unfold is_text in *. simpl in Hid, Hname, Hicon, Hcolor.
  unfold decodeCategory, encodeString. cbn -[decodeInt].
  now rewrite (decodeInt_int _ _ Hid), Hname, Hicon, Hcolor.
Qed.

Lemma decodePaymentMode_encode (pm : PaymentMode) (j : json) :
  PaymentMode_ok pm -> encodePaymentMode pm = Some j ->
  decodePaymentMode zeroPaymentMode j = (pm, true).
Proof.
  intros (Hid & Hname & Hicon & Hcolor) [= <-]. destruct pm as [id name icon color].
  unfold is_text in *. simpl in Hid, Hname, Hicon, Hcolor.
  unfold decodePaymentMode, encodeString. cbn -[decodeInt].
  now rewrite (decodeInt_int _ _ Hid), Hname, Hicon, Hcolor.
Qed.

Lemma decodeCurrency_encode (c : Currency) (j : json) :
  Currency_ok c -> encodeCurrency c = Some j ->
  decodeCurrency zeroCurrency j = (c, true).
Proof.
  intros (Hid & Hname) Henc. destruct c as [id name rate].
  unfold is_text in *. simpl in Hid, Hname.
  unfold encodeCurrency, encodeFloat in Henc. cbn in Henc.
  destruct (_ || _); [discriminate|]. injection Henc as <-.
  unfold decodeCurrency, encodeString. cbn -[decodeInt].
  now rewrite (decodeInt_int _ _ Hid), Hname.
Qed.

Lemma decodeElems_encode {T} (enc : T -> option json) (d : decoder T) (zero : T)
    (ok : T -> Prop) (l : list T) (js : list json) :
  (forall x j, ok x -> enc x = Some j -> d zero j = (x, true)) ->
  Forall ok l -> mapM enc l = Some js ->
  decodeElems d zero js [] = (l, true).
Proof.
  intros Hone Hall. revert js. induction Hall as [|x l Hx Hl IH]; intros js Hjs.
  - injection Hjs as <-. reflexivity.
  - rewrite mapM_Some in Hjs. inversion Hjs as [|? j ? js' Hj Hjs']; subst.
    apply mapM_Some in Hjs'. cbn. rewrite (Hone _ _ Hx Hj).
    now rewrite (IH _ Hjs').
Qed.

Lemma decodeSlice_encode {T} (enc : T -> option json) (d : decoder T) (zero : T)
    (ok : T -> Prop) (s : slice T) (j : json) :
  (forall x j, ok x -> enc x = Some j -> d zero j = (x, true)) ->
  Forall ok (elems s) -> encodeSlice enc s = Some j ->
  decodeSlice d zero None j = (s, true).
Proof.
  intros Hone Hall Henc. destruct s as [l|]; simpl in *.
  - destruct (mapM enc l) as [js|] eqn:Hjs; [|discriminate].
    injection Henc as <-. simpl. now rewrite (decodeElems_encode _ _ _ _ _ _ Hone Hall Hjs).
  - now injection Henc as <-.
Qed.

Lemma mapRange_empty {A} :
  (forall m : gmap string A, mapRange m ≡ₚ map_to_list m) ->
  mapRange (∅ : gmap string A) = [].
Proof.
  intros Hrange. apply Permutation_nil_r. rewrite Hrange.
  now rewrite map_to_list_empty.
Qed.

Lemma parseCategories_encode (s : slice Category) (j : json) :
  (forall m : gmap string Category, mapRange m ≡ₚ map_to_list m) ->
  Forall Category_ok (elems s) ->
  encodeSlice encodeCategory s = Some j ->
  parseCategories j = Some (elems s).
Proof.
  intros Hrange Hall Henc. unfold parseCategories.
  pose proof (decodeSlice_encode encodeCategory decodeCategory zeroCategory _ s j
                decodeCategory_encode Hall Henc) as Hdec.
  destruct s as [l|]; simpl in Henc.
  - destruct (mapM encodeCategory l) as [js|]; [|discriminate].
    injection Henc as <-. simpl decodeMap. cbv iota. now rewrite Hdec.
  - injection Henc as <-. simpl. now rewrite (mapRange_empty Hrange).
Qed.

Lemma parsePaymentModes_encode (s : slice PaymentMode) (j : json) :
  (forall m : gmap string PaymentMode, mapRange m ≡ₚ map_to_list m) ->
  Forall PaymentMode_ok (elems s) ->
  encodeSlice encodePaymentMode s = Some j ->
  parsePaymentModes j = Some (elems s).
Proof.
  intros Hrange Hall Henc. unfold parsePaymentModes.
  pose proof (decodeSlice_encode encodePaymentMode decodePaymentMode zeroPaymentMode
                _ s j decodePaymentMode_encode Hall Henc) as Hdec.
  destruct s as [l|]; simpl in Henc.
  - destruct (mapM encodePaymentMode l) as [js|]; [|discriminate].
    injection Henc as <-. simpl decodeMap. cbv iota. now rewrite Hdec.
  - injection Henc as <-. simpl. now rewrite (mapRange_empty Hrange).
Qed.

(** [UnmarshalJSON] on a new project reads back what [MarshalJSON] wrote. *)
Lemma Project_UnmarshalJSON_MarshalJSON (p : Project) (j : json) :
  (forall A (m : gmap string A), mapRange m ≡ₚ map_to_list m) ->
  Project_ok p -> Project_MarshalJSON p = Some j ->
  j <> JNull /\ Project_UnmarshalJSON zeroProject j = Ok (as_loaded p).
Proof.
  intros Hrange (Hid & Hname & Hcn & Hm & Hc & Hpm & Hcur) Henc.
  unfold Project_MarshalJSON in Henc.
  destruct (encodeSlice encodeMember (Members p)) as [mj|] eqn:Emj; [|discriminate].
  destruct (encodeSlice encodeCategory (Categories p)) as [cj|] eqn:Ecj; [|discriminate].
  destruct (encodeSlice encodePaymentMode (PaymentModes p)) as [pj|] eqn:Epj;
    [|discriminate].
  destruct (encodeSlice encodeCurrency (Currencies p)) as [uj|] eqn:Euj; [|discriminate].
  cbn in Henc. injection Henc as <-. split; [discriminate|].
  unfold Project_UnmarshalJSON, encodeString.
  cbn -[decodeSlice parseCategories parsePaymentModes].
  unfold is_text in Hid, Hname, Hcn. rewrite Hid, Hname, Hcn.
  rewrite (decodeSlice_encode _ _ _ _ _ _ decodeMember_encode Hm Emj).
  rewrite (decodeSlice_encode _ _ _ _ _ _ decodeCurrency_encode Hcur Euj).
  rewrite (parseCategories_encode _ _ (Hrange _) Hc Ecj).
  rewrite (parsePaymentModes_encode _ _ (Hrange _) Hpm Epj).
  reflexivity.
Qed.

Lemma same_fields_as_loaded (p : Project) : same_fields (as_loaded p) p.
Proof. repeat split. Qed.

End RoundTrip.

(** ** Cache store *)

Lemma Since_fresh (now t : Z) : now - t <= cacheTTL -> (cacheTTL <? Since now t) = false.
Proof.
  intros Hfresh. apply Z.ltb_ge. unfold Since, cacheTTL, min_int, max_int in *. lia.
Qed.

Lemma Since_expired (now t : Z) : cacheTTL < now - t -> (cacheTTL <? Since now t) = true.
Proof.
  intros Hold. apply Z.ltb_lt. unfold Since, cacheTTL, min_int, max_int in *. lia.
Qed.

Section CacheStore.
Context `{std : GoStd}.

Lemma getCachePath_WriteFile (w w' : World) (path : string) (c : content)
    (projectID : string) :
  WriteFile w path c = Some w' -> getCachePath w' projectID = getCachePath w projectID.
Proof.
  unfold WriteFile. destruct (write_fails w path); [discriminate|].
  now intros [= <-].
Qed.

Lemma ReadFile_WriteFile (w w' : World) (path : string) (c : content) :
  WriteFile w path c = Some w' -> ReadFile w' path = Some c.
Proof.
  unfold WriteFile, ReadFile. destruct (write_fails w path); [discriminate|].
  intros [= <-]. simpl. now rewrite lookup_insert_eq.
Qed.

Lemma unmarshal_marshal_CachedProject (p : Project) (t : Z) (data : json) :
  (forall t s, timeMarshal t = Some s -> timeUnmarshal s = Some t) ->
  (forall A (m : gmap string A), mapRange m ≡ₚ map_to_list m) ->
  Project_ok p ->
  marshalCachedProject {| cp_Project := Some p; cp_CachedAt := t |} = Some data ->
  unmarshalCachedProject data
  = Ok {| cp_Project := Some (as_loaded p); cp_CachedAt := t |}.
Proof.
  intros Htime Hrange Hints Henc. unfold marshalCachedProject in Henc. simpl in Henc.
  destruct (Project_MarshalJSON p) as [pj|] eqn:Epj; [|discriminate].
  destruct (timeMarshal t) as [ts|] eqn:Ets; [|discriminate].
  cbn in Henc. injection Henc as <-.
  destruct (Project_UnmarshalJSON_MarshalJSON p pj Hrange Hints Epj) as [Hnn Hdec].
  unfold unmarshalCachedProject.
  cbn -[Project_UnmarshalJSON zeroProject].
  assert (Hptr : decodeProjectPtr None pj = Ok (Some (as_loaded p))).
  { unfold decodeProjectPtr. destruct pj; try contradiction; simpl default;
      now rewrite Hdec. }
  unfold decodeProjectPtr in Hptr |- *.
  destruct pj; try contradiction; simpl default in *;
    rewrite Hdec; cbn; now rewrite (Htime _ _ Ets).
Qed.

(** C3: after [Save] has succeeded for a project whose IDs are Go ints and
    whose strings are valid UTF-8,
    [Load] of the same project ID, at an instant no more than the TTL later,
    returns found together with a project that has the saved ID, name and
    currency name and the saved members, categories, payment modes and
    currencies, element for element; the members and currencies slices come
    back as they were, the categories and payment modes as non-nil slices.
    The encoding of a time as text is taken to be read back as the same
    instant, and a [range] over a map to visit each entry once. *)
Theorem Load_after_Save_returns_the_saved_project
    (w w' : World) (now now' : Z) (projectID : string) (project : Project) :
  (forall t s, timeMarshal t = Some s -> timeUnmarshal s = Some t) ->
  (forall A (m : gmap string A), mapRange m ≡ₚ map_to_list m) ->
  Project_ok project ->
  Save w now projectID (Some project) = Ok w' ->
  now' - now <= cacheTTL ->
  exists loaded,
    Load w' now' projectID = (Some loaded, true)
    /\ same_fields loaded project
    /\ loaded = as_loaded project.
Proof.
  intros Htime Hrange Hints Hsave Hfresh. unfold Save in Hsave.
  destruct (getCachePath w projectID) as [path|] eqn:Hpath; [|discriminate].
  simpl in Hsave.
  destruct (marshalCachedProject _) as [data|] eqn:Hdata; [|discriminate].
  destruct (WriteFile w path (Document data)) as [w1|] eqn:Hwrite; [|discriminate].
  injection Hsave as <-.
  exists (as_loaded project). split; [|split; [apply same_fields_as_loaded|reflexivity]].
  unfold Load.
  rewrite (getCachePath_WriteFile _ _ _ _ _ Hwrite), Hpath.
  rewrite (ReadFile_WriteFile _ _ _ _ Hwrite).
  rewrite (unmarshal_marshal_CachedProject _ _ _ Htime Hrange Hints Hdata).
  simpl. now rewrite (Since_fresh _ _ Hfresh).
Qed.

(** C4: [Load] and [LoadUserInfo] are total and return no error value; they
    return (nil, false) when the cache directory cannot be made, when the
    file is absent, unreadable or not JSON, when the document does not
    decode, and, whatever the payload is, when the decoded [cachedAt] is
    more than the TTL before now; and whenever found is false the pointer is
    nil. *)
Theorem Load_degrades_to_not_found (w : World) (now : Z) (projectID : string) :
  (is_ok (getCachePath w projectID) = false -> Load w now projectID = (None, false))
  /\ (forall path,
        getCachePath w projectID = Ok path ->
        (files w !! path = None -> Load w now projectID = (None, false))
        /\ (files w !! path = Some Unreadable -> Load w now projectID = (None, false))
        /\ (files w !! path = Some (Readable NotJSON) ->
            Load w now projectID = (None, false))
        /\ (forall data,
              files w !! path = Some (Readable (Document data)) ->
              (is_ok (unmarshalCachedProject data) = false ->
               Load w now projectID = (None, false))
              /\ (forall cached,
                    unmarshalCachedProject data = Ok cached ->
                    cacheTTL < now - cp_CachedAt cached ->
                    Load w now projectID = (None, false))))
  /\ (files w !! userInfoPath w = None -> LoadUserInfo w now = (None, false))
  /\ (files w !! userInfoPath w = Some Unreadable -> LoadUserInfo w now = (None, false))
  /\ (files w !! userInfoPath w = Some (Readable NotJSON) ->
      LoadUserInfo w now = (None, false))
  /\ (forall data,
        files w !! userInfoPath w = Some (Readable (Document data)) ->
        (is_ok (unmarshalCachedUserInfo data) = false ->
         LoadUserInfo w now = (None, false))
        /\ (forall cached,
              unmarshalCachedUserInfo data = Ok cached ->
              cacheTTL < now - cu_CachedAt cached ->
              LoadUserInfo w now = (None, false)))
  /\ ((Load w now projectID).2 = false -> (Load w now projectID).1 = None)
  /\ ((LoadUserInfo w now).2 = false -> (LoadUserInfo w now).1 = None).
Proof.
  split; [|split; [|split; [|split; [|split; [|split; [|split]]]]]].
  - unfold Load. now destruct (getCachePath w projectID).
  - intros path Hpath. unfold Load, ReadFile. rewrite Hpath.
    split; [|split; [|split]].
    + now intros ->.
    + now intros ->.
    + now intros ->.
    + intros data ->. split.
      * now destruct (unmarshalCachedProject data).
      * intros cached -> Hold. now rewrite (Since_expired _ _ Hold).
  - unfold LoadUserInfo, ReadFile. now intros ->.
  - unfold LoadUserInfo, ReadFile. now intros ->.
  - unfold LoadUserInfo, ReadFile. now intros ->.
  - intros data Hfile. unfold LoadUserInfo, ReadFile. rewrite Hfile. split.
    + now destruct (unmarshalCachedUserInfo data).
    + intros cached -> Hold. now rewrite (Since_expired _ _ Hold).
  - unfold Load. destruct (getCachePath w projectID); [|reflexivity].
    destruct (ReadFile w a) as [[|data]|]; try reflexivity.
    destruct (unmarshalCachedProject data) as [cached|]; [|reflexivity].
    now destruct (cacheTTL <? Since now (cp_CachedAt cached)).
  - unfold LoadUserInfo.
    destruct (ReadFile w (userInfoPath w)) as [[|data]|]; try reflexivity.
    destruct (unmarshalCachedUserInfo data) as [cached|]; [|reflexivity].
    now destruct (cacheTTL <? Since now (cu_CachedAt cached)).
Qed.

End CacheStore.

(** The instance of the examples satisfies the two laws of the interface
    that the cache relies on. *)
Lemma ascii_std_time_roundtrip (t : Z) (s : string) :
  timeMarshal t = Some s -> timeUnmarshal s = Some t.
Proof.
  simpl. intros [= <-].
  assert (Hd : forall d, Z.of_int <$> NilZero.int_of_string (NilZero.string_of_int d)
                         = Some (Z.of_int d)).
  { intros [u|u]; destruct u; try (rewrite NilZero.isi; [reflexivity | discriminate..]).
    - now rewrite NilZero.isi_posnil.
    - now rewrite NilZero.isi_negnil. }
  now rewrite Hd, DecimalZ.of_to.
Qed.

Lemma ascii_std_mapRange A (m : gmap string A) : mapRange m ≡ₚ map_to_list m.
Proof. reflexivity. Qed.

Lemma Load_after_Save_returns_the_saved_project_witness :
  exists w',
    Save example_world 1000 "demo" (Some project_numeric_names) = Ok w'
    /\ 1000 + cacheTTL - 1000 <= cacheTTL
    /\ Load w' (1000 + cacheTTL) "demo" = (Some (as_loaded project_numeric_names), true)
    /\ as_loaded project_numeric_names = project_numeric_names.
Proof.
  destruct (Save example_world 1000 "demo" (Some project_numeric_names))
    as [w'|msg] eqn:Hsave; [|discriminate Hsave].
  exists w'. split; [reflexivity|].
  assert (Hfresh : 1000 + cacheTTL - 1000 <= cacheTTL) by lia.
  split; [exact Hfresh|]. split; [|reflexivity].
  destruct (Load_after_Save_returns_the_saved_project
              example_world w' 1000 (1000 + cacheTTL) "demo" project_numeric_names
              ascii_std_time_roundtrip ascii_std_mapRange)
    as (loaded & Hload & _ & ->); [|exact Hsave|exact Hfresh|exact Hload].
  unfold Project_ok. simpl.
  repeat (split; [reflexivity|]).
  split; [|split; [|split]];
    repeat (apply Forall_cons; split;
            [repeat split; unfold is_int, min_int, max_int; simpl; lia|]);
    apply Forall_nil_2.
Defined.

(** C3 as stated fails for a project whose slices of categories and of
    payment modes are nil: the project loaded back has empty slices that are
    not nil in their place, so it is not the project that was saved. *)
Lemma Load_after_Save_makes_a_nil_slice_empty :
  exists w' loaded,
    Save example_world 1000 "demo" (Some project_without_slices) = Ok w'
    /\ Load w' 1000 "demo" = (Some loaded, true)
    /\ Categories project_without_slices = None
    /\ Categories loaded = Some []
    /\ PaymentModes project_without_slices = None
    /\ PaymentModes loaded = Some []
    /\ loaded <> project_without_slices.
Proof.
  eexists _, (as_loaded project_without_slices).
  split; [vm_compute; reflexivity|].
  split; [vm_compute; reflexivity|repeat split; discriminate].
Qed.

Lemma Load_degrades_to_not_found_witness :
  Load example_world 5 "demo" = (None, false)
  /\ Load (world_with expired_path Unreadable) 5 "expired-project" = (None, false)
  /\ Load (world_with expired_path (Readable NotJSON)) 5 "expired-project"
     = (None, false)
  /\ Load (world_with expired_path (Readable (Document (JArr []))))
          5 "expired-project" = (None, false)
  /\ unmarshalCachedProject expired_document
     = Ok {| cp_Project := Some (as_loaded project_without_slices); cp_CachedAt := 0 |}
  /\ Load (world_with expired_path (Readable (Document expired_document)))
          (cacheTTL + 1) "expired-project" = (None, false)
  /\ LoadUserInfo example_world 5 = (None, false).
Proof.
  assert (Hdir : forall f, getCachePath (world_with expired_path f) "expired-project"
                           = Ok expired_path) by reflexivity.
  split; [|split; [|split; [|split; [|split; [|split]]]]].
  - destruct (Load_degrades_to_not_found example_world 5 "demo") as (_ & Hfile & _).
    destruct (Hfile "/tmp/cache/cospend/demo.json" eq_refl) as (Habsent & _).
    apply Habsent. reflexivity.
  - destruct (Load_degrades_to_not_found (world_with expired_path Unreadable) 5
                "expired-project") as (_ & Hfile & _).
    destruct (Hfile _ (Hdir _)) as (_ & Hunreadable & _).
    apply Hunreadable. reflexivity.
  - destruct (Load_degrades_to_not_found (world_with expired_path (Readable NotJSON)) 5
                "expired-project") as (_ & Hfile & _).
    destruct (Hfile _ (Hdir _)) as (_ & _ & Hnot & _).
    apply Hnot. reflexivity.
  - destruct (Load_degrades_to_not_found
                (world_with expired_path (Readable (Document (JArr [])))) 5
                "expired-project") as (_ & Hfile & _).
    destruct (Hfile _ (Hdir _)) as (_ & _ & _ & Hdoc).
    destruct (Hdoc (JArr []) eq_refl) as [Hbad _].
    apply Hbad. reflexivity.
  - reflexivity.
  - destruct (Load_degrades_to_not_found
                (world_with expired_path (Readable (Document expired_document)))
                (cacheTTL + 1) "expired-project") as (_ & Hfile & _).
    destruct (Hfile _ (Hdir _)) as (_ & _ & _ & Hdoc).
    destruct (Hdoc expired_document eq_refl) as [_ Hold].
    eapply Hold; [reflexivity|]. vm_compute. reflexivity.
  - destruct (Load_degrades_to_not_found example_world 5 "demo")
      as (_ & _ & Habsent & _).
    apply Habsent. reflexivity.
Defined.

(** * Further properties of the code *)

Lemma find_some_elem {A} (P : A -> bool) (l : list A) (x : A) :
  find P l = Some x -> x ∈ l /\ P x = true.
Proof.
  intros H. apply find_some in H as [Hin HP]. split; [now apply list_elem_of_In|exact HP].
Qed.

Lemma prefix_refl (s : string) : String.prefix s s = true.
Proof.
  induction s as [|c s IH]; simpl; [reflexivity|].
  destruct (ascii_dec c c); [exact IH|congruence].
Qed.

Lemma Contains_refl (s : string) : Contains s s = true.
Proof. destruct s; simpl; [reflexivity|]. now rewrite prefix_refl; destruct (ascii_dec a a). Qed.

Lemma Contains_empty (s : string) : Contains s EmptyString = true.
Proof. now destruct s. Qed.

Section ResolverSoundness.
Context `{std : GoStd}.

Lemma existsb_hit {A} (ID : A -> Z) (l : list A) (id : Z) :
  existsb (fun x => ID x =? id) l = true -> exists x, x ∈ l /\ ID x = id.
Proof.
  intros H. apply existsb_exists in H as (x & Hin & Hx).
  exists x. split; [now apply list_elem_of_In|now apply Z.eqb_eq].
Qed.

(** X1: a resolver never makes up an ID.  Whatever the token is, the ID that
    member, category or payment-mode resolution returns is the ID of an
    element of the project's collection, and the currency that currency
    resolution returns is an element of the project's currencies; a member
    comes with a name or user ID that equals the token up to letter case, a
    category or payment mode with the token as its literal ID or with a name
    that contains the token up to letter case. *)
Theorem resolved_ids_belong_to_the_project (project : Project) (tok : string) :
  (forall id,
     ResolveMember project tok = Ok id ->
     exists m, m ∈ elems (Members project) /\ Member_ID m = id
       /\ (ToLower (Member_Name m) = ToLower tok
           \/ ToLower (Member_UserID m) = ToLower tok))
  /\ (forall id,
        ResolveCategory project tok = Ok id ->
        exists c, c ∈ elems (Categories project) /\ Category_ID c = id
          /\ (Atoi tok = Some id
              \/ Contains (ToLower (Category_Name c)) (ToLower tok) = true))
  /\ (forall id,
        ResolvePaymentMode project tok = Ok id ->
        exists pm, pm ∈ elems (PaymentModes project) /\ PaymentMode_ID pm = id
          /\ (Atoi tok = Some id
              \/ Contains (ToLower (PaymentMode_Name pm)) (ToLower tok) = true))
  /\ (forall cur,
        ResolveCurrency project tok = Ok cur -> cur ∈ elems (Currencies project)).
Proof.
  split; [|split; [|split]].
  - intros id. unfold ResolveMember.
    destruct (find _ _) as [m|] eqn:Hf; [|discriminate].
    intros [= <-]. apply find_some_elem in Hf as [Hin Hm].
    exists m. split; [exact Hin|]. split; [reflexivity|].
    apply orb_true_iff in Hm as [Hm|Hm]; apply String.eqb_eq in Hm; auto.
  - intros id. unfold ResolveCategory.
    destruct (String.eqb tok EmptyString); [discriminate|].
    destruct (Atoi tok) as [n|] eqn:Hn; cbv beta iota zeta.
    + destruct (existsb _ _) eqn:He; cbv beta iota zeta.
      * intros [= <-]. apply existsb_hit in He as (c & Hin & Hc). eauto.
      * destruct (find _ _) as [c|] eqn:Hf; cbv beta iota zeta.
        { intros [= <-]. apply find_some_elem in Hf as [Hin Hc].
          apply String.eqb_eq in Hc. exists c. split; [exact Hin|].
          split; [reflexivity|]. right. rewrite Hc. apply Contains_refl. }
        destruct (find (fun x => Contains _ _) _) as [c|] eqn:Hg; cbv beta iota zeta;
        [|discriminate].
        intros [= <-]. apply find_some_elem in Hg as [Hin Hc]. eauto.
    + destruct (find _ _) as [c|] eqn:Hf; cbv beta iota zeta.
      { intros [= <-]. apply find_some_elem in Hf as [Hin Hc].
        apply String.eqb_eq in Hc. exists c. split; [exact Hin|].
        split; [reflexivity|]. right. rewrite Hc. apply Contains_refl. }
      destruct (find (fun x => Contains _ _) _) as [c|] eqn:Hg; cbv beta iota zeta;
        [|discriminate].
      intros [= <-]. apply find_some_elem in Hg as [Hin Hc]. eauto.
  - intros id. unfold ResolvePaymentMode.
    destruct (String.eqb tok EmptyString); [discriminate|].
    destruct (Atoi tok) as [n|] eqn:Hn; cbv beta iota zeta.
    + destruct (existsb _ _) eqn:He; cbv beta iota zeta.
      * intros [= <-]. apply existsb_hit in He as (c & Hin & Hc). eauto.
      * destruct (find _ _) as [c|] eqn:Hf; cbv beta iota zeta.
        { intros [= <-]. apply find_some_elem in Hf as [Hin Hc].
          apply String.eqb_eq in Hc. exists c. split; [exact Hin|].
          split; [reflexivity|]. right. rewrite Hc. apply Contains_refl. }
        destruct (find (fun x => Contains _ _) _) as [c|] eqn:Hg; cbv beta iota zeta;
        [|discriminate].
        intros [= <-]. apply find_some_elem in Hg as [Hin Hc]. eauto.
    + destruct (find _ _) as [c|] eqn:Hf; cbv beta iota zeta.
      { intros [= <-]. apply find_some_elem in Hf as [Hin Hc].
        apply String.eqb_eq in Hc. exists c. split; [exact Hin|].
        split; [reflexivity|]. right. rewrite Hc. apply Contains_refl. }
      destruct (find (fun x => Contains _ _) _) as [c|] eqn:Hg; cbv beta iota zeta;
        [|discriminate].
      intros [= <-]. apply find_some_elem in Hg as [Hin Hc]. eauto.
  - intros cur. unfold ResolveCurrency.
    destruct (match Atoi tok with Some id => _ | None => None end) as [c|] eqn:Hid.
    { intros [= <-]. destruct (Atoi tok); [|discriminate].
      now apply find_some_elem in Hid as [Hin _]. }
    destruct (find _ _) as [c|] eqn:Hf; cbv beta iota zeta.
    { intros [= <-]. now apply find_some_elem in Hf as [Hin _]. }
    destruct (match currencyCodeToSymbol !! ToLower tok with
              | Some symbol => _ | None => None end) as [c|] eqn:Hs; [|discriminate].
    intros [= <-]. destruct (currencyCodeToSymbol !! ToLower tok); [|discriminate].
    now apply find_some_elem in Hs as [Hin _].
Qed.

(** X2: resolution by name looks at the token only through its lower-casing.
    Two tokens with the same lower-casing resolve to the same member; when
    neither is a decimal integer (and, for categories and payment modes,
    neither is empty) they resolve to the same category, payment mode and
    currency. *)
Theorem name_resolution_ignores_letter_case (project : Project) (tok tok' : string) :
  ToLower tok = ToLower tok' ->
  (forall id, ResolveMember project tok = Ok id <-> ResolveMember project tok' = Ok id)
  /\ (Atoi tok = None -> Atoi tok' = None ->
      (forall cur, ResolveCurrency project tok = Ok cur
                   <-> ResolveCurrency project tok' = Ok cur)
      /\ (tok <> EmptyString -> tok' <> EmptyString ->
          (forall id, ResolveCategory project tok = Ok id
                      <-> ResolveCategory project tok' = Ok id)
          /\ (forall id, ResolvePaymentMode project tok = Ok id
                         <-> ResolvePaymentMode project tok' = Ok id))).
Proof.
  intros Hlow. split.
  - intros id. unfold ResolveMember. rewrite Hlow.
    destruct (find _ _); split; intros H; try discriminate; exact H.
  - intros Hn Hn'. split.
    + intros cur. unfold ResolveCurrency. rewrite Hn, Hn', Hlow.
      destruct (find _ _); [tauto|].
      destruct (currencyCodeToSymbol !! ToLower tok'); [|split; discriminate].
      destruct (find _ _); [tauto|split; discriminate].
    + intros Hne Hne'. apply String.eqb_neq in Hne, Hne'. split.
      * intros id. unfold ResolveCategory. rewrite Hn, Hn', Hlow, Hne, Hne'.
        destruct (find _ _); [tauto|].
        destruct (find _ _); [tauto|split; discriminate].
      * intros id. unfold ResolvePaymentMode. rewrite Hn, Hn', Hlow, Hne, Hne'.
        destruct (find _ _); [tauto|].
        destruct (find _ _); [tauto|split; discriminate].
Qed.

(** X3: the empty token.  Category and payment-mode resolution reject it for
    every project, although every name contains the empty string, so the
    substring step would accept the first element; member resolution has no
    such guard and resolves it to a member whose name or user ID is empty. *)
Theorem empty_token_resolution (project : Project) :
  ResolveCategory project EmptyString = Err "category not found: "
  /\ ResolvePaymentMode project EmptyString = Err "payment mode not found: "
  /\ (forall c, Contains (ToLower (Category_Name c)) EmptyString = true)
  /\ (forall m,
        m ∈ elems (Members project) ->
        Member_Name m = EmptyString \/ Member_UserID m = EmptyString ->
        exists m', first_match
                     (fun m => String.eqb (ToLower (Member_Name m)) (ToLower EmptyString)
                               || String.eqb (ToLower (Member_UserID m))
                                             (ToLower EmptyString))
                     (elems (Members project)) m'
          /\ ResolveMember project EmptyString = Ok (Member_ID m')).
Proof.
  split; [reflexivity|]. split; [reflexivity|]. split; [intros c; apply Contains_empty|].
  intros m Hin Hempty. unfold ResolveMember.
  destruct (find _ _) as [m'|] eqn:Hf.
  - exists m'. split; [now apply find_first_match|reflexivity].
  - exfalso. apply find_none_iff in Hf. rewrite Forall_forall in Hf.
    specialize (Hf m Hin). apply orb_false_iff in Hf as [H1 H2].
    destruct Hempty as [He|He]; rewrite He in *;
      [rewrite String.eqb_refl in H1 | rewrite String.eqb_refl in H2]; discriminate.
Qed.

End ResolverSoundness.

Lemma name_resolution_ignores_letter_case_witness :
  ToLower "SEAFOOD" = ToLower "seaFood"
  /\ ResolveCategory project_food "SEAFOOD" = Ok 2
  /\ ResolveCategory project_food "seaFood" = Ok 2
  /\ ResolveMember project_food "FD" = Ok 1
  /\ ResolveMember project_food "fd" = Ok 1.
Proof.
  assert (Hlow : ToLower "SEAFOOD" = ToLower "seaFood") by reflexivity.
  assert (Hlow' : ToLower "FD" = ToLower "fd") by reflexivity.
  destruct (name_resolution_ignores_letter_case project_food "SEAFOOD" "seaFood" Hlow)
    as (_ & Hrest).
  destruct (Hrest eq_refl eq_refl) as (_ & Hnames).
  destruct Hnames as (Hcat & _); [discriminate|discriminate|].
  destruct (name_resolution_ignores_letter_case project_food "FD" "fd" Hlow')
    as (Hmem & _).
  split; [exact Hlow|]. split; [reflexivity|].
  split; [apply Hcat; reflexivity|].
  split; [reflexivity|]. apply Hmem. reflexivity.
Defined.

(** ** Symbol/code table *)

Lemma codes_survive : codes_survive_upper_casing currencyCodeToSymbol_entries = true.
Proof. vm_compute. reflexivity. Qed.

(** X4: what [SymbolToISO] returns for a symbol of the table, under every
    iteration order of the map: the upper-cased code of an entry that has
    this symbol, never the empty string and never the code of another
    symbol; lower-cased, the result is a key of the table that maps back to
    the symbol. *)
Theorem SymbolToISO_returns_a_code_of_the_symbol
    (order : list (string * string)) (symbol : string) :
  range_order order ->
  (exists code, currencyCodeToSymbol !! code = Some symbol) ->
  exists code,
    currencyCodeToSymbol !! code = Some symbol
    /\ (SymbolToISO order None symbol).2 = ToUpper code
    /\ (SymbolToISO order None symbol).2 <> EmptyString
    /\ currencyCodeToSymbol !! ascii_ToLower (SymbolToISO order None symbol).2
       = Some symbol.
Proof.
  intros Ho [code0 Hcode0].
  assert (Hback : forall code, currencyCodeToSymbol !! code = Some symbol ->
            ascii_ToLower (ToUpper code) = code /\ ToUpper code <> EmptyString).
  { intros code Hc. apply table_lookup_entries, list_elem_of_In in Hc.
    pose proof codes_survive as Hall. unfold codes_survive_upper_casing in Hall.
    rewrite forallb_forall in Hall. specialize (Hall _ Hc). simpl in Hall.
    apply String.eqb_eq in Hall. split; [exact Hall|].
    intros Hempty. rewrite Hempty in Hall. simpl in Hall. subst code.
    apply list_elem_of_In, table_lookup_entries in Hc. discriminate Hc. }
  assert (Hgoal : exists code, currencyCodeToSymbol !! code = Some symbol
            /\ (SymbolToISO order None symbol).2 = ToUpper code).
  { destruct (SymbolToISO_preferred order) as (Husd & Hcny & Hgbp & Heur).
    destruct (String.eqb_spec symbol "$") as [->|N1]; 
      [exists "usd"; split; [vm_compute; reflexivity|exact Husd]|].
    destruct (String.eqb_spec symbol "¥") as [->|N2]; 
      [exists "cny"; split; [vm_compute; reflexivity|exact Hcny]|].
    destruct (String.eqb_spec symbol "£") as [->|N3]; 
      [exists "gbp"; split; [vm_compute; reflexivity|exact Hgbp]|].
    destruct (String.eqb_spec symbol "€") as [->|N4]; 
      [exists "eur"; split; [vm_compute; reflexivity|exact Heur]|].
    rewrite SymbolToISO_result, buildSymbolToISOMap_unfold.
    rewrite !lookup_insert_ne by congruence.
    rewrite first_pass_lookup, lookup_empty.
    destruct (find _ (rev order)) as [[c sy]|] eqn:Hf.
    - apply find_some in Hf as [Hin Heq]. apply String.eqb_eq in Heq. simpl in Heq.
      subst sy. exists c. split; [|reflexivity].
      apply (range_order_elem order); [assumption|].
      apply list_elem_of_In. now apply in_rev.
    - exfalso. apply find_none_iff in Hf. rewrite Forall_forall in Hf.
      apply (range_order_elem order) in Hcode0; [|assumption].
      assert (Hin : (code0, symbol) ∈ rev order).
      { apply list_elem_of_In. apply -> in_rev. now apply list_elem_of_In. }
      specialize (Hf _ Hin). simpl in Hf. rewrite String.eqb_refl in Hf.
      discriminate Hf. }
  destruct Hgoal as (code & Hcode & Hres). exists code.
  destruct (Hback code Hcode) as [Hlow Hne].
  split; [exact Hcode|]. split; [exact Hres|]. rewrite Hres, Hlow. split; assumption.
Qed.

Lemma SymbolToISO_returns_a_code_of_the_symbol_witness :
  range_order (rev currencyCodeToSymbol_entries)
  /\ currencyCodeToSymbol !! "nok" = Some "kr"
  /\ exists code,
       currencyCodeToSymbol !! code = Some "kr"
       /\ (SymbolToISO (rev currencyCodeToSymbol_entries) None "kr").2 = ToUpper code.
Proof.
  split; [apply reverse_order_is_a_range_order|]. split; [reflexivity|].
  destruct (SymbolToISO_returns_a_code_of_the_symbol
              (rev currencyCodeToSymbol_entries) "kr" reverse_order_is_a_range_order)
    as (code & Hcode & Hres & _).
  - exists "nok". reflexivity.
  - exists code. split; assumption.
Defined.

(** ** Cache store: expiry, overwriting and the files touched *)

Section CacheEntries.
Context `{std : GoStd}.

Lemma Project_UnmarshalJSON_object (p : Project) (raw : list (string * json)) :
  exists q, Project_UnmarshalJSON p (JObj raw) = Ok q.
Proof. unfold Project_UnmarshalJSON. eexists. reflexivity. Qed.

Lemma Project_MarshalJSON_object (p : Project) (j : json) :
  Project_MarshalJSON p = Some j -> exists raw, j = JObj raw.
Proof.
  unfold Project_MarshalJSON. intros H.
  destruct (encodeSlice encodeMember (Members p)); [|discriminate H].
  destruct (encodeSlice encodeCategory (Categories p)); [|discriminate H].
  destruct (encodeSlice encodePaymentMode (PaymentModes p)); [|discriminate H].
  destruct (encodeSlice encodeCurrency (Currencies p)); [|discriminate H].
  cbn in H. injection H as <-. eexists. reflexivity.
Qed.

(** What [Load] makes of a cache file that holds a document. *)
Lemma Load_of_document (w : World) (now : Z) (projectID path : string) (data : json)
    (cached : CachedProject) :
  getCachePath w projectID = Ok path ->
  ReadFile w path = Some (Document data) ->
  unmarshalCachedProject data = Ok cached ->
  Load w now projectID
  = if cacheTTL <? Since now (cp_CachedAt cached) then (None, false)
    else (cp_Project cached, true).
Proof. intros Hpath Hfile Hdec. unfold Load. now rewrite Hpath, Hfile, Hdec. Qed.

Lemma LoadUserInfo_of_document (w : World) (now : Z) (data : json)
    (cached : CachedUserInfo) :
  ReadFile w (userInfoPath w) = Some (Document data) ->
  unmarshalCachedUserInfo data = Ok cached ->
  LoadUserInfo w now
  = if cacheTTL <? Since now (cu_CachedAt cached) then (None, false)
    else (cu_UserInfo cached, true).
Proof. intros Hfile Hdec. unfold LoadUserInfo. now rewrite Hfile, Hdec. Qed.

Lemma Save_inv (w w' : World) (now : Z) (projectID : string) (project : option Project) :
  Save w now projectID project = Ok w' ->
  exists path data,
    getCachePath w projectID = Ok path
    /\ marshalCachedProject {| cp_Project := project; cp_CachedAt := now |} = Some data
    /\ WriteFile w path (Document data) = Some w'.
Proof.
  unfold Save. destruct (getCachePath w projectID) as [path|]; [|discriminate].
  simpl. destruct (marshalCachedProject _) as [data|]; [|discriminate].
  destruct (WriteFile w path (Document data)) as [w1|] eqn:Hw; [|discriminate].
  intros [= <-]. eauto.
Qed.

Lemma SaveUserInfo_inv (w w' : World) (now : Z) (userInfo : option UserInfo) :
  SaveUserInfo w now userInfo = Ok w' ->
  exists data,
    mkdir_fails w (filepathJoin (getCacheHome w) appName) = false
    /\ marshalCachedUserInfo {| cu_UserInfo := userInfo; cu_CachedAt := now |} = Some data
    /\ WriteFile w (userInfoPath w) (Document data) = Some w'.
Proof.
  unfold SaveUserInfo. destruct (mkdir_fails w _); [discriminate|].
  destruct (marshalCachedUserInfo _) as [data|]; [|discriminate].
  destruct (WriteFile w (userInfoPath w) (Document data)) as [w1|] eqn:Hw; [|discriminate].
  intros [= <-]. eauto.
Qed.

Lemma ReadFile_WriteFile_other (w w' : World) (path path' : string) (c : content) :
  WriteFile w path c = Some w' -> path' <> path -> ReadFile w' path' = ReadFile w path'.
Proof.
  unfold WriteFile, ReadFile. destruct (write_fails w path); [discriminate|].
  intros [= <-] Hne. simpl. now rewrite lookup_insert_ne.
Qed.

Lemma userInfoPath_WriteFile (w w' : World) (path : string) (c : content) :
  WriteFile w path c = Some w' -> userInfoPath w' = userInfoPath w.
Proof.
  unfold WriteFile. destruct (write_fails w path); [discriminate|]. now intros [= <-].
Qed.

(** A document written by [Save] decodes, with the instant it was written at
    and with a project exactly when one was given. *)
Lemma unmarshal_marshal_any (project : option Project) (t : Z) (data : json) :
  (forall t s, timeMarshal t = Some s -> timeUnmarshal s = Some t) ->
  marshalCachedProject {| cp_Project := project; cp_CachedAt := t |} = Some data ->
  exists loaded,
    unmarshalCachedProject data = Ok {| cp_Project := loaded; cp_CachedAt := t |}
    /\ (project = None <-> loaded = None).
Proof.
  intros Htime Henc. unfold marshalCachedProject in Henc. simpl in Henc.
  destruct project as [p|].
  - destruct (Project_MarshalJSON p) as [pj|] eqn:Epj; [|discriminate].
    destruct (timeMarshal t) as [ts|] eqn:Ets; [|discriminate].
    cbn in Henc. injection Henc as <-.
    destruct (Project_MarshalJSON_object _ _ Epj) as [raw ->].
    destruct (Project_UnmarshalJSON_object zeroProject raw) as [q Hq].
    unfold unmarshalCachedProject. cbn -[Project_UnmarshalJSON zeroProject].
    rewrite Hq. cbn. rewrite (Htime _ _ Ets). cbn.
    exists (Some q). split; [reflexivity|]. split; discriminate.
  - destruct (timeMarshal t) as [ts|] eqn:Ets; [|discriminate].
    cbn in Henc. injection Henc as <-.
    unfold unmarshalCachedProject. cbn. rewrite (Htime _ _ Ets). cbn.
    exists None. split; [reflexivity|]. split; reflexivity.
Qed.

(** X5: an entry written by [Save] is found by [Load] until the TTL has
    passed and not afterwards: loading at the instant [now'] reports found
    exactly when [now'] is no more than one hour after the instant of the
    save, the boundary included (and also when the clock went backwards);
    whenever it is not found the pointer is nil.  This holds for any project,
    whatever its contents are. *)
Theorem saved_entry_is_found_until_the_TTL_has_passed
    (w w' : World) (now now' : Z) (projectID : string) (project : Project) :
  (forall t s, timeMarshal t = Some s -> timeUnmarshal s = Some t) ->
  Save w now projectID (Some project) = Ok w' ->
  (now' - now <= cacheTTL ->
   exists loaded, Load w' now' projectID = (Some loaded, true))
  /\ (cacheTTL < now' - now -> Load w' now' projectID = (None, false)).
Proof.
  intros Htime Hsave.
  destruct (Save_inv _ _ _ _ _ Hsave) as (path & data & Hpath & Hdata & Hwrite).
  destruct (unmarshal_marshal_any _ _ _ Htime Hdata) as (loaded & Hdec & Hsome).
  assert (Hload := Load_of_document w' now' projectID path data _
                     (eq_trans (getCachePath_WriteFile _ _ _ _ _ Hwrite) Hpath)
                     (ReadFile_WriteFile _ _ _ _ Hwrite) Hdec).
  simpl in Hload. split.
  - intros Hfresh. rewrite (Since_fresh _ _ Hfresh) in Hload.
    destruct loaded as [q|]; [now exists q|].
    destruct Hsome as [_ Hnone]. now specialize (Hnone eq_refl).
  - intros Hold. now rewrite (Since_expired _ _ Hold) in Hload.
Qed.

(** X6: [Load] reports found together with a nil project when the cache
    file holds a fresh timestamp and no project: after [Save] was given a nil
    project, and for a document that has only the [cached_at] member. *)
Theorem Load_finds_an_entry_without_a_project
    (w : World) (now now' : Z) (projectID : string) :
  (forall t s, timeMarshal t = Some s -> timeUnmarshal s = Some t) ->
  now' - now <= cacheTTL ->
  (forall w', Save w now projectID None = Ok w' ->
              Load w' now' projectID = (None, true))
  /\ (forall path s,
        getCachePath w projectID = Ok path ->
        files w !! path = Some (Readable (Document (JObj [("cached_at", JStr s)]))) ->
        timeUnmarshal s = Some now ->
        Load w now' projectID = (None, true)).
Proof.
  intros Htime Hfresh. split.
  - intros w' Hsave.
    destruct (Save_inv _ _ _ _ _ Hsave) as (path & data & Hpath & Hdata & Hwrite).
    destruct (unmarshal_marshal_any _ _ _ Htime Hdata) as (loaded & Hdec & Hnone).
    rewrite (Load_of_document w' now' projectID path data _
               (eq_trans (getCachePath_WriteFile _ _ _ _ _ Hwrite) Hpath)
               (ReadFile_WriteFile _ _ _ _ Hwrite) Hdec).
    simpl. rewrite (Since_fresh _ _ Hfresh).
    destruct Hnone as [Hnone _]. now rewrite (Hnone eq_refl).
  - intros path s Hpath Hfile Hs.
    rewrite (Load_of_document w now' projectID path (JObj [("cached_at", JStr s)])
               {| cp_Project := None; cp_CachedAt := now |} Hpath).
    + simpl. now rewrite (Since_fresh _ _ Hfresh).
    + unfold ReadFile. now rewrite Hfile.
    + unfold unmarshalCachedProject. cbn. rewrite Hs. reflexivity.
Qed.

(** X7: [Save] writes one file.  The entry of every project ID with another
    cache path, and the user info unless its file is that path, load after
    the save as they did before it; and a later [Save] of the same project ID
    replaces the entry. *)
Theorem Save_touches_one_entry
    (w w' : World) (now : Z) (projectID path : string) (project : option Project) :
  Save w now projectID project = Ok w' ->
  getCachePath w projectID = Ok path ->
  (forall other path' now',
     getCachePath w other = Ok path' -> path' <> path ->
     Load w' now' other = Load w now' other)
  /\ (forall now', userInfoPath w <> path -> LoadUserInfo w' now' = LoadUserInfo w now')
  /\ (forall later project' w'' now',
        Save w' later projectID project' = Ok w'' ->
        forall w0, Save w later projectID project' = Ok w0 ->
        Load w'' now' projectID = Load w0 now' projectID).
Proof.
  intros Hsave Hpath.
  destruct (Save_inv _ _ _ _ _ Hsave) as (path0 & data & Hpath0 & Hdata & Hwrite).
  rewrite Hpath in Hpath0. injection Hpath0 as <-.
  split; [|split].
  - intros other path' now' Hother Hne. unfold Load.
    rewrite (getCachePath_WriteFile _ _ _ _ _ Hwrite), Hother.
    now rewrite (ReadFile_WriteFile_other _ _ _ _ _ Hwrite Hne).
  - intros now' Hne. unfold LoadUserInfo.
    rewrite (userInfoPath_WriteFile _ _ _ _ Hwrite).
    now rewrite (ReadFile_WriteFile_other _ _ _ _ _ Hwrite Hne).
  - intros later project' w'' now' Hsave' w0 Hsave0.
    destruct (Save_inv _ _ _ _ _ Hsave') as (p1 & d1 & Hp1 & Hd1 & Hw1).
    destruct (Save_inv _ _ _ _ _ Hsave0) as (p0 & d0 & Hp0 & Hd0 & Hw0).
    rewrite (getCachePath_WriteFile _ _ _ _ _ Hwrite), Hpath in Hp1.
    rewrite Hpath in Hp0. injection Hp1 as <-. injection Hp0 as <-.
    rewrite Hd1 in Hd0. injection Hd0 as <-.
    unfold Load.
    rewrite (getCachePath_WriteFile _ _ _ _ _ Hw1),
            (getCachePath_WriteFile _ _ _ _ _ Hwrite),
            (getCachePath_WriteFile _ _ _ _ _ Hw0), Hpath.
    now rewrite (ReadFile_WriteFile _ _ _ _ Hw1), (ReadFile_WriteFile _ _ _ _ Hw0).
Qed.

(** X8: the user info kept by [SaveUserInfo] is what [LoadUserInfo] returns
    until the TTL has passed, and nothing is returned afterwards.  The locale
    and the language are valid UTF-8, as strings read from JSON are. *)
Theorem LoadUserInfo_after_SaveUserInfo
    (w w' : World) (now now' : Z) (userInfo : UserInfo) :
  (forall t s, timeMarshal t = Some s -> timeUnmarshal s = Some t) ->
  is_text (Locale userInfo) -> is_text (Language userInfo) ->
  SaveUserInfo w now (Some userInfo) = Ok w' ->
  (now' - now <= cacheTTL -> LoadUserInfo w' now' = (Some userInfo, true))
  /\ (cacheTTL < now' - now -> LoadUserInfo w' now' = (None, false)).
Proof.
  intros Htime Hlocale Hlanguage Hsave.
  destruct (SaveUserInfo_inv _ _ _ _ Hsave) as (data & _ & Hdata & Hwrite).
  unfold marshalCachedUserInfo in Hdata. simpl in Hdata.
  destruct (timeMarshal now) as [ts|] eqn:Ets; [|discriminate].
  cbn in Hdata. injection Hdata as <-.
  assert (Hdec : unmarshalCachedUserInfo
                   (JObj [("user_info",
                           JObj [("locale", encodeString (Locale userInfo));
                                 ("language", encodeString (Language userInfo))]);
                          ("cached_at", JStr ts)])
                 = Ok {| cu_UserInfo := Some userInfo; cu_CachedAt := now |}).
  { unfold unmarshalCachedUserInfo, encodeString. cbn.
    rewrite Hlocale, Hlanguage, (Htime _ _ Ets). cbn. now destruct userInfo. }
  pose proof (ReadFile_WriteFile _ _ _ _ Hwrite) as Hfile.
  rewrite <- (userInfoPath_WriteFile _ _ _ _ Hwrite) in Hfile.
  rewrite (LoadUserInfo_of_document w' now' _ _ Hfile Hdec). simpl. split.
  - intros Hfresh. now rewrite (Since_fresh _ _ Hfresh).
  - intros Hold. now rewrite (Since_expired _ _ Hold).
Qed.

(** X9: the user-info cache and the project cache share one directory, and
    the user-info file is the cache file of the project ID [_userinfo].
    After [SaveUserInfo], [Load] of that project ID finds the user-info
    document, which is fresh and has no project member, and so reports found
    with a nil project. *)
Theorem user_info_file_is_a_project_cache_path
    (w w' : World) (now now' : Z) (userInfo : UserInfo) :
  (forall t s, timeMarshal t = Some s -> timeUnmarshal s = Some t) ->
  EqualFold "project" "user_info" = false ->
  EqualFold "cached_at" "user_info" = false ->
  SaveUserInfo w now (Some userInfo) = Ok w' ->
  now' - now <= cacheTTL ->
  getCachePath w "_userinfo" = Ok (userInfoPath w)
  /\ Load w' now' "_userinfo" = (None, true).
Proof.
  intros Htime Hfold1 Hfold2 Hsave Hfresh.
  destruct (SaveUserInfo_inv _ _ _ _ Hsave) as (data & Hmkdir & Hdata & Hwrite).
  assert (Hpath : getCachePath w "_userinfo" = Ok (userInfoPath w)).
  { unfold getCachePath, userInfoPath. now rewrite Hmkdir. }
  split; [exact Hpath|].
  unfold marshalCachedUserInfo in Hdata. simpl in Hdata.
  destruct (timeMarshal now) as [ts|] eqn:Ets; [|discriminate].
  cbn in Hdata. injection Hdata as <-.
  rewrite (Load_of_document w' now' "_userinfo" (userInfoPath w) _
             {| cp_Project := None; cp_CachedAt := now |}
             (eq_trans (getCachePath_WriteFile _ _ _ _ _ Hwrite) Hpath)
             (ReadFile_WriteFile _ _ _ _ Hwrite)).
  - simpl. now rewrite (Since_fresh _ _ Hfresh).
  - unfold unmarshalCachedProject. cbn. rewrite Hfold1, Hfold2. cbn.
    rewrite (Htime _ _ Ets). reflexivity.
Qed.

End CacheEntries.

Lemma saved_entry_is_found_until_the_TTL_has_passed_witness :
  exists w',
    Save example_world 1000 "demo" (Some project_food) = Ok w'
    /\ (exists loaded, Load w' (1000 + cacheTTL) "demo" = (Some loaded, true))
    /\ Load w' (1001 + cacheTTL) "demo" = (None, false).
Proof.
  destruct (Save example_world 1000 "demo" (Some project_food))
    as [w'|msg] eqn:Hsave; [|discriminate Hsave].
  exists w'. split; [reflexivity|].
  split.
  - apply (saved_entry_is_found_until_the_TTL_has_passed
             example_world w' 1000 (1000 + cacheTTL) "demo" project_food
             ascii_std_time_roundtrip Hsave). lia.
  - apply (saved_entry_is_found_until_the_TTL_has_passed
             example_world w' 1000 (1001 + cacheTTL) "demo" project_food
             ascii_std_time_roundtrip Hsave). lia.
Defined.

Lemma Load_finds_an_entry_without_a_project_witness :
  5 - 0 <= cacheTTL
  /\ (exists w', Save example_world 0 "demo" None = Ok w'
                 /\ Load w' 5 "demo" = (None, true))
  /\ Load (world_with expired_path
             (Readable (Document (JObj [("cached_at", JStr "0")]))))
          5 "expired-project" = (None, true).
Proof.
  assert (Hfresh : 5 - 0 <= cacheTTL) by (vm_compute; discriminate).
  split; [exact Hfresh|].
  destruct (Save example_world 0 "demo" None) as [w'|msg] eqn:Hsave;
    [|discriminate Hsave].
  split.
  - exists w'. split; [reflexivity|].
    exact (proj1 (Load_finds_an_entry_without_a_project example_world 0 5 "demo"
                    ascii_std_time_roundtrip Hfresh) w' Hsave).
  - exact (proj2 (Load_finds_an_entry_without_a_project
                    (world_with expired_path
                       (Readable (Document (JObj [("cached_at", JStr "0")]))))
                    0 5 "expired-project" ascii_std_time_roundtrip Hfresh)
             expired_path "0" eq_refl eq_refl eq_refl).
Defined.

Lemma Save_touches_one_entry_witness :
  exists w',
    Save (world_with expired_path (Readable (Document expired_document)))
         1000 "demo" (Some project_food) = Ok w'
    /\ Load w' 5 "expired-project"
       = (Some (as_loaded project_without_slices), true)
    /\ LoadUserInfo w' 5 = (None, false).
Proof.
  destruct (Save (world_with expired_path (Readable (Document expired_document)))
              1000 "demo" (Some project_food)) as [w'|msg] eqn:Hsave;
    [|discriminate Hsave].
  exists w'. split; [reflexivity|].
  destruct (Save_touches_one_entry _ w' 1000 "demo" "/tmp/cache/cospend/demo.json"
              (Some project_food) Hsave eq_refl) as (Hother & Huser & _).
  split.
  - rewrite (Hother "expired-project" expired_path 5 eq_refl); [reflexivity|].
    discriminate.
  - rewrite (Huser 5); [reflexivity|]. discriminate.
Defined.

Lemma LoadUserInfo_after_SaveUserInfo_witness :
  exists w',
    SaveUserInfo example_world 1000 (Some example_user) = Ok w'
    /\ LoadUserInfo w' (1000 + cacheTTL) = (Some example_user, true)
    /\ LoadUserInfo w' (1001 + cacheTTL) = (None, false).
Proof.
  destruct (SaveUserInfo example_world 1000 (Some example_user))
    as [w'|msg] eqn:Hsave; [|discriminate Hsave].
  exists w'. split; [reflexivity|].
  split.
  - apply (LoadUserInfo_after_SaveUserInfo example_world w' 1000 (1000 + cacheTTL)
             example_user ascii_std_time_roundtrip eq_refl eq_refl Hsave). lia.
  - apply (LoadUserInfo_after_SaveUserInfo example_world w' 1000 (1001 + cacheTTL)
             example_user ascii_std_time_roundtrip eq_refl eq_refl Hsave). lia.
Defined.

Lemma user_info_file_is_a_project_cache_path_witness :
  exists w',
    SaveUserInfo example_world 1000 (Some example_user) = Ok w'
    /\ getCachePath example_world "_userinfo" = Ok (userInfoPath example_world)
    /\ Load w' 1005 "_userinfo" = (None, true).
Proof.
  destruct (SaveUserInfo example_world 1000 (Some example_user))
    as [w'|msg] eqn:Hsave; [|discriminate Hsave].
  exists w'. split; [reflexivity|].
  apply (user_info_file_is_a_project_cache_path example_world w' 1000 1005
           example_user ascii_std_time_roundtrip eq_refl eq_refl Hsave).
  vm_compute. discriminate.
Defined.

(** ** Object-keyed categories and payment modes *)

Section ObjectKeyed.
Context `{std : GoStd}.

Lemma decodeMap_fold {T} (d : decoder T) (zero : T) (members : list (string * json))
    (entries acc : list (string * T)) :
  Forall2 (decodes_to d zero) members entries ->
  fold_left
    (fun acc member =>
       let '(x, ok) := d zero member.2 in (<[member.1 := x]> acc.1, acc.2 && ok))
    members ((list_to_map acc : gmap string T), true)
  = (list_to_map (rev entries ++ acc), true).
Proof.
  intros Hall. revert acc.
  induction Hall as [|member entry members entries [Hkey Hdec] _ IH]; intros acc.
  - reflexivity.
  - simpl. rewrite Hdec. simpl. rewrite Hkey.
    change (<[entry.1 := entry.2]> (list_to_map acc : gmap string T))
      with (list_to_map (entry :: acc) : gmap string T).
    rewrite IH. now rewrite <- app_assoc.
Qed.

Lemma decodeMap_object {T} (d : decoder T) (zero : T) (members : list (string * json))
    (entries : list (string * T)) :
  Forall2 (decodes_to d zero) members entries ->
  decodeMap d zero (JObj members) = (Some (list_to_map (rev entries)), true).
Proof.
  intros Hall. unfold decodeMap.
  change (∅ : gmap string T) with (list_to_map [] : gmap string T).
  rewrite (decodeMap_fold d zero members entries [] Hall). now rewrite app_nil_r.
Qed.

Lemma fold_append_Some {A B} (f : A -> B) (l : list A) (acc : list B) :
  fold_left (fun result x => append result (f x)) l (Some acc) = Some (acc ++ map f l).
Proof.
  revert acc. induction l as [|x l IH]; intros acc; simpl.
  - now rewrite app_nil_r.
  - unfold append at 2. simpl. rewrite IH. now rewrite <- app_assoc.
Qed.

Lemma range_of_entries {T} (entries : list (string * T)) :
  (forall m : gmap string T, mapRange m ≡ₚ map_to_list m) ->
  NoDup entries.*1 ->
  mapRange (list_to_map (rev entries) : gmap string T) ≡ₚ entries.
Proof.
  intros Hrange Hkeys. rewrite Hrange, map_to_list_to_map.
  - symmetry. apply Permutation_rev.
  - now rewrite <- (Permutation_rev entries).
Qed.

(** X10: categories and payment modes given as an object keyed by ID, which
    is the form the server sends.  When the keys are distinct and every value
    decodes, the parsed slice holds one element per member of the object, in
    the order the map iteration yields them (so up to a permutation); each is
    the decoded value with its ID replaced by the key when the key is a
    decimal integer, whatever [id] the value itself carries, and left as
    decoded otherwise. *)
Theorem object_keys_give_the_ids
    (members : list (string * json)) :
  (forall A (m : gmap string A), mapRange m ≡ₚ map_to_list m) ->
  (forall entries,
     NoDup entries.*1 ->
     Forall2 (decodes_to decodeCategory zeroCategory) members entries ->
     exists result,
       parseCategories (JObj members) = Some result
       /\ result ≡ₚ map category_of_entry entries)
  /\ (forall entries,
        NoDup entries.*1 ->
        Forall2 (decodes_to decodePaymentMode zeroPaymentMode) members entries ->
        exists result,
          parsePaymentModes (JObj members) = Some result
          /\ result ≡ₚ map payment_mode_of_entry entries).
Proof.
  intros Hrange. split.
  - intros entries Hkeys Hall. unfold parseCategories.
    rewrite (decodeMap_object _ _ _ _ Hall). simpl default.
    assert (Hfold : forall l acc,
              fold_left
                (fun result entry =>
                   let '(idStr, cat) := entry in
                   let cat := match Atoi idStr with
                              | Some id => with_ID cat id
                              | None => cat
                              end in
                   append result cat) l (Some acc)
              = Some (acc ++ map category_of_entry l)).
    { induction l as [|[k c] l IH]; intros acc; simpl.
      - now rewrite app_nil_r.
      - unfold append at 2. simpl. rewrite IH. now rewrite <- app_assoc. }
    rewrite Hfold. eexists. split; [reflexivity|]. simpl.
    now rewrite (range_of_entries entries (Hrange _) Hkeys).
  - intros entries Hkeys Hall. unfold parsePaymentModes.
    rewrite (decodeMap_object _ _ _ _ Hall). simpl default.
    assert (Hfold : forall l acc,
              fold_left
                (fun result entry =>
                   let '(idStr, pm) := entry in
                   let pm := match Atoi idStr with
                             | Some id => with_mode_ID pm id
                             | None => pm
                             end in
                   append result pm) l (Some acc)
              = Some (acc ++ map payment_mode_of_entry l)).
    { induction l as [|[k c] l IH]; intros acc; simpl.
      - now rewrite app_nil_r.
      - unfold append at 2. simpl. rewrite IH. now rewrite <- app_assoc. }
    rewrite Hfold. eexists. split; [reflexivity|]. simpl.
    now rewrite (range_of_entries entries (Hrange _) Hkeys).
Qed.

(** X11: what the two parsers return for the other kinds of JSON value.  A
    null and an empty object give an empty slice that is not nil, and so does
    an empty array; a string, a number or a boolean gives the nil slice, and
    no error is reported to the caller in any case. *)
Theorem parseCategories_of_other_values :
  (forall A (m : gmap string A), mapRange m ≡ₚ map_to_list m) ->
  parseCategories JNull = Some []
  /\ parseCategories (JObj []) = Some []
  /\ parseCategories (JArr []) = Some []
  /\ (forall s, parseCategories (JStr s) = None)
  /\ (forall z, parseCategories (JInt z) = None)
  /\ (forall f, parseCategories (JFloat f) = None)
  /\ (forall b, parseCategories (JBool b) = None)
  /\ parsePaymentModes JNull = Some []
  /\ parsePaymentModes (JObj []) = Some []
  /\ parsePaymentModes (JArr []) = Some []
  /\ (forall s, parsePaymentModes (JStr s) = None)
  /\ (forall z, parsePaymentModes (JInt z) = None)
  /\ (forall f, parsePaymentModes (JFloat f) = None)
  /\ (forall b, parsePaymentModes (JBool b) = None).
Proof.
  intros Hrange.
  assert (Hc : mapRange (∅ : gmap string Category) = [])
    by (apply mapRange_empty, Hrange).
  assert (Hp : mapRange (∅ : gmap string PaymentMode) = [])
    by (apply mapRange_empty, Hrange).
  unfold parseCategories, parsePaymentModes. simpl. rewrite Hc, Hp.
  repeat split.
Qed.

End ObjectKeyed.

Lemma object_keys_give_the_ids_witness :
  exists result,
    parseCategories keyed_categories = Some result
    /\ result ≡ₚ [ {| Category_ID := 5; Category_Name := "Food"; Category_Icon := "F";
                      Category_Color := "#ff0000" |};
                   {| Category_ID := 12; Category_Name := "Transport";
                      Category_Icon := "T"; Category_Color := "#00ff00" |} ].
Proof.
  destruct (object_keys_give_the_ids
              [ ("5", JObj [("name", JStr "Food"); ("icon", JStr "F");
                            ("color", JStr "#ff0000")]);
                ("12", JObj [("name", JStr "Transport"); ("icon", JStr "T");
                             ("color", JStr "#00ff00")]) ]
              ascii_std_mapRange) as [Hcat _].
  apply (Hcat [ ("5", {| Category_ID := 0; Category_Name := "Food"; Category_Icon := "F";
                         Category_Color := "#ff0000" |});
                ("12", {| Category_ID := 0; Category_Name := "Transport";
                          Category_Icon := "T"; Category_Color := "#00ff00" |}) ]).
  - apply (bool_decide_unpack _). by vm_compute.
  - repeat constructor.
Defined.

Lemma parseCategories_of_other_values_witness :
  parseCategories JNull = Some [] /\ parseCategories (JStr "none") = None.
Proof.
  destruct (parseCategories_of_other_values ascii_std_mapRange)
    as (Hnull & _ & _ & Hstr & _).
  split; [exact Hnull|apply Hstr].
Defined.

(** ** The filter list *)

Lemma bind_ok_inv {A B} (r : result A) (k : A -> result B) (b : B) :
  bind r k = Ok b -> exists a, r = Ok a /\ k a = Ok b.
Proof. destruct r as [a|]; simpl; [eauto|discriminate]. Qed.

Lemma is_ok_bind {A B} (r : result A) (k : A -> result B) :
  is_ok (bind r k) = true <-> exists a, r = Ok a /\ is_ok (k a) = true.
Proof.
  destruct r as [a|]; simpl.
  - split; [eauto|]. now intros (a' & [= <-] & H).
  - split; [discriminate|]. now intros (a' & Ha & _).
Qed.

Lemma bind_step_ok {A B} (r : result A) (k : A -> result B) :
  (exists a, r = Ok a) -> (forall a, is_ok (k a) = true) -> is_ok (bind r k) = true.
Proof. intros [a ->] Hk. apply Hk. Qed.

Lemma is_ok_true {A} (r : result A) : is_ok r = true <-> exists a, r = Ok a.
Proof. destruct r; simpl; split; eauto; try discriminate. now intros [a H]. Qed.

Lemma wrap_error_ok {A} (prefix : string) (r : result A) (a : A) :
  wrap_error prefix r = Ok a <-> r = Ok a.
Proof. destruct r; simpl; split; congruence. Qed.

Lemma given_empty (s : string) : (given s = 0)%nat <-> s = EmptyString.
Proof.
  unfold given. destruct (String.eqb_spec s EmptyString); split; congruence.
Qed.

Section FilterList.
Context `{std : GoStd}.

Lemma resolveMembers_Forall2 (project : Project) (usernames : list string)
    (owedIDs : list Z) :
  resolveMembers project usernames = Ok owedIDs
  <-> Forall2 (fun username id => ResolveMember project username = Ok id)
              usernames owedIDs.
Proof.
  revert owedIDs. induction usernames as [|u us IH]; intros ids; simpl.
  - split.
    + intros [= <-]. constructor.
    + intros H. now inversion H.
  - split.
    + intros H. apply bind_ok_inv in H as (id & Hid & H).
      apply wrap_error_ok in Hid.
      apply bind_ok_inv in H as (rest & Hrest & H). injection H as <-.
      constructor; [exact Hid|now apply IH].
    + intros H. inversion H as [|? id ? rest Hid Hrest]; subst.
      apply IH in Hrest. apply wrap_error_ok with (prefix := "resolving owed member filter"%string) in Hid.
      now rewrite Hid, Hrest.
Qed.

Lemma resolveMembers_ok (project : Project) (usernames : list string) :
  is_ok (resolveMembers project usernames) = true
  <-> Forall (fun username => is_ok (ResolveMember project username) = true) usernames.
Proof.
  rewrite is_ok_true. split.
  - intros [ids H]. apply resolveMembers_Forall2 in H.
    induction H; constructor; [|assumption]. apply is_ok_true. eauto.
  - induction 1 as [|u us Hu _ [ids IH]].
    + exists []. reflexivity.
    + apply is_ok_true in Hu as [id Hid]. exists (id :: ids).
      apply resolveMembers_Forall2. constructor; [exact Hid|].
      now apply resolveMembers_Forall2.
Qed.

(** One step of [buildFilters] for a flag that holds text: nothing is added
    when the text is empty, one filter when its operand is good, and the
    step fails otherwise. *)
Lemma text_step {A} (s prefix : string) (r : result A) (f : A -> billFilter)
    (filters filters' : list billFilter) :
  (if String.eqb s EmptyString then Ok filters
   else bind (wrap_error prefix r) (fun a => Ok (filters ++ [f a]))) = Ok filters' ->
  (s = EmptyString \/ is_ok r = true)
  /\ length filters' = (length filters + given s)%nat.
Proof.
  unfold given. destruct (String.eqb_spec s EmptyString) as [->|Hne].
  - intros [= <-]. split; [now left|lia].
  - destruct r as [a|]; simpl; [|discriminate].
    intros [= <-]. split; [now right|]. rewrite length_app. simpl. lia.
Qed.

Lemma text_step_ok {A} (s prefix : string) (r : result A) (f : A -> billFilter)
    (filters : list billFilter) :
  s = EmptyString \/ is_ok r = true ->
  exists filters',
    (if String.eqb s EmptyString then Ok filters
     else bind (wrap_error prefix r) (fun a => Ok (filters ++ [f a]))) = Ok filters'.
Proof.
  intros Hgood. destruct (String.eqb_spec s EmptyString) as [->|Hne]; [eauto|].
  destruct Hgood as [Hempty|Hok]; [contradiction|].
  destruct r as [a|]; [simpl; eauto|discriminate].
Qed.

(** X12: [buildFilters] succeeds exactly when every operand that was given
    is good: the payer, each owed member, the payment method and the
    category resolve in the project, and the amount, date and recency
    operands parse.  A single bad operand makes the whole call fail, and no
    flag is dropped silently. *)
Theorem buildFilters_succeeds_iff_every_operand_is_good
    (flags : ListFlags) (now : Time) (project : Project) :
  is_ok (buildFilters flags now project) = true <-> operands_ok flags now project.
Proof.
  unfold operands_ok. split.
  - intros H. apply is_ok_true in H as [filters H]. unfold buildFilters in H.
    apply bind_ok_inv in H as (f1 & H1 & H). apply text_step in H1 as [G1 _].
    apply bind_ok_inv in H as (f2 & H2 & H).
    apply bind_ok_inv in H as (f3 & H3 & H). apply text_step in H3 as [G3 _].
    apply bind_ok_inv in H as (f4 & H4 & H).
    apply bind_ok_inv in H as (f5 & H5 & H). apply text_step in H5 as [G5 _].
    apply bind_ok_inv in H as (f6 & H6 & H). apply text_step in H6 as [G6 _].
    apply bind_ok_inv in H as (f7 & H7 & H).
    apply bind_ok_inv in H as (f8 & H8 & H). apply text_step in H8 as [G8 _].
    apply bind_ok_inv in H as (f9 & H9 & H).
    apply bind_ok_inv in H as (f10 & H10 & H).
    apply bind_ok_inv in H as (f11 & H11 & H). apply text_step in H11 as [G11 _].
    repeat split; try assumption.
    apply resolveMembers_ok.
    destruct (listPaidFor flags) as [|u us]; [reflexivity|].
    apply bind_ok_inv in H2 as (ids & Hids & _). apply is_ok_true. eauto.
  - intros (G1 & G2 & G3 & G5 & G6 & G8 & G11).
    unfold buildFilters. cbv zeta.
    apply bind_step_ok; [apply text_step_ok; exact G1|intros f1].
    apply bind_step_ok; [|intros f2].
    { apply resolveMembers_ok, is_ok_true in G2 as [ids Hids].
      destruct (listPaidFor flags); [eauto|]. rewrite Hids. simpl. eauto. }
    apply bind_step_ok; [apply text_step_ok; exact G3|intros f3].
    apply bind_step_ok; [destruct (String.eqb _ _); eauto|intros f4].
    apply bind_step_ok; [apply text_step_ok; exact G5|intros f5].
    apply bind_step_ok; [apply text_step_ok; exact G6|intros f6].
    apply bind_step_ok; [destruct (listToday flags); eauto|intros f7].
    apply bind_step_ok; [apply text_step_ok; exact G8|intros f8].
    apply bind_step_ok; [destruct (listThisMonth flags); eauto|intros f9].
    apply bind_step_ok; [destruct (listThisWeek flags); eauto|intros f10].
    apply bind_step_ok; [apply text_step_ok; exact G11|intros f11].
    reflexivity.
Qed.

(** X13: every flag that was given adds exactly one filter to the list, the
    repeatable [--for] flag one filter for all its values; with no flag the
    list is empty and [applyFilters] returns the bills as they are. *)
Theorem buildFilters_adds_one_filter_per_flag
    (flags : ListFlags) (now : Time) (project : Project) (filters : list billFilter) :
  buildFilters flags now project = Ok filters ->
  length filters = flags_given flags
  /\ (flags_given flags = 0%nat ->
      filters = [] /\ forall bills, applyFilters bills filters = bills).
Proof.
  intros H. unfold buildFilters in H.
  apply bind_ok_inv in H as (f1 & H1 & H). apply text_step in H1 as [_ L1].
  apply bind_ok_inv in H as (f2 & H2 & H).
  apply bind_ok_inv in H as (f3 & H3 & H). apply text_step in H3 as [_ L3].
  apply bind_ok_inv in H as (f4 & H4 & H).
  apply bind_ok_inv in H as (f5 & H5 & H). apply text_step in H5 as [_ L5].
  apply bind_ok_inv in H as (f6 & H6 & H). apply text_step in H6 as [_ L6].
  apply bind_ok_inv in H as (f7 & H7 & H).
  apply bind_ok_inv in H as (f8 & H8 & H). apply text_step in H8 as [_ L8].
  apply bind_ok_inv in H as (f9 & H9 & H).
  apply bind_ok_inv in H as (f10 & H10 & H).
  apply bind_ok_inv in H as (f11 & H11 & H). apply text_step in H11 as [_ L11].
  injection H as <-.
  assert (L2 : length f2
               = (length f1 + match listPaidFor flags with [] => 0 | _ => 1 end)%nat).
  { destruct (listPaidFor flags).
    - injection H2 as <-. lia.
    - apply bind_ok_inv in H2 as (ids & _ & H2). injection H2 as <-.
      rewrite length_app. simpl. lia. }
  assert (L4 : length f4 = (length f3 + given (listName flags))%nat).
  { unfold given. destruct (String.eqb (listName flags) EmptyString);
      injection H4 as <-; [lia|]. rewrite length_app. simpl. lia. }
  assert (L7 : length f7 = (length f6 + switched (listToday flags))%nat).
  { unfold switched. destruct (listToday flags); injection H7 as <-; [|lia].
    rewrite length_app. simpl. lia. }
  assert (L9 : length f9 = (length f8 + switched (listThisMonth flags))%nat).
  { unfold switched. destruct (listThisMonth flags); injection H9 as <-; [|lia].
    rewrite length_app. simpl. lia. }
  assert (L10 : length f10 = (length f9 + switched (listThisWeek flags))%nat).
  { unfold switched. destruct (listThisWeek flags); injection H10 as <-; [|lia].
    rewrite length_app. simpl. lia. }
  assert (Hlen : length f11 = flags_given flags).
  { unfold flags_given. simpl in L1. clear H2. unfold billFilter in *.
    destruct (listPaidFor flags); lia. }
  split; [exact Hlen|].
  intros Hnone. rewrite Hnone in Hlen. destruct f11; [|discriminate Hlen].
  split; reflexivity.
Qed.

(** X14: the filter of the repeatable [--for] flag.  Each username is resolved
    as a member, in the order given, and the filter accepts a bill exactly
    when every one of the resolved members is among the owers of the bill:
    the values of the flag are combined with AND, and a bill without owers
    passes only an empty list. *)
Theorem paid_for_filter_needs_every_named_member
    (project : Project) (now : Time) (usernames : list string) (owedIDs : list Z) :
  resolveMembers project usernames = Ok owedIDs ->
  Forall2 (fun username id => ResolveMember project username = Ok id) usernames owedIDs
  /\ (usernames <> [] ->
      buildFilters (only_paid_for usernames) now project = Ok [owedFilter owedIDs])
  /\ (forall bill,
        owedFilter owedIDs bill = true
        <-> Forall (fun id => exists ower,
                                ower ∈ elems (Owers bill) /\ Ower_ID ower = id)
                   owedIDs).
Proof.
  intros Hres. split; [now apply resolveMembers_Forall2|]. split.
  - intros Hne. destruct usernames as [|u us]; [contradiction|].
    unfold buildFilters, only_paid_for. cbn -[resolveMembers]. now rewrite Hres.
  - intros bill. unfold owedFilter. rewrite forallb_forall, Forall_forall. split.
    + intros H id Hin. apply list_elem_of_In in Hin. specialize (H id Hin).
      apply existsb_exists in H as (ower & Hower & Hid).
      exists ower. split; [now apply list_elem_of_In|now apply Z.eqb_eq].
    + intros H id Hin. apply list_elem_of_In in Hin.
      destruct (H id Hin) as (ower & Hower & Hid).
      apply existsb_exists. exists ower.
      split; [now apply list_elem_of_In|now apply Z.eqb_eq].
Qed.

(** X15: a filter that was parsed carries one of the five operators, so the
    comparison it makes is one of the five that [matchAmount] and [matchDate]
    know and never the default of their switch. *)
Theorem parsed_filters_carry_one_of_the_five_operators (now : Time) (s : string) :
  (forall af, parseAmountFilter s = Ok af -> In (af_operator af) operators)
  /\ (forall df, parseDateFilter now s = Ok df -> In (df_operator df) operators).
Proof.
  assert (Hop : forall op, op = EmptyString \/ In op operators ->
                           In (operator_of op) operators).
  { intros op [->|Hin]; [simpl; tauto|]. unfold operator_of.
    destruct (String.eqb_spec op EmptyString) as [->|_]; [simpl; tauto|exact Hin]. }
  split.
  - intros af. destruct (FindOperatorOperand (TrimSpace s)) as [[op operand]|] eqn:Hm.
    + rewrite (parseAmountFilter_of_match _ _ _ Hm).
      apply FindOperatorOperand_spec in Hm as (_ & Hin & _).
      destruct (ParseFloat _); [|discriminate]. intros [= <-]. now apply Hop.
    + unfold parseAmountFilter. now rewrite Hm.
  - intros df. destruct (FindOperatorOperand (TrimSpace s)) as [[op operand]|] eqn:Hm.
    + rewrite (parseDateFilter_of_match _ _ _ _ Hm).
      apply FindOperatorOperand_spec in Hm as (_ & Hin & _).
      destruct (Parse_date _); [intros [= <-]; now apply Hop|].
      destruct (Parse_month_day _); [|discriminate]. intros [= <-]. now apply Hop.
    + unfold parseDateFilter. now rewrite Hm.
Qed.

End FilterList.

(** ** Names of a resolved bill *)







Section ResolvedBill.
Context `{std : GoStd}.


End ResolvedBill.


Lemma buildFilters_adds_one_filter_per_flag_witness :
  exists filters,
    buildFilters some_flags example_now project_food = Ok filters
    /\ length filters = 3%nat
    /\ buildFilters (limit_flags 5) example_now project_food = Ok []
    /\ applyFilters (Some example_bills) [] = Some example_bills.
Proof.
  destruct (buildFilters some_flags example_now project_food) as [filters|msg] eqn:H;
    [|discriminate H].
  exists filters. split; [reflexivity|].
  split.
  - exact (proj1 (buildFilters_adds_one_filter_per_flag _ _ _ _ H)).
  - assert (H0 : buildFilters (limit_flags 5) example_now project_food = Ok [])
      by reflexivity.
    split; [exact H0|].
    destruct (buildFilters_adds_one_filter_per_flag _ _ _ _ H0) as [_ Hnone].
    apply (Hnone eq_refl).
Defined.

Lemma paid_for_filter_needs_every_named_member_witness :
  resolveMembers project_numeric_names ["bob"; "FIVE"] = Ok [5; 2]
  /\ buildFilters (only_paid_for ["bob"; "FIVE"]) example_now project_numeric_names
     = Ok [owedFilter [5; 2]]
  /\ owedFilter [5; 2] a_shared_bill = false.
Proof.
  assert (H : resolveMembers project_numeric_names ["bob"; "FIVE"] = Ok [5; 2])
    by reflexivity.
  destruct (paid_for_filter_needs_every_named_member
              project_numeric_names example_now _ _ H) as (_ & Hbuild & _).
  split; [exact H|]. split; [apply Hbuild; discriminate|reflexivity].
Defined.

(** ** The calendar order *)

Lemma every_day_of_the_era_is_valid :
  holds_from (Z.to_nat 146097) 0 doe_valid = true.
Proof. vm_cast_no_check (eq_refl true). Qed.

Lemma isLeap_period (y k : Z) : isLeap (y + k * 400) = isLeap y.
Proof.
  unfold isLeap.
  replace ((y + k * 400) mod 4) with (y mod 4)
    by (replace (y + k * 400) with (y + (k * 100) * 4) by lia;
        now rewrite Z.mod_add by lia).
  replace ((y + k * 400) mod 100) with (y mod 100)
    by (replace (y + k * 400) with (y + (k * 4) * 100) by lia;
        now rewrite Z.mod_add by lia).
  now rewrite Z.mod_add by lia.
Qed.

Lemma daysIn_period (m y k : Z) : daysIn m (y + k * 400) = daysIn m y.
Proof. unfold daysIn. now rewrite isLeap_period. Qed.

(** Every day number is the day number of a date of the calendar. *)
Lemma civil_from_days_valid (z : Z) :
  let '(y, m, d) := civil_from_days z in 1 <= m <= 12 /\ 1 <= d <= daysIn m y.
Proof.
  unfold civil_from_days.
  set (era := (z + 719468) / 146097).
  set (doe := z + 719468 - era * 146097).
  assert (Hdoe : 0 <= doe < 146097).
  { subst doe era. pose proof (Z.mod_pos_bound (z + 719468) 146097 ltac:(lia)).
    rewrite Z.mod_eq in H by lia. lia. }
  pose proof (holds_from_spec _ _ _ every_day_of_the_era_is_valid doe ltac:(lia)) as Hok.
  unfold doe_valid in Hok.
  destruct (civil_of_doe doe) as [[yoe mp] d].
  cbv zeta in Hok.
  set (m := if mp <? 10 then mp + 3 else mp - 9) in *.
  repeat (apply andb_true_iff in Hok as [Hok ?]).
  repeat match goal with
         | H : (_ <=? _) = true |- _ => apply Z.leb_le in H
         end.
  split; [lia|].
  destruct (m <=? 2).
  - replace (yoe + era * 400 + 1) with (yoe + 1 + era * 400) by lia.
    rewrite daysIn_period. lia.
  - rewrite daysIn_period. lia.
Qed.

Lemma calendar_Date_valid (y m d clock : Z) : valid_date (calendar_Date y m d clock).
Proof.
  unfold calendar_Date, valid_date.
  pose proof (civil_from_days_valid
                (days_from_civil (y + (m - 1) / 12) ((m - 1) mod 12 + 1) 1 + (d - 1)))
    as Hv.
  now destruct (civil_from_days _) as [[y' m'] d'].
Qed.

(** The first day of the next month comes as many days after the first day
    of a month as the month has. *)
Lemma month_start_step (n : Z) :
  month_start (n + 1) = month_start n + daysIn (n mod 12 + 1) (n / 12).
Proof.
  unfold month_start.
  pose proof (Z.mod_pos_bound n 12 ltac:(lia)) as Hr.
  pose proof (Z.div_mod n 12 ltac:(lia)) as Hn.
  set (y := n / 12) in *. set (r := n mod 12) in *.
  destruct (Z.eq_dec r 11) as [Hlast|Hnot].
  - replace ((n + 1) / 12) with (y + 1)
      by (apply (Z.div_unique _ _ _ 0); lia).
    replace ((n + 1) mod 12) with 0
      by (apply (Z.mod_unique _ _ (y + 1)); lia).
    rewrite Hlast. clearbody r y. clear Hn Hr Hlast.
    unfold days_from_civil, doe_of_civil, daysIn.
    change (0 + 1 <=? 2) with true. change (11 + 1 <=? 2) with false.
    change ((0 + 1 + 9) mod 12) with 10. change ((11 + 1 + 9) mod 12) with 9.
    change (11 + 1 =? 2) with false. cbv iota.
    change ((11 + 1 =? 4) || (11 + 1 =? 6) || (11 + 1 =? 9) || (11 + 1 =? 11))
      with false. cbv iota.
    replace (y + 1 - 1) with y by lia.
    change ((153 * 10 + 2) / 5) with 306. change ((153 * 9 + 2) / 5) with 275. lia.
  - replace ((n + 1) / 12) with y
      by (apply (Z.div_unique _ _ _ (r + 1)); lia).
    replace ((n + 1) mod 12) with (r + 1)
      by (apply (Z.mod_unique _ _ y); lia).
    assert (Hcases : r = 0 \/ r = 1 \/ r = 2 \/ r = 3 \/ r = 4 \/ r = 5 \/ r = 6
                     \/ r = 7 \/ r = 8 \/ r = 9 \/ r = 10) by lia.
    clearbody r y. clear Hn Hr Hnot.
    destruct Hcases as [->|[->|[->|[->|[->|[->|[->|[->|[->|[->| ->]]]]]]]]]];
      unfold days_from_civil, doe_of_civil, daysIn, isLeap; simpl;
      repeat match goal with
             | |- context [?a mod 12] =>
                 let v := eval vm_compute in (a mod 12) in change (a mod 12) with v
             | |- context [?a / 5] =>
                 let v := eval vm_compute in (a / 5) in change (a / 5) with v
             end;
      try lia.
    destruct (Z.eqb_spec (y mod 4) 0), (Z.eqb_spec (y mod 100) 0),
      (Z.eqb_spec (y mod 400) 0); simpl; Z.div_mod_to_equations; lia.
Qed.

Lemma month_start_mono (n k : Z) :
  0 <= k -> month_start n + 28 * k <= month_start (n + k).
Proof.
  intros Hk. revert k Hk. apply natlike_ind.
  - replace (n + 0) with n by lia. lia.
  - intros k Hk IH. replace (n + Z.succ k) with (n + k + 1) by lia.
    rewrite month_start_step.
    pose proof (daysIn_bounds ((n + k) mod 12 + 1) ((n + k) / 12)). lia.
Qed.

Lemma day_number_month_start (t : Time) :
  1 <= Month t <= 12 ->
  day_number t = month_start (month_index t) + (Day t - 1)
  /\ month_index t / 12 = Year t /\ month_index t mod 12 + 1 = Month t.
Proof.
  intros Hm. unfold month_index, month_start, day_number.
  assert (Hq : (12 * Year t + (Month t - 1)) / 12 = Year t)
    by (symmetry; apply (Z.div_unique _ _ _ (Month t - 1)); lia).
  assert (Hr : (12 * Year t + (Month t - 1)) mod 12 = Month t - 1)
    by (symmetry; apply (Z.mod_unique _ _ (Year t)); lia).
  rewrite Hq, Hr. replace (Month t - 1 + 1) with (Month t) by lia.
  split; [apply days_from_civil_day|]. split; [reflexivity|lia].
Qed.

Lemma day_number_lt_of_month (a b : Time) :
  valid_date a -> valid_date b -> month_index a < month_index b ->
  day_number a < day_number b.
Proof.
  intros [Hma Hda] [Hmb Hdb] Hlt.
  destruct (day_number_month_start a Hma) as (-> & Hya & Hmoa).
  destruct (day_number_month_start b Hmb) as (-> & _ & _).
  pose proof (month_start_step (month_index a)) as Hstep.
  rewrite Hya, Hmoa in Hstep.
  pose proof (month_start_mono (month_index a + 1)
                (month_index b - (month_index a + 1)) ltac:(lia)) as Hmono.
  replace (month_index a + 1 + (month_index b - (month_index a + 1)))
    with (month_index b) in Hmono by lia.
  lia.
Qed.

(** On dates of the calendar, the order of the day numbers is the order by
    year, month and day. *)
Lemma day_number_compare (a b : Time) :
  valid_date a -> valid_date b ->
  (day_number a ?= day_number b) = date_compare a b.
Proof.
  intros Ha Hb. unfold date_compare.
  pose proof Ha as [Hma Hda]. pose proof Hb as [Hmb Hdb].
  destruct (Z.compare_spec (Year a) (Year b)) as [Hy|Hy|Hy].
  - destruct (Z.compare_spec (Month a) (Month b)) as [Hm|Hm|Hm].
    + destruct (day_number_month_start a Hma) as (-> & _ & _).
      destruct (day_number_month_start b Hmb) as (-> & _ & _).
      unfold month_index. rewrite Hy, Hm.
      destruct (Z.compare_spec (Day a) (Day b)).
      * apply Z.compare_eq_iff. lia.
      * apply Z.compare_lt_iff. lia.
      * apply Z.compare_gt_iff. lia.
    + apply Z.compare_lt_iff, day_number_lt_of_month; try assumption.
      unfold month_index. lia.
    + apply Z.compare_gt_iff, day_number_lt_of_month; try assumption.
      unfold month_index. lia.
  - apply Z.compare_lt_iff, day_number_lt_of_month; try assumption.
    unfold month_index. lia.
  - apply Z.compare_gt_iff, day_number_lt_of_month; try assumption.
    unfold month_index. lia.
Qed.

(** ** The text of a date *)

Lemma every_number_pads_as_digits : holds_from (Z.to_nat 10000) 0 pads_as_digits = true.
Proof. vm_cast_no_check (eq_refl true). Qed.

Lemma pad_int_4 (n : Z) : 0 <= n <= 9999 -> pad_int 4 n = four_digits n.
Proof.
  intros Hn.
  pose proof (holds_from_spec _ _ _ every_number_pads_as_digits n ltac:(lia)) as H.
  unfold pads_as_digits in H. apply andb_true_iff in H as [H _].
  now apply String.eqb_eq.
Qed.

Lemma pad_int_2 (n : Z) : 0 <= n <= 99 -> pad_int 2 n = two_digits n.
Proof.
  intros Hn.
  pose proof (holds_from_spec _ _ _ every_number_pads_as_digits n ltac:(lia)) as H.
  unfold pads_as_digits in H. apply andb_true_iff in H as [_ H].
  destruct (Z.ltb_spec n 100); [|lia]. now apply String.eqb_eq.
Qed.

Ltac ten_cases i :=
  let H := fresh "H" in
  assert (H : i = 0 \/ i = 1 \/ i = 2 \/ i = 3 \/ i = 4 \/ i = 5 \/ i = 6 \/ i = 7
              \/ i = 8 \/ i = 9) by lia;
  destruct H as [->|[->|[->|[->|[->|[->|[->|[->|[->| ->]]]]]]]]].

Lemma digit_compare (i j : Z) :
  0 <= i <= 9 -> 0 <= j <= 9 -> Ascii.compare (digit i) (digit j) = (i ?= j).
Proof. intros Hi Hj. ten_cases i; ten_cases j; reflexivity. Qed.

Lemma digit_byte (i : Z) :
  0 <= i <= 9 -> is_digit (digit i) = true /\ byte_of (digit i) - 48 = i.
Proof. intros Hi. ten_cases i; split; reflexivity. Qed.

Lemma digit_of_byte (c : ascii) :
  is_digit c = true -> c = digit (byte_of c - 48) /\ 0 <= byte_of c - 48 <= 9.
Proof.
  unfold is_digit, digit, byte_of. intros H.
  apply andb_true_iff in H as [Hlo Hhi]. apply Z.leb_le in Hlo, Hhi.
  split; [|lia].
  replace (48 + (Z.of_nat (nat_of_ascii c) - 48)) with (Z.of_nat (nat_of_ascii c)) by lia.
  now rewrite Nat2Z.id, ascii_nat_embedding.
Qed.

(** Comparing two numbers by their leading part and then by the rest is
    comparing the numbers. *)
Lemma compare_by_parts_10 (x y : Z) (k : comparison) :
  match x / 10 ?= y / 10 with
  | Eq => match x mod 10 ?= y mod 10 with Eq => k | Lt => Lt | Gt => Gt end
  | Lt => Lt
  | Gt => Gt
  end
  = match x ?= y with Eq => k | Lt => Lt | Gt => Gt end.
Proof.
  destruct (Z.compare_spec (x / 10) (y / 10)) as [Hq|Hq|Hq];
    [destruct (Z.compare_spec (x mod 10) (y mod 10)) as [Hr|Hr|Hr]|..].
  - replace y with x by (Z.div_mod_to_equations; lia). now rewrite Z.compare_refl.
  - assert (H : x < y) by (Z.div_mod_to_equations; lia).
    apply Z.compare_lt_iff in H. now rewrite H.
  - assert (H : y < x) by (Z.div_mod_to_equations; lia).
    apply Z.compare_gt_iff in H. now rewrite H.
  - assert (H : x < y) by (Z.div_mod_to_equations; lia).
    apply Z.compare_lt_iff in H. now rewrite H.
  - assert (H : y < x) by (Z.div_mod_to_equations; lia).
    apply Z.compare_gt_iff in H. now rewrite H.
Qed.

Lemma compare_by_parts_100 (x y : Z) (k : comparison) :
  match x / 100 ?= y / 100 with
  | Eq => match x mod 100 ?= y mod 100 with Eq => k | Lt => Lt | Gt => Gt end
  | Lt => Lt
  | Gt => Gt
  end
  = match x ?= y with Eq => k | Lt => Lt | Gt => Gt end.
Proof.
  destruct (Z.compare_spec (x / 100) (y / 100)) as [Hq|Hq|Hq];
    [destruct (Z.compare_spec (x mod 100) (y mod 100)) as [Hr|Hr|Hr]|..].
  - replace y with x by (Z.div_mod_to_equations; lia). now rewrite Z.compare_refl.
  - assert (H : x < y) by (Z.div_mod_to_equations; lia).
    apply Z.compare_lt_iff in H. now rewrite H.
  - assert (H : y < x) by (Z.div_mod_to_equations; lia).
    apply Z.compare_gt_iff in H. now rewrite H.
  - assert (H : x < y) by (Z.div_mod_to_equations; lia).
    apply Z.compare_lt_iff in H. now rewrite H.
  - assert (H : y < x) by (Z.div_mod_to_equations; lia).
    apply Z.compare_gt_iff in H. now rewrite H.
Qed.

Lemma append_cons (c : ascii) (s t : string) : String c s +:+ t = String c (s +:+ t).
Proof. reflexivity. Qed.

Lemma append_nil (t : string) : EmptyString +:+ t = t.
Proof. reflexivity. Qed.

Lemma app_nil_r_string (s : string) : s +:+ EmptyString = s.
Proof.
  induction s as [|x s IH]; [reflexivity|]. now rewrite append_cons, IH.
Qed.

(** The text of two digits followed by more text compares as the number,
    then the rest. *)
Lemma two_digits_compare (x y : Z) (s s' : string) :
  0 <= x <= 99 -> 0 <= y <= 99 ->
  String.compare (two_digits x +:+ s) (two_digits y +:+ s')
  = match x ?= y with Eq => String.compare s s' | Lt => Lt | Gt => Gt end.
Proof.
  intros Hx Hy. unfold two_digits. rewrite !append_cons, !append_nil.
  cbn [String.compare].
  rewrite !digit_compare by (Z.div_mod_to_equations; lia).
  apply compare_by_parts_10.
Qed.

Lemma app_assoc_string (a b c : string) : (a +:+ b) +:+ c = a +:+ (b +:+ c).
Proof.
  induction a as [|x a IH]; [reflexivity|]. now rewrite !append_cons, IH.
Qed.

Lemma four_digits_compare (x y : Z) (s s' : string) :
  0 <= x <= 9999 -> 0 <= y <= 9999 ->
  String.compare (four_digits x +:+ s) (four_digits y +:+ s')
  = match x ?= y with Eq => String.compare s s' | Lt => Lt | Gt => Gt end.
Proof.
  intros Hx Hy. unfold four_digits. rewrite !app_assoc_string.
  rewrite two_digits_compare by (Z.div_mod_to_equations; lia).
  rewrite two_digits_compare by (Z.div_mod_to_equations; lia).
  apply compare_by_parts_100.
Qed.

Lemma valid_date_bounds (t : Time) :
  valid_date t -> 1 <= Month t <= 12 /\ 1 <= Day t <= 31.
Proof.
  intros [Hm Hd]. pose proof (daysIn_bounds (Month t) (Year t)). lia.
Qed.

Lemma Format_date_digits (t : Time) :
  printable t ->
  Format_date t
  = four_digits (Year t) +:+ "-" +:+ two_digits (Month t) +:+ "-"
    +:+ two_digits (Day t).
Proof.
  intros [Hv Hy]. apply valid_date_bounds in Hv as [Hm Hd]. unfold Format_date.
  now rewrite pad_int_4, !pad_int_2 by lia.
Qed.

(** The texts of two dates compare as the dates do in the calendar. *)
Lemma Format_date_compare (a b : Time) :
  printable a -> printable b ->
  String.compare (Format_date a) (Format_date b) = date_compare a b.
Proof.
  intros Ha Hb. rewrite !Format_date_digits by assumption.
  destruct Ha as [Hva Hya], Hb as [Hvb Hyb].
  apply valid_date_bounds in Hva as [Hma Hda], Hvb as [Hmb Hdb].
  rewrite four_digits_compare by lia.
  rewrite !append_cons, !append_nil. cbn [String.compare].
  change (Ascii.compare "-" "-") with Eq. cbv iota.
  rewrite two_digits_compare by lia.
  cbn [String.compare].
  change (Ascii.compare "-" "-") with Eq. cbv iota.
  rewrite <- (app_nil_r_string (two_digits (Day a))),
          <- (app_nil_r_string (two_digits (Day b))).
  rewrite two_digits_compare by lia.
  unfold date_compare. cbn [String.compare].
  destruct (Year a ?= Year b); [|reflexivity..].
  destruct (Month a ?= Month b); [|reflexivity..].
  now destruct (Day a ?= Day b).
Qed.

(** On printable dates, the order of the texts is the order of the days. *)
Lemma Format_date_order (a b : Time) :
  printable a -> printable b ->
  String.compare (Format_date a) (Format_date b) = (day_number a ?= day_number b).
Proof.
  intros Ha Hb. rewrite Format_date_compare by assumption.
  symmetry. apply day_number_compare; [apply Ha|apply Hb].
Qed.

Lemma String_compare_refl (s : string) : String.compare s s = Eq.
Proof.
  pose proof (String.compare_antisym s s) as H.
  destruct (String.compare s s); [reflexivity|discriminate..].
Qed.

Lemma String_eqb_compare (s s' : string) :
  String.eqb s s' = match String.compare s s' with Eq => true | _ => false end.
Proof.
  destruct (String.eqb_spec s s') as [->|Hne].
  - now rewrite String_compare_refl.
  - destruct (String.compare s s') eqn:Hc; try reflexivity.
    now apply String.compare_eq_iff in Hc.
Qed.

Lemma Format_date_eqb (a b : Time) :
  printable a -> printable b ->
  String.eqb (Format_date a) (Format_date b) = (day_number a =? day_number b).
Proof.
  intros Ha Hb. rewrite String_eqb_compare, Format_date_order by assumption.
  rewrite Z.eqb_compare. now destruct (day_number a ?= day_number b).
Qed.

Lemma Format_date_leb (a b : Time) :
  printable a -> printable b ->
  String.leb (Format_date a) (Format_date b) = (day_number a <=? day_number b).
Proof.
  intros Ha Hb. unfold String.leb. rewrite Format_date_order by assumption.
  unfold Z.leb. now destruct (day_number a ?= day_number b).
Qed.

Lemma Format_date_ltb (a b : Time) :
  printable a -> printable b ->
  String.ltb (Format_date a) (Format_date b) = (day_number a <? day_number b).
Proof.
  intros Ha Hb. unfold String.ltb. rewrite Format_date_order by assumption.
  unfold Z.ltb. now destruct (day_number a ?= day_number b).
Qed.

(** Two dates of the calendar less than 300 days apart lie in the same year
    or in two successive years. *)
Lemma near_days_near_years (a b : Time) :
  valid_date a -> valid_date b ->
  day_number b - day_number a <= 300 -> Year b <= Year a + 1.
Proof.
  intros Ha Hb Hnear.
  destruct (Z.le_gt_cases (Year b) (Year a + 1)) as [Hle|Hgt]; [exact Hle|exfalso].
  pose proof Ha as [Hma Hda]. pose proof Hb as [Hmb Hdb].
  destruct (day_number_month_start a Hma) as (Hna & Hya & Hmoa).
  destruct (day_number_month_start b Hmb) as (Hnb & _ & _).
  pose proof (month_start_step (month_index a)) as Hstep.
  rewrite Hya, Hmoa in Hstep.
  assert (Hgap : 13 <= month_index b - month_index a) by (unfold month_index; lia).
  pose proof (month_start_mono (month_index a + 1)
                (month_index b - (month_index a + 1)) ltac:(lia)) as Hmono.
  replace (month_index a + 1 + (month_index b - (month_index a + 1)))
    with (month_index b) in Hmono by lia.
  lia.
Qed.

Lemma prefix_same_length (p q rest : string) :
  String.length p = String.length q ->
  (String.prefix p (q +:+ rest) = true <-> p = q).
Proof.
  revert q. induction p as [|c p IH]; intros [|c' q] Hlen; try discriminate Hlen.
  - rewrite append_nil. split; [reflexivity|]. now destruct rest.
  - rewrite append_cons. cbn [String.prefix].
    destruct (ascii_dec c c') as [->|Hne].
    + rewrite IH by (simpl in Hlen; lia). split; [now intros ->|now intros [= ->]].
    + split; [discriminate|]. intros [= ? ?]. contradiction.
Qed.

Lemma Format_date_month_prefix (t : Time) :
  Format_date t = Format_year_month t +:+ ("-" +:+ pad_int 2 (Day t)).
Proof. unfold Format_date, Format_year_month. now rewrite !app_assoc_string. Qed.

Lemma Format_year_month_digits (t : Time) :
  1 <= Month t <= 12 -> 0 <= Year t <= 9999 ->
  Format_year_month t = four_digits (Year t) +:+ "-" +:+ two_digits (Month t).
Proof.
  intros Hm Hy. unfold Format_year_month. now rewrite pad_int_4, pad_int_2 by lia.
Qed.

Lemma Format_year_month_eq (a b : Time) :
  1 <= Month a <= 12 -> 0 <= Year a <= 9999 ->
  1 <= Month b <= 12 -> 0 <= Year b <= 9999 ->
  String.length (Format_year_month a) = String.length (Format_year_month b)
  /\ (Format_year_month a = Format_year_month b
      <-> Year a = Year b /\ Month a = Month b).
Proof.
  intros Hma Hya Hmb Hyb.
  rewrite !Format_year_month_digits by assumption.
  split; [reflexivity|]. split.
  - intros Heq.
    pose proof (String_compare_refl
                  (four_digits (Year a) +:+ "-" +:+ two_digits (Month a))) as Hc.
    rewrite Heq in Hc at 2.
    rewrite four_digits_compare in Hc by lia.
    rewrite !append_cons, !append_nil in Hc. cbn [String.compare] in Hc.
    change (Ascii.compare "-" "-") with Eq in Hc. cbv iota in Hc.
    rewrite <- (app_nil_r_string (two_digits (Month a))),
            <- (app_nil_r_string (two_digits (Month b))) in Hc.
    rewrite two_digits_compare in Hc by lia.
    destruct (Z.compare_spec (Year a) (Year b)); try discriminate.
    destruct (Z.compare_spec (Month a) (Month b)); try discriminate. now split.
  - now intros [-> ->].
Qed.

Lemma take_digits_2 (s rest : string) (v : Z) :
  take_digits 2 0 s = Some (v, rest) -> 0 <= v <= 99 /\ s = two_digits v +:+ rest.
Proof.
  destruct s as [|c1 [|c2 r]]; cbn [take_digits]; try discriminate.
  - now destruct (is_digit c1).
  - destruct (is_digit c1) eqn:H1; [|discriminate].
    destruct (is_digit c2) eqn:H2; [|discriminate].
    intros [= <- <-].
    apply digit_of_byte in H1 as [E1 B1], H2 as [E2 B2].
    set (a := byte_of c1 - 48) in *. set (b := byte_of c2 - 48) in *.
    split; [lia|]. unfold two_digits. rewrite !append_cons, append_nil.
    replace ((0 * 10 + a) * 10 + b) with (a * 10 + b) by lia.
    replace ((a * 10 + b) / 10) with a by (Z.div_mod_to_equations; lia).
    replace ((a * 10 + b) mod 10) with b by (Z.div_mod_to_equations; lia).
    now rewrite <- E1, <- E2.
Qed.

Lemma take_digits_4 (s rest : string) (v : Z) :
  take_digits 4 0 s = Some (v, rest) -> 0 <= v <= 9999 /\ s = four_digits v +:+ rest.
Proof.
  destruct s as [|c1 [|c2 [|c3 [|c4 r]]]]; cbn [take_digits]; try discriminate.
  - now destruct (is_digit c1).
  - now destruct (is_digit c1), (is_digit c2).
  - now destruct (is_digit c1), (is_digit c2), (is_digit c3).
  - destruct (is_digit c1) eqn:H1; [|discriminate].
    destruct (is_digit c2) eqn:H2; [|discriminate].
    destruct (is_digit c3) eqn:H3; [|discriminate].
    destruct (is_digit c4) eqn:H4; [|discriminate].
    intros [= <- <-].
    apply digit_of_byte in H1 as [E1 B1], H2 as [E2 B2], H3 as [E3 B3], H4 as [E4 B4].
    set (a := byte_of c1 - 48) in *. set (b := byte_of c2 - 48) in *.
    set (c := byte_of c3 - 48) in *. set (d := byte_of c4 - 48) in *.
    split; [lia|]. unfold four_digits, two_digits.
    rewrite !append_cons, !append_nil.
    replace ((((0 * 10 + a) * 10 + b) * 10 + c) * 10 + d)
      with (a * 1000 + b * 100 + c * 10 + d) by lia.
    replace ((a * 1000 + b * 100 + c * 10 + d) / 100 / 10) with a
      by (Z.div_mod_to_equations; lia).
    replace ((a * 1000 + b * 100 + c * 10 + d) / 100 mod 10) with b
      by (Z.div_mod_to_equations; lia).
    replace ((a * 1000 + b * 100 + c * 10 + d) mod 100 / 10) with c
      by (Z.div_mod_to_equations; lia).
    replace ((a * 1000 + b * 100 + c * 10 + d) mod 100 mod 10) with d
      by (Z.div_mod_to_equations; lia).
    now rewrite <- E1, <- E2, <- E3, <- E4.
Qed.

Lemma expect_dash_inv (s rest : string) :
  expect_dash s = Some rest -> s = "-" +:+ rest.
Proof.
  destruct s as [|c s]; [discriminate|]. unfold expect_dash.
  destruct (Ascii.eqb_spec c "-") as [->|Hne].
  - now intros [= ->].
  - destruct c as [[] [] [] [] [] [] [] []]; try discriminate. contradiction.
Qed.

(** What [time.Parse] accepts for the layout of a full date is the text that
    [Format] writes for the date it returns, a date of the calendar. *)
Lemma Parse_date_inv (s : string) (t : Time) :
  Parse_date s = Some t -> printable t /\ s = Format_date t.
Proof.
  unfold Parse_date, parse_month_day.
  destruct (take_digits 4 0 s) as [[year s1]|] eqn:Hy; [|discriminate].
  apply take_digits_4 in Hy as [Hyear ->].
  destruct (expect_dash s1) as [s2|] eqn:Hd1; [|discriminate].
  apply expect_dash_inv in Hd1 as ->.
  destruct (take_digits 2 0 s2) as [[month s3]|] eqn:Hm; [|discriminate].
  apply take_digits_2 in Hm as [Hmonth ->].
  destruct ((month <=? 0) || (12 <? month)) eqn:Hrange; [discriminate|].
  apply orb_false_iff in Hrange as [Hlo Hhi].
  apply Z.leb_gt in Hlo. apply Z.ltb_ge in Hhi.
  destruct (expect_dash s3) as [s4|] eqn:Hd2; [|discriminate].
  apply expect_dash_inv in Hd2 as ->.
  destruct (take_digits 2 0 s4) as [[day s5]|] eqn:Hday; [|discriminate].
  apply take_digits_2 in Hday as [Hdayr ->].
  destruct s5; [|discriminate].
  destruct ((day <? 1) || (daysIn month year <? day)) eqn:Hdr; [discriminate|].
  apply orb_false_iff in Hdr as [Hdlo Hdhi].
  apply Z.ltb_ge in Hdlo, Hdhi.
  intros [= <-].
  assert (Hp : printable {| Year := year; Month := month; Day := day; Clock := 0 |}).
  { unfold printable, valid_date. simpl. lia. }
  split; [exact Hp|]. rewrite (Format_date_digits _ Hp). simpl.
  now rewrite app_nil_r_string.
Qed.

Section DateFilters.
Context `{std : GoStd}.

(** X17: the recency filter is chronological.  Against a cutoff that is a
    date of the calendar with a four-digit year, a bill dated with such a
    date passes the filter exactly when its day is the cutoff day or a later
    one.  For the unit [d], where [time.Date] gives the date of the calendar
    for the day of now lowered by the value (as it does unless the count of
    seconds leaves 64 bits or the wall time does not exist in the local
    zone), the cutoff is a date of the calendar, and the bills that pass are
    those dated no more than the given number of days before today. *)
Theorem recency_filter_keeps_the_days_from_the_cutoff_on
    (now cutoff day : Time) (s : string) (bill : BillResponse) :
  parseRecent now s = Ok cutoff ->
  0 <= Year cutoff <= 9999 ->
  printable day ->
  Date bill = Format_date day ->
  (valid_date cutoff ->
   recentFilter cutoff bill = (day_number cutoff <=? day_number day))
  /\ (forall valueStr value,
        valid_date now -> is_int (Year now) ->
        split_last (TrimSpace s) = Some (valueStr, "d"%char) ->
        Atoi valueStr = Some value -> min_int < value -> is_int (Day now - value) ->
        Date_is_calendar (Year now) (Month now) (Day now - value) (Clock now) ->
        valid_date cutoff
        /\ day_number cutoff = day_number now - value
        /\ (recentFilter cutoff bill = true <-> day_number now - day_number day <= value)).
Proof.
  intros Hparse Hyear Hday Hdate.
  assert (Hfilter : valid_date cutoff ->
                    recentFilter cutoff bill = (day_number cutoff <=? day_number day)).
  { intros Hvalid. unfold recentFilter. rewrite Hdate.
    apply Format_date_leb; [now split|exact Hday]. }
  split; [exact Hfilter|].
  intros valueStr value Hnow Hynow Hsplit Hvalue Hmin Hsum Hcal.
  pose proof Hnow as [Hmonth _].
  rewrite (parseRecent_of_split _ _ _ _ _ Hsplit Hvalue) in Hparse.
  change (Ascii.eqb "d" "d") with true in Hparse. cbv iota in Hparse.
  injection Hparse as <-.
  pose proof (Atoi_is_int _ _ Hvalue) as Hatoi. unfold is_int in Hatoi.
  rewrite wrap64_in_range in * by (unfold min_int, max_int in *; lia).
  assert (Hcall : AddDate now 0 0 (- value)
                  = calendar_Date (Year now) (Month now) (Day now - value) (Clock now)).
  { rewrite AddDate_days; [exact Hcal|assumption|assumption|exact Hsum]. }
  assert (Hvalid : valid_date (AddDate now 0 0 (- value)))
    by (rewrite Hcall; apply calendar_Date_valid).
  assert (Hnumber : day_number (AddDate now 0 0 (- value)) = day_number now - value).
  { rewrite day_number_AddDate_days; [lia|assumption|assumption|exact Hsum|exact Hcal]. }
  split; [exact Hvalid|]. split; [exact Hnumber|].
  rewrite (Hfilter Hvalid), Hnumber, Z.leb_le. lia.
Qed.

(** X18: the filter of [--this-week] keeps the bills of the calendar week of
    today, Monday to Sunday, where [time.Date] gives the dates of the
    calendar for the two ends of the week (as it does unless the wall time
    of now does not exist on one of these days in the local zone): a bill
    dated with a date of the calendar passes exactly when its day lies in
    the same Monday-based week as today. *)
Theorem this_week_filter_keeps_monday_to_sunday (now : Time) (project : Project) :
  valid_date now ->
  1 <= Year now <= 9998 ->
  week_in_calendar now ->
  exists filter,
    buildFilters only_this_week now project = Ok [filter]
    /\ forall day bill,
         printable day -> Date bill = Format_date day ->
         (filter bill = true <-> week_of (day_number day) = week_of (day_number now)).
Proof.
  intros Hnow Hyear [Hmonday Hsunday]. eexists. split; [reflexivity|].
  intros day bill Hday Hdate. cbv beta zeta. rewrite Hdate.
  set (weekday := if Weekday now =? 0 then 7 else Weekday now).
  assert (Hwd : 1 <= weekday <= 7).
  { unfold weekday, Weekday.
    pose proof (Z.mod_pos_bound (day_number now + 4) 7 ltac:(lia)).
    destruct (Z.eqb_spec ((day_number now + 4) mod 7) 0); lia. }
  pose proof Hnow as [Hmn Hdn].
  pose proof (daysIn_bounds (Month now) (Year now)) as Hdi.
  assert (Hynow : is_int (Year now)) by (unfold is_int, min_int, max_int; lia).
  assert (Hback : Day now + - (weekday - 1) = Day now - days_since_monday now)
    by (unfold days_since_monday; fold weekday; lia).
  assert (Hstart : AddDate now 0 0 (- (weekday - 1)) = monday_of now).
  { rewrite AddDate_days; [|assumption|assumption|unfold is_int, min_int, max_int; lia].
    rewrite Hback. exact Hmonday. }
  rewrite Hstart.
  pose proof (calendar_Date_valid (Year now) (Month now)
                (Day now - days_since_monday now) (Clock now)) as Hvs.
  fold (monday_of now) in Hvs.
  assert (Hs : day_number (monday_of now) = day_number now - (weekday - 1)).
  { unfold monday_of. rewrite day_number_calendar_Date by assumption.
    unfold day_number. rewrite (days_from_civil_day _ _ (Day now)).
    unfold days_since_monday. fold weekday. lia. }
  assert (Hps : printable (monday_of now)).
  { split; [exact Hvs|].
    pose proof (near_days_near_years (monday_of now) now Hvs Hnow ltac:(lia)).
    pose proof (near_days_near_years now (monday_of now) Hnow Hvs ltac:(lia)). lia. }
  pose proof Hvs as [Hms Hds].
  pose proof (daysIn_bounds (Month (monday_of now)) (Year (monday_of now))) as Hdis.
  assert (Hend : AddDate (monday_of now) 0 0 6
                 = calendar_Date (Year (monday_of now)) (Month (monday_of now))
                     (Day (monday_of now) + 6) (Clock (monday_of now))).
  { rewrite AddDate_days; [exact Hsunday| |assumption|];
      unfold is_int, min_int, max_int; destruct Hps as [_ ?]; lia. }
  rewrite Hend.
  set (endOfWeek := calendar_Date (Year (monday_of now)) (Month (monday_of now))
                      (Day (monday_of now) + 6) (Clock (monday_of now))).
  pose proof (calendar_Date_valid (Year (monday_of now)) (Month (monday_of now))
                (Day (monday_of now) + 6) (Clock (monday_of now))) as Hve.
  fold endOfWeek in Hve.
  assert (He : day_number endOfWeek = day_number (monday_of now) + 6).
  { unfold endOfWeek. rewrite day_number_calendar_Date by assumption.
    unfold day_number. rewrite (days_from_civil_day _ _ (Day (monday_of now))).
    lia. }
  assert (Hpe : printable endOfWeek).
  { split; [exact Hve|].
    pose proof (near_days_near_years endOfWeek now Hve Hnow ltac:(lia)).
    pose proof (near_days_near_years now endOfWeek Hnow Hve ltac:(lia)). lia. }
  rewrite !Format_date_leb by assumption.
  rewrite andb_true_iff, !Z.leb_le, He, Hs.
  unfold week_of. unfold weekday, Weekday in *.
  destruct (Z.eqb_spec ((day_number now + 4) mod 7) 0);
    Z.div_mod_to_equations; lia.
Qed.

Lemma parseDateFilter_operator (now : Time) (s : string) (df : dateFilter) :
  parseDateFilter now s = Ok df -> In (df_operator df) operators.
Proof.
  destruct (FindOperatorOperand (TrimSpace s)) as [[op operand]|] eqn:Hm.
  - rewrite (parseDateFilter_of_match _ _ _ _ Hm).
    apply FindOperatorOperand_spec in Hm as (_ & Hin & _).
    assert (Hop : In (operator_of op) operators).
    { destruct Hin as [->|Hin]; [simpl; tauto|]. unfold operator_of.
      destruct (String.eqb_spec op EmptyString) as [->|_]; [simpl; tauto|exact Hin]. }
    destruct (Parse_date _); [now intros [= <-]|].
    destruct (Parse_month_day _); [|discriminate]. now intros [= <-].
  - unfold parseDateFilter. now rewrite Hm.
Qed.

(** X19: the filters of [--today] and [--this-month].  A bill dated with a
    date of the calendar passes the first exactly when that date is today,
    and the second exactly when it lies in the year and month of today.
    Years are written with four digits. *)
Theorem today_and_this_month_filters (now : Time) (project : Project) :
  printable now ->
  (exists filter,
     buildFilters only_today now project = Ok [filter]
     /\ forall day bill,
          printable day -> Date bill = Format_date day ->
          (filter bill = true <-> day_number day = day_number now))
  /\ (exists filter,
        buildFilters only_this_month now project = Ok [filter]
        /\ forall day bill,
             printable day -> Date bill = Format_date day ->
             (filter bill = true <-> Year day = Year now /\ Month day = Month now)).
Proof.
  intros Hnow. split.
  - eexists. split; [reflexivity|].
    intros day bill Hday Hdate. cbv beta zeta. rewrite Hdate.
    rewrite Format_date_eqb by assumption. apply Z.eqb_eq.
  - eexists. split; [reflexivity|].
    intros day bill Hday Hdate. cbv beta zeta. rewrite Hdate.
    unfold HasPrefix. rewrite Format_date_month_prefix.
    destruct Hnow as [[Hmn _] Hyn]. destruct Hday as [[Hmd _] Hyd].
    destruct (Format_year_month_eq now day Hmn Hyn Hmd Hyd) as [Hlen Heq].
    rewrite (prefix_same_length _ _ _ Hlen), Heq. intuition congruence.
Qed.

(** X20: the filter of [--date] compares calendar days.  When the date the
    parsed filter carries is a date of the calendar, as it is for every
    operand given in the long form, a bill dated with a date of the calendar
    passes exactly when its day stands to that date as the operator says:
    the same day for [=], a later day for [>], an earlier one for [<], and
    with the day itself included for [>=] and [<=]. *)
Theorem date_filter_compares_calendar_days
    (now t day : Time) (s : string) (df : dateFilter) :
  parseDateFilter now s = Ok df ->
  Parse_date (df_date df) = Some t ->
  printable day ->
  printable t
  /\ matchDate (Format_date day) df
     = (if String.eqb (df_operator df) "=" then day_number day =? day_number t
        else if String.eqb (df_operator df) ">" then day_number t <? day_number day
        else if String.eqb (df_operator df) "<" then day_number day <? day_number t
        else if String.eqb (df_operator df) ">=" then day_number t <=? day_number day
        else day_number day <=? day_number t).
Proof.
  intros Hparse Hdate Hday.
  apply Parse_date_inv in Hdate as [Ht Hdate].
  split; [exact Ht|]. unfold matchDate. rewrite Hdate.
  rewrite Format_date_eqb, !Format_date_ltb, !Format_date_leb by assumption.
  apply parseDateFilter_operator in Hparse. simpl in Hparse.
  destruct Hparse as [<-|[<-|[<-|[<-|[<-|[]]]]]]; reflexivity.
Qed.

(** X21: the order in which bills are listed is chronological.  For two
    bills dated with dates of the calendar, the comparison given to the sort
    puts one before the other exactly when its day is later, or when both
    have the same day and its timestamp is larger. *)
Theorem bills_are_sorted_newest_day_first (a b : BillResponse) (da db : Time) :
  printable da -> printable db ->
  Date a = Format_date da -> Date b = Format_date db ->
  (billLess a b = true
   <-> day_number db < day_number da
       \/ (day_number da = day_number db /\ Timestamp b < Timestamp a)).
Proof.
  intros Hda Hdb Ha Hb. unfold billLess. rewrite Ha, Hb.
  rewrite Format_date_eqb, Format_date_ltb by assumption.
  destruct (Z.eqb_spec (day_number da) (day_number db)) as [Heq|Hne]; cbn [negb].
  - rewrite Z.ltb_lt. lia.
  - rewrite Z.ltb_lt. lia.
Qed.

End DateFilters.

Lemma printable_a_day (year month day : Z) :
  (0 <=? year) && (year <=? 9999) && (1 <=? month) && (month <=? 12) && (1 <=? day)
  && (day <=? daysIn month year) = true ->
  printable (a_day year month day).
Proof.
  intros H. repeat (apply andb_true_iff in H as [H ?]).
  repeat match goal with
         | H : (_ <=? _) = true |- _ => apply Z.leb_le in H
         end.
  unfold printable, valid_date, a_day. simpl. lia.
Qed.

Lemma recency_filter_keeps_the_days_from_the_cutoff_on_witness :
  parseRecent example_now "14d" = Ok (AddDate example_now 0 0 (-14))
  /\ Format_date (AddDate example_now 0 0 (-14)) = "2026-03-17"
  /\ Date_is_calendar (Year example_now) (Month example_now) (Day example_now - 14)
       (Clock example_now)
  /\ recentFilter (AddDate example_now 0 0 (-14)) (bill_of "2026-03-17") = true
  /\ recentFilter (AddDate example_now 0 0 (-14)) (bill_of "2026-03-16") = false
  /\ (recentFilter (AddDate example_now 0 0 (-14)) (bill_of "2026-03-17") = true
      <-> day_number example_now - day_number (a_day 2026 3 17) <= 14).
Proof.
  assert (Hparse : parseRecent example_now "14d" = Ok (AddDate example_now 0 0 (-14)))
    by reflexivity.
  assert (Hyear : 0 <= Year (AddDate example_now 0 0 (-14)) <= 9999)
    by (vm_compute; split; discriminate).
  assert (Hvalid : valid_date (AddDate example_now 0 0 (-14)))
    by (vm_compute; repeat split; discriminate).
  assert (Hcal : Date_is_calendar (Year example_now) (Month example_now)
                   (Day example_now - 14) (Clock example_now)) by reflexivity.
  split; [exact Hparse|]. split; [reflexivity|]. split; [exact Hcal|].
  split; [|split].
  - destruct (recency_filter_keeps_the_days_from_the_cutoff_on
                example_now _ (a_day 2026 3 17) "14d" (bill_of "2026-03-17")
                Hparse Hyear (printable_a_day 2026 3 17 eq_refl) eq_refl)
      as (Hfilter & _). rewrite (Hfilter Hvalid). reflexivity.
  - destruct (recency_filter_keeps_the_days_from_the_cutoff_on
                example_now _ (a_day 2026 3 16) "14d" (bill_of "2026-03-16")
                Hparse Hyear (printable_a_day 2026 3 16 eq_refl) eq_refl)
      as (Hfilter & _). rewrite (Hfilter Hvalid). reflexivity.
  - destruct (recency_filter_keeps_the_days_from_the_cutoff_on
                example_now _ (a_day 2026 3 17) "14d" (bill_of "2026-03-17")
                Hparse Hyear (printable_a_day 2026 3 17 eq_refl) eq_refl)
      as (_ & Hdays).
    apply (Hdays "14" 14).
    + vm_compute. repeat split; discriminate.
    + vm_compute. split; discriminate.
    + reflexivity.
    + reflexivity.
    + vm_compute. reflexivity.
    + vm_compute. split; discriminate.
    + exact Hcal.
Defined.

Lemma this_week_filter_keeps_monday_to_sunday_witness :
  Weekday example_now = 2
  /\ exists filter,
       buildFilters only_this_week example_now project_food = Ok [filter]
       /\ filter (bill_of "2026-03-30") = true
       /\ filter (bill_of "2026-04-05") = true
       /\ filter (bill_of "2026-03-29") = false
       /\ filter (bill_of "2026-04-06") = false.
Proof.
  split; [reflexivity|].
  destruct (this_week_filter_keeps_monday_to_sunday example_now project_food)
    as (filter & Hbuild & Hfilter).
  - vm_compute. repeat split; discriminate.
  - vm_compute. split; discriminate.
  - split; reflexivity.
  - exists filter. split; [exact Hbuild|].
    split; [apply (Hfilter (a_day 2026 3 30) (bill_of "2026-03-30") (printable_a_day 2026 3 30 eq_refl) eq_refl);
            reflexivity|].
    split; [apply (Hfilter (a_day 2026 4 5) (bill_of "2026-04-05") (printable_a_day 2026 4 5 eq_refl) eq_refl);
            reflexivity|].
    split.
    + destruct (filter (bill_of "2026-03-29")) eqn:H; [|reflexivity].
      apply (Hfilter (a_day 2026 3 29) (bill_of "2026-03-29") (printable_a_day 2026 3 29 eq_refl) eq_refl) in H.
      discriminate H.
    + destruct (filter (bill_of "2026-04-06")) eqn:H; [|reflexivity].
      apply (Hfilter (a_day 2026 4 6) (bill_of "2026-04-06") (printable_a_day 2026 4 6 eq_refl) eq_refl) in H.
      discriminate H.
Defined.

Lemma today_and_this_month_filters_witness :
  (exists filter,
     buildFilters only_today example_now project_food = Ok [filter]
     /\ filter (bill_of "2026-03-31") = true)
  /\ (exists filter,
        buildFilters only_this_month example_now project_food = Ok [filter]
        /\ filter (bill_of "2026-03-01") = true).
Proof.
  destruct (today_and_this_month_filters example_now project_food)
    as [(f1 & H1 & Hf1) (f2 & H2 & Hf2)].
  - apply (printable_a_day 2026 3 31). reflexivity.
  - split.
    + exists f1. split; [exact H1|].
      apply (Hf1 (a_day 2026 3 31) (bill_of "2026-03-31") (printable_a_day 2026 3 31 eq_refl) eq_refl).
      reflexivity.
    + exists f2. split; [exact H2|].
      apply (Hf2 (a_day 2026 3 1) (bill_of "2026-03-01") (printable_a_day 2026 3 1 eq_refl) eq_refl).
      split; reflexivity.
Defined.

Lemma date_filter_compares_calendar_days_witness :
  parseDateFilter example_now ">=2026-01-15"
  = Ok {| df_operator := ">="; df_date := "2026-01-15" |}
  /\ matchDate "2026-01-15" {| df_operator := ">="; df_date := "2026-01-15" |} = true
  /\ matchDate "2025-12-31" {| df_operator := ">="; df_date := "2026-01-15" |} = false.
Proof.
  assert (Hparse : parseDateFilter example_now ">=2026-01-15"
                   = Ok {| df_operator := ">="; df_date := "2026-01-15" |})
    by reflexivity.
  split; [exact Hparse|]. split.
  - destruct (date_filter_compares_calendar_days example_now (a_day 2026 1 15)
                (a_day 2026 1 15) _ _ Hparse eq_refl (printable_a_day 2026 1 15 eq_refl))
      as [_ H]. exact H.
  - destruct (date_filter_compares_calendar_days example_now (a_day 2026 1 15)
                (a_day 2025 12 31) _ _ Hparse eq_refl (printable_a_day 2025 12 31 eq_refl))
      as [_ H]. exact H.
Defined.

Lemma bills_are_sorted_newest_day_first_witness :
  billLess (a_bill 3 "2026-02-01" 300) (a_bill 1 "2026-01-01" 100) = true
  /\ billLess (a_bill 3 "2026-02-01" 300) (a_bill 2 "2026-02-01" 200) = true.
Proof.
  split.
  - apply (bills_are_sorted_newest_day_first
             (a_bill 3 "2026-02-01" 300) (a_bill 1 "2026-01-01" 100)
             (a_day 2026 2 1) (a_day 2026 1 1)
             (printable_a_day 2026 2 1 eq_refl) (printable_a_day 2026 1 1 eq_refl)
             eq_refl eq_refl).
    left. vm_compute. reflexivity.
  - apply (bills_are_sorted_newest_day_first
             (a_bill 3 "2026-02-01" 300) (a_bill 2 "2026-02-01" 200)
             (a_day 2026 2 1) (a_day 2026 2 1)
             (printable_a_day 2026 2 1 eq_refl) (printable_a_day 2026 2 1 eq_refl)
             eq_refl eq_refl).
    right. split; [reflexivity|]. vm_compute. reflexivity.
Defined.

(** ** Configuration *)

(** X22: a configuration that [config.Load] returns has a domain, a user and
    a password, none of them empty; each is the value of its environment
    variable when that is set, and the value of the config file otherwise;
    and the call fails exactly when the file does not load or one of the
    three ends up empty. *)
Theorem loaded_config_is_complete (configFile : option (result Config)) (env : Env) :
  (forall cfg,
     config_Load configFile env = Ok cfg ->
     Domain cfg <> EmptyString /\ User cfg <> EmptyString /\ Password cfg <> EmptyString
     /\ exists fileCfg,
          (configFile = None /\ fileCfg = zeroConfig \/ configFile = Some (Ok fileCfg))
          /\ Domain cfg = (if String.eqb (NEXTCLOUD_DOMAIN env) EmptyString
                           then Domain fileCfg else NEXTCLOUD_DOMAIN env)
          /\ User cfg = (if String.eqb (NEXTCLOUD_USER env) EmptyString
                         then User fileCfg else NEXTCLOUD_USER env)
          /\ Password cfg = (if String.eqb (NEXTCLOUD_PASSWORD env) EmptyString
                             then Password fileCfg else NEXTCLOUD_PASSWORD env))
  /\ (forall msg, configFile = Some (Err msg) -> config_Load configFile env = Err msg)
  /\ (NEXTCLOUD_DOMAIN env <> EmptyString -> NEXTCLOUD_USER env <> EmptyString ->
      NEXTCLOUD_PASSWORD env <> EmptyString ->
      forall fileCfg,
        configFile = None \/ configFile = Some (Ok fileCfg) ->
        config_Load configFile env
        = Ok {| Domain := NEXTCLOUD_DOMAIN env; User := NEXTCLOUD_USER env;
                Password := NEXTCLOUD_PASSWORD env |}).
Proof.
  split; [|split].
  - intros cfg. unfold config_Load.
    assert (Hfile : exists fileCfg,
              (configFile = None /\ fileCfg = zeroConfig
               \/ configFile = Some (Ok fileCfg))
              \/ exists msg, configFile = Some (Err msg)).
    { destruct configFile as [[fileCfg|msg]|];
        [exists fileCfg|exists zeroConfig|exists zeroConfig]; eauto. }
    destruct Hfile as [fileCfg [Hfile|[msg ->]]]; [|discriminate].
    assert (Hstart : match configFile with
                     | None => Ok zeroConfig
                     | Some (Ok fileCfg) => Ok fileCfg
                     | Some (Err msg) => Err msg
                     end = Ok fileCfg).
    { destruct Hfile as [[-> ->]| ->]; reflexivity. }
    rewrite Hstart. cbn [bind]. cbv zeta.
    destruct (String.eqb_spec (NEXTCLOUD_DOMAIN env) EmptyString) as [Hd|Hd];
      destruct (String.eqb_spec (NEXTCLOUD_USER env) EmptyString) as [Hu|Hu];
      destruct (String.eqb_spec (NEXTCLOUD_PASSWORD env) EmptyString) as [Hp|Hp];
      cbn [Domain User Password];
      repeat match goal with
             | |- context [String.eqb ?s EmptyString] =>
                 destruct (String.eqb_spec s EmptyString)
             end;
      try discriminate; intros [= <-]; cbn [Domain User Password];
      (split; [assumption|]); (split; [assumption|]); (split; [assumption|]);
      exists fileCfg; (split; [exact Hfile|]); repeat split.
  - intros msg ->. reflexivity.
  - intros Hd Hu Hp fileCfg Hfile. unfold config_Load.
    apply String.eqb_neq in Hd as Hd', Hu as Hu', Hp as Hp'.
    destruct Hfile as [-> | ->]; cbn [bind]; cbv zeta;
      rewrite Hd', Hu', Hp'; cbn [Domain User Password]; now rewrite Hd', Hu', Hp'.
Qed.

Lemma loaded_config_is_complete_witness :
  config_Load (Some (Ok file_config))
    {| NEXTCLOUD_DOMAIN := EmptyString; NEXTCLOUD_USER := "fd";
       NEXTCLOUD_PASSWORD := EmptyString |}
  = Ok {| Domain := "files.example.com"; User := "fd"; Password := "hunter2" |}
  /\ User {| Domain := "files.example.com"; User := "fd"; Password := "hunter2" |}
     <> EmptyString.
Proof.
  split; [reflexivity|].
  exact (proj1 (proj2 (proj1 (loaded_config_is_complete (Some (Ok file_config))
                                {| NEXTCLOUD_DOMAIN := EmptyString; NEXTCLOUD_USER := "fd";
                                   NEXTCLOUD_PASSWORD := EmptyString |})
                         _ eq_refl))).
Defined.

(** ** The two versions of the resolvers *)

Section ResolverVersions.
Context `{std : GoStd}.

Lemma existsb_find_id {A} (ID : A -> Z) (l : list A) (id : Z) :
  existsb (fun x => ID x =? id) l = true ->
  exists x, find (fun x => ID x =? id) l = Some x /\ x ∈ l /\ ID x = id.
Proof.
  induction l as [|y l IH]; simpl; [discriminate|].
  destruct (Z.eqb_spec (ID y) id) as [Hy|Hy].
  - intros _. exists y. repeat split; [left|exact Hy].
  - simpl. intros H. destruct (IH H) as (x & Hf & Hin & Hx).
    exists x. repeat split; [exact Hf|now right|exact Hx].
Qed.

Lemma existsb_find_none {A} (ID : A -> Z) (l : list A) (id : Z) :
  existsb (fun x => ID x =? id) l = false -> find (fun x => ID x =? id) l = None.
Proof.
  induction l as [|y l IH]; simpl; [reflexivity|].
  destruct (ID y =? id); simpl; [discriminate|exact IH].
Qed.

(** X23: the resolvers of the current cache package against those of the
    earlier one, on the same project and token.  For categories and payment
    modes the current resolver answers as the earlier one wherever the
    earlier one succeeds on a non-empty token, and where the earlier one
    fails it goes on to the substring match and fails with the same message
    when that finds nothing; the empty token, which the earlier one matches
    against empty names, the current one rejects.  For currencies the
    earlier resolver returns the ID of the currency the current one returns,
    and fails with the same message. *)
Theorem current_resolvers_extend_the_earlier_ones (project : Project) (tok : string) :
  (tok <> EmptyString ->
   ResolveCategory project tok
   = match cache_v1.ResolveCategory project tok with
     | Ok id => Ok id
     | Err msg =>
         match find (fun c => Contains (ToLower (Category_Name c)) (ToLower tok))
                    (elems (Categories project)) with
         | Some c => Ok (Category_ID c)
         | None => Err msg
         end
     end)
  /\ (tok <> EmptyString ->
      ResolvePaymentMode project tok
      = match cache_v1.ResolvePaymentMode project tok with
        | Ok id => Ok id
        | Err msg =>
            match find (fun pm => Contains (ToLower (PaymentMode_Name pm)) (ToLower tok))
                       (elems (PaymentModes project)) with
            | Some pm => Ok (PaymentMode_ID pm)
            | None => Err msg
            end
        end)
  /\ is_ok (ResolveCategory project EmptyString) = false
  /\ is_ok (ResolvePaymentMode project EmptyString) = false
  /\ (forall c, c ∈ elems (Categories project) ->
                ToLower (Category_Name c) = ToLower EmptyString ->
                is_ok (cache_v1.ResolveCategory project EmptyString) = true)
  /\ cache_v1.ResolveCurrency project tok
     = (cur <- ResolveCurrency project tok ;; Ok (Currency_ID cur)).
Proof.
  split; [|split; [|split; [|split; [|split]]]].
  - intros Htok. apply String.eqb_neq in Htok.
    unfold ResolveCategory, cache_v1.ResolveCategory. rewrite Htok.
    destruct (Atoi tok) as [id|]; cbv zeta.
    + destruct (existsb _ _); [reflexivity|].
      destruct (find (fun c => String.eqb _ _) _); [reflexivity|].
      destruct (find (fun c => Contains _ _) _); reflexivity.
    + destruct (find (fun c => String.eqb _ _) _); [reflexivity|].
      destruct (find (fun c => Contains _ _) _); reflexivity.
  - intros Htok. apply String.eqb_neq in Htok.
    unfold ResolvePaymentMode, cache_v1.ResolvePaymentMode. rewrite Htok.
    destruct (Atoi tok) as [id|]; cbv zeta.
    + destruct (existsb _ _); [reflexivity|].
      destruct (find (fun c => String.eqb _ _) _); [reflexivity|].
      destruct (find (fun c => Contains _ _) _); reflexivity.
    + destruct (find (fun c => String.eqb _ _) _); [reflexivity|].
      destruct (find (fun c => Contains _ _) _); reflexivity.
  - reflexivity.
  - reflexivity.
  - intros c Hin Hname. unfold cache_v1.ResolveCategory.
    change (Atoi EmptyString) with (@None Z). cbv zeta beta iota.
    destruct (find _ _) as [c'|] eqn:Hfind; [reflexivity|].
    apply list_elem_of_In in Hin.
    pose proof (find_none _ _ Hfind c Hin) as Hc. cbv beta in Hc.
    rewrite Hname, String.eqb_refl in Hc. discriminate.
  - unfold ResolveCurrency, cache_v1.ResolveCurrency.
    destruct (Atoi tok) as [id|]; cbv zeta.
    + destruct (existsb (fun cur => Currency_ID cur =? id) (elems (Currencies project)))
        eqn:Hex.
      * destruct (existsb_find_id _ _ _ Hex) as (cur & Hfind & _ & Hid).
        rewrite Hfind. cbn [bind]. now rewrite Hid.
      * rewrite (existsb_find_none _ _ _ Hex).
        destruct (find (fun cur => String.eqb _ _) _); [reflexivity|].
        destruct (currencyCodeToSymbol !! ToLower tok) as [symbol|]; [|reflexivity].
        destruct (find (fun cur => Contains _ _) _); reflexivity.
    + destruct (find (fun cur => String.eqb _ _) _); [reflexivity|].
      destruct (currencyCodeToSymbol !! ToLower tok) as [symbol|]; [|reflexivity].
      destruct (find (fun cur => Contains _ _) _); reflexivity.
Qed.

Lemma v1_category_of_project (project : Project) (tok : string) (id : Z) :
  cache_v1.ResolveCategory project tok = Ok id ->
  id_of Category_ID (Categories project) id.
Proof.
  unfold cache_v1.ResolveCategory.
  destruct (Atoi tok) as [n|]; cbv zeta.
  - destruct (existsb _ _) eqn:Hex.
    + intros [= <-]. destruct (existsb_find_id _ _ _ Hex) as (c & _ & Hin & Hid).
      now exists c.
    + destruct (find _ _) as [c|] eqn:Hfind; [|discriminate].
      intros [= <-]. exists c. split; [|reflexivity].
      apply list_elem_of_In. exact (proj1 (find_some _ _ Hfind)).
  - destruct (find _ _) as [c|] eqn:Hfind; [|discriminate].
    intros [= <-]. exists c. split; [|reflexivity].
    apply list_elem_of_In. exact (proj1 (find_some _ _ Hfind)).
Qed.

Lemma v1_payment_mode_of_project (project : Project) (tok : string) (id : Z) :
  cache_v1.ResolvePaymentMode project tok = Ok id ->
  id_of PaymentMode_ID (PaymentModes project) id.
Proof.
  unfold cache_v1.ResolvePaymentMode.
  destruct (Atoi tok) as [n|]; cbv zeta.
  - destruct (existsb _ _) eqn:Hex.
    + intros [= <-]. destruct (existsb_find_id _ _ _ Hex) as (c & _ & Hin & Hid).
      now exists c.
    + destruct (find _ _) as [c|] eqn:Hfind; [|discriminate].
      intros [= <-]. exists c. split; [|reflexivity].
      apply list_elem_of_In. exact (proj1 (find_some _ _ Hfind)).
  - destruct (find _ _) as [c|] eqn:Hfind; [|discriminate].
    intros [= <-]. exists c. split; [|reflexivity].
    apply list_elem_of_In. exact (proj1 (find_some _ _ Hfind)).
Qed.

Lemma v1_currency_of_project (project : Project) (tok : string) (id : Z) :
  cache_v1.ResolveCurrency project tok = Ok id ->
  id_of Currency_ID (Currencies project) id.
Proof.
  assert (Hfound : forall P cur, find P (elems (Currencies project)) = Some cur ->
                                 id_of Currency_ID (Currencies project) (Currency_ID cur)).
  { intros P cur Hfind. exists cur. split; [|reflexivity].
    apply list_elem_of_In. exact (proj1 (find_some _ _ Hfind)). }
  assert (Hrest :
            match find (fun cur => String.eqb (ToLower (Currency_Name cur)) (ToLower tok))
                       (elems (Currencies project)) with
            | Some cur => Ok (Currency_ID cur)
            | None =>
                match
                  match currencyCodeToSymbol !! ToLower tok with
                  | Some symbol =>
                      find (fun cur => Contains (Currency_Name cur) symbol)
                           (elems (Currencies project))
                  | None => None
                  end
                with
                | Some cur => Ok (Currency_ID cur)
                | None => Err ("currency not found: " +:+ tok)
                end
            end = Ok id -> id_of Currency_ID (Currencies project) id).
  { destruct (find (fun cur => String.eqb _ _) _) as [cur|] eqn:Hname.
    - intros [= <-]. exact (Hfound _ _ Hname).
    - destruct (currencyCodeToSymbol !! ToLower tok) as [symbol|]; [|discriminate].
      destruct (find (fun cur => Contains _ _) _) as [cur|] eqn:Hsym; [|discriminate].
      intros [= <-]. exact (Hfound _ _ Hsym). }
  unfold cache_v1.ResolveCurrency.
  destruct (Atoi tok) as [n|]; cbv zeta; [|exact Hrest].
  destruct (existsb _ _) eqn:Hex; [|exact Hrest].
  intros [= <-]. destruct (existsb_find_id _ _ _ Hex) as (c & _ & Hin & Hid).
  now exists c.
Qed.

Lemma member_of_project (project : Project) (username : string) (id : Z) :
  ResolveMember project username = Ok id -> id_of Member_ID (Members project) id.
Proof.
  unfold ResolveMember. cbv zeta.
  destruct (find _ _) as [m|] eqn:Hfind; [|discriminate].
  intros [= <-]. exists m. split; [|reflexivity].
  apply list_elem_of_In. exact (proj1 (find_some _ _ Hfind)).
Qed.

End ResolverVersions.

Lemma current_resolvers_extend_the_earlier_ones_witness :
  ResolveCategory project_food "sea" = Ok 2
  /\ cache_v1.ResolveCategory project_food "sea" = Err "category not found: sea"
  /\ cache_v1.ResolveCurrency project_dollars "usd" = Ok 4.
Proof.
  destruct (current_resolvers_extend_the_earlier_ones project_food "sea")
    as (Hcat & _).
  split; [|split; reflexivity].
  rewrite Hcat; [reflexivity|discriminate].
Defined.

(** ** The add command *)

Section AddProperties.
Context `{std : GoStd}.
Variable GetProject : Config -> string -> result Project.
Variable CreateBill : Config -> string -> Bill -> result unit.
Variable Sprintf_2f : float -> string.

Lemma acquireProject_acquired (w : World) (now : Z) (cfg : Config) (ProjectID : string) :
  let '(w', requests, warnings, project) := acquireProject GetProject w now cfg ProjectID in
  acquired GetProject w now cfg ProjectID w' requests warnings project.
Proof.
  unfold acquireProject.
  destruct (Load w now ProjectID) as [project [|]] eqn:Hload.
  - now constructor.
  - destruct (GetProject cfg ProjectID) as [project'|msg] eqn:Hget.
    + destruct (Save w now ProjectID (Some project')) as [w'|msg] eqn:Hsave.
      * apply fetched_and_cached; [now rewrite Hload|exact Hget|exact Hsave].
      * apply fetched_not_cached; [now rewrite Hload|exact Hget|exact Hsave].
    + apply fetch_failed; [now rewrite Hload|exact Hget].
Qed.

Lemma resolveOwed_Forall2 (project : Project) (usernames : list string)
    (owedIDs result : slice Z) :
  resolveOwed project usernames owedIDs = Ok result ->
  exists ids,
    Forall2 (fun username id => ResolveMember project username = Ok id) usernames ids
    /\ elems result = elems owedIDs ++ ids
    /\ (usernames <> [] -> result = Some (elems owedIDs ++ ids)).
Proof.
  revert owedIDs. induction usernames as [|u us IH]; intros owedIDs; simpl.
  - intros [= <-]. exists []. split; [constructor|]. rewrite app_nil_r. now split.
  - intros H. apply bind_ok_inv in H as (id & Hid & H). apply wrap_error_ok in Hid.
    destruct (IH _ H) as (ids & Hall & Helems & Hsome).
    unfold append in Helems, Hsome. simpl in Helems, Hsome.
    exists (id :: ids). split; [now constructor|].
    rewrite <- app_assoc in Helems, Hsome. simpl in Helems, Hsome.
    split; [exact Helems|]. intros _.
    destruct us as [|u' us']; [|apply Hsome; discriminate].
    simpl in H. injection H as <-. inversion Hall; subst. reflexivity.
Qed.

(** What a bill that was built holds. *)
Lemma buildBill_inv (project : Project) (cfg : Config) (flags : AddFlags) (today : Time)
    (expenseName : string) (amount : float) (bill : Bill) :
  buildBill project cfg flags today expenseName amount = Ok bill ->
  ResolveMember project
    (if String.eqb (paidBy flags) EmptyString then User cfg else paidBy flags)
  = Ok (Bill_PayerID bill)
  /\ (paidFor flags = [] -> Bill_OwedTo bill = Some [Bill_PayerID bill])
  /\ (paidFor flags <> [] ->
      exists ids,
        Bill_OwedTo bill = Some ids
        /\ Forall2 (fun username id => ResolveMember project username = Ok id)
                   (paidFor flags) ids)
  /\ (if String.eqb (category flags) EmptyString then Bill_CategoryID bill = 0
      else cache_v1.ResolveCategory project (category flags) = Ok (Bill_CategoryID bill))
  /\ (if String.eqb (paymentMethod flags) EmptyString then Bill_PaymentModeID bill = 0
      else cache_v1.ResolvePaymentMode project (paymentMethod flags)
           = Ok (Bill_PaymentModeID bill))
  /\ (if String.eqb (convertTo flags) EmptyString then Bill_OriginalCurrencyID bill = 0
      else cache_v1.ResolveCurrency project (convertTo flags)
           = Ok (Bill_OriginalCurrencyID bill))
  /\ Bill_What bill = expenseName /\ Bill_Amount bill = amount
  /\ Bill_Date bill = Format_date today /\ Bill_Comment bill = comment flags.
Proof.
  unfold buildBill. cbv zeta. intros H.
  apply bind_ok_inv in H as (payerID & Hpayer & H). apply wrap_error_ok in Hpayer.
  apply bind_ok_inv in H as (owedIDs & Howed & H).
  apply bind_ok_inv in H as (categoryID & Hcat & H).
  apply bind_ok_inv in H as (methodID & Hmethod & H).
  apply bind_ok_inv in H as (currencyID & Hcur & H).
  injection H as <-. cbn [Bill_PayerID Bill_OwedTo Bill_CategoryID Bill_PaymentModeID
                          Bill_OriginalCurrencyID Bill_What Bill_Amount Bill_Date
                          Bill_Comment].
  split; [exact Hpayer|]. split; [|split].
  - intros Hnil. rewrite Hnil in Howed. now injection Howed as <-.
  - intros Hsome.
    assert (Hloop : resolveOwed project (paidFor flags) None = Ok owedIDs)
      by (destruct (paidFor flags); [now contradict Hsome|exact Howed]).
    destruct (resolveOwed_Forall2 _ _ _ _ Hloop) as (ids & Hall & _ & Hres).
    exists ids. split; [exact (Hres Hsome)|exact Hall].
  - split; [|split; [|split; [|repeat split]]].
    + destruct (String.eqb (category flags) EmptyString);
        [now injection Hcat|now apply wrap_error_ok in Hcat].
    + destruct (String.eqb (paymentMethod flags) EmptyString);
        [now injection Hmethod|now apply wrap_error_ok in Hmethod].
    + destruct (String.eqb (convertTo flags) EmptyString);
        [now injection Hcur|now apply wrap_error_ok in Hcur].
Qed.

Lemma runAdd_add_run (w : World) (configFile : option (result Config)) (env : Env)
    (now : Z) (today : Time) (ProjectID : string) (flags : AddFlags)
    (expenseName amountStr : string) :
  add_run GetProject CreateBill w configFile env now today ProjectID flags expenseName
    amountStr
    (runAdd GetProject CreateBill Sprintf_2f
       w configFile env now today ProjectID flags expenseName amountStr).
Proof.
  unfold runAdd.
  destruct (String.eqb_spec ProjectID EmptyString) as [Hid|Hid];
    [apply rejected; now left|].
  destruct (ParseFloat amountStr) as [amount|] eqn:Hamount;
    [|apply rejected; right; now left].
  destruct (config_Load configFile env) as [cfg|msg] eqn:Hcfg;
    [|apply rejected; right; right; now rewrite Hcfg].
  pose proof (acquireProject_acquired w now cfg ProjectID) as Hacq.
  destruct (acquireProject GetProject w now cfg ProjectID) as [[[w' requests] warnings] [[project|]|msg]].
  - destruct (buildBill project cfg flags today expenseName amount) as [bill|msg]
      eqn:Hbill.
    + cbv zeta. destruct (CreateBill cfg ProjectID bill) as [[]|msg] eqn:Hcreate.
      * eapply sent; [exact Hid|exact Hamount|exact Hcfg|exact Hacq|exact Hbill|].
        left. split; [reflexivity|split; [discriminate|exact Hcreate]].
      * eapply sent; [exact Hid|exact Hamount|exact Hcfg|exact Hacq|exact Hbill|].
        right. rewrite Hcreate. split; [eauto|split; reflexivity].
    + eapply not_resolved; eauto.
  - eapply nil_project; eauto.
  - eapply no_project; eauto.
Qed.

Lemma acquired_requests (w : World) (now : Z) (cfg : Config) (ProjectID : string)
    (w' : World) (requests : list request) (warnings : list string)
    (project : result (option Project)) :
  acquired GetProject w now cfg ProjectID w' requests warnings project ->
  (requests = [] /\ (Load w now ProjectID).2 = true /\ w' = w /\ warnings = []
   \/ requests = [GetProjectRequest ProjectID] /\ (Load w now ProjectID).2 = false)
  /\ (w' = w
      \/ exists fetched, GetProject cfg ProjectID = Ok fetched
                         /\ Save w now ProjectID (Some fetched) = Ok w' /\ warnings = [])
  /\ (warnings <> [] ->
      w' = w /\ exists fetched, GetProject cfg ProjectID = Ok fetched
                                /\ is_ok (Save w now ProjectID (Some fetched)) = false).
Proof.
  intros [project' Hload|msg Hload Hget|project' w1 Hload Hget Hsave
          |project' msg Hload Hget Hsave].
  - split; [left; now rewrite Hload|]. split; [now left|]. now intros [].
  - split; [now right|]. split; [now left|]. now intros [].
  - split; [now right|]. split; [right; eauto|]. now intros [].
  - split; [now right|]. split; [now left|]. intros _. split; [reflexivity|].
    exists project'. split; [exact Hget|]. now rewrite Hsave.
Qed.

Lemma fetched_project_is_saved
    (w : World) (configFile : option (result Config)) (env : Env) (now : Z)
    (today : Time) (ProjectID : string) (flags : AddFlags)
    (expenseName amountStr : string) (cfg : Config) (project : Project) :
  let first := runAdd GetProject CreateBill Sprintf_2f
                 w configFile env now today ProjectID flags expenseName amountStr in
  config_Load configFile env = Ok cfg ->
  GetProject cfg ProjectID = Ok project ->
  GetProjectRequest ProjectID ∈ run_requests first ->
  run_stderr first = [] ->
  Save w now ProjectID (Some project) = Ok (run_world first).
Proof.
  intros first Hcfg Hget Hfetched Hquiet. subst first.
  assert (Hsaved : forall w' requests warnings acq,
            acquired GetProject w now cfg ProjectID w' requests warnings acq ->
            GetProjectRequest ProjectID ∈ requests ->
            warnings = [] ->
            Save w now ProjectID (Some project) = Ok w').
  { intros w' requests warnings acq Hacq Hin Hwarn.
    inversion Hacq as [project' Hload|msg Hload Hget'|project' w1 Hload Hget' Hsave
                       |project' msg Hload Hget' Hsave]; subst.
    - now apply elem_of_nil in Hin.
    - congruence.
    - congruence.
    - discriminate. }
  destruct (runAdd_add_run w configFile env now today ProjectID flags expenseName
              amountStr)
    as [msg Hbad
       |amount cfg' w' requests warnings msg Hid Hamount Hcfg' Hacq
       |amount cfg' w' requests warnings Hid Hamount Hcfg' Hacq
       |amount cfg' w' requests warnings project' msg Hid Hamount Hcfg' Hacq Hbill
       |amount cfg' w' requests warnings project' bill stdout returned
          Hid Hamount Hcfg' Hacq Hbill Hend];
    cbn [stopped run_world run_requests run_stderr] in Hfetched, Hquiet |- *;
    try (rewrite Hcfg in Hcfg'; injection Hcfg' as <-).
  - now apply elem_of_nil in Hfetched.
  - exact (Hsaved _ _ _ _ Hacq Hfetched Hquiet).
  - exact (Hsaved _ _ _ _ Hacq Hfetched Hquiet).
  - exact (Hsaved _ _ _ _ Hacq Hfetched Hquiet).
  - apply elem_of_app in Hfetched as [Hfetched|Hfetched].
    + exact (Hsaved _ _ _ _ Hacq Hfetched Hquiet).
    + apply list_elem_of_singleton in Hfetched. discriminate.
Qed.

(** X24: the calls a run of [add] makes to the server, whatever its inputs.
    It asks for the project at most once, first, and only when the cache
    did not give one; it sends at most one bill, last, for the project it
    was asked about; before any call the project ID, the amount and the
    configuration have been checked.  It reports success on the standard
    output exactly when it returns no error, and then a bill was sent.  The
    cache is left as it was, or holds the project just fetched; a warning is
    written only when that project could not be saved. *)
Theorem add_asks_for_the_project_then_sends_one_bill
    (w : World) (configFile : option (result Config)) (env : Env) (now : Z)
    (today : Time) (ProjectID : string) (flags : AddFlags)
    (expenseName amountStr : string) :
  let r := runAdd GetProject CreateBill Sprintf_2f
             w configFile env now today ProjectID flags expenseName amountStr in
  (exists fetch create,
     run_requests r = fetch ++ create
     /\ (fetch = [] \/ fetch = [GetProjectRequest ProjectID])
     /\ (fetch <> [] -> (Load w now ProjectID).2 = false)
     /\ (create = [] \/ exists bill, create = [CreateBillRequest ProjectID bill])
     /\ (run_returned r = Some (Ok tt) -> create <> []))
  /\ (run_requests r <> [] ->
      ProjectID <> EmptyString /\ is_Some (ParseFloat amountStr)
      /\ is_ok (config_Load configFile env) = true)
  /\ (run_returned r = Some (Ok tt) <-> run_stdout r <> [])
  /\ (run_world r = w
      \/ exists cfg project,
           config_Load configFile env = Ok cfg /\ GetProject cfg ProjectID = Ok project
           /\ Save w now ProjectID (Some project) = Ok (run_world r)
           /\ run_stderr r = [])
  /\ (run_stderr r <> [] ->
      run_world r = w
      /\ exists cfg project,
           config_Load configFile env = Ok cfg /\ GetProject cfg ProjectID = Ok project
           /\ is_ok (Save w now ProjectID (Some project)) = false).
Proof.
  intros r. subst r.
  destruct (runAdd_add_run w configFile env now today ProjectID flags expenseName
              amountStr)
    as [msg Hbad
       |amount cfg w' requests warnings msg Hid Hamount Hcfg Hacq
       |amount cfg w' requests warnings Hid Hamount Hcfg Hacq
       |amount cfg w' requests warnings project msg Hid Hamount Hcfg Hacq Hbill
       |amount cfg w' requests warnings project bill stdout returned
          Hid Hamount Hcfg Hacq Hbill Hend];
    cbn [stopped run_world run_requests run_stderr run_stdout run_returned].
  - split; [exists [], []; repeat split; auto; intros; congruence|].
    split; [congruence|]. split; [split; [discriminate|congruence]|].
    split; [now left|congruence].
  - destruct (acquired_requests _ _ _ _ _ _ _ _ Hacq) as (Hreq & Hworld & Hwarn).
    split.
    { exists requests, []. rewrite app_nil_r. split; [reflexivity|].
      split; [destruct Hreq as [[-> _]|[-> _]]; auto|].
      split; [destruct Hreq as [[-> _]|[_ Hload]]; [congruence|auto]|].
      split; [now left|discriminate]. }
    split; [intros _; rewrite Hamount, Hcfg; repeat split; eauto|].
    split; [split; [discriminate|congruence]|].
    split.
    { destruct Hworld as [->|(fetched & Hget & Hsave & ->)]; [now left|].
      right. exists cfg, fetched. auto. }
    intros Hw. destruct (Hwarn Hw) as (-> & fetched & Hget & Hsave).
    split; [reflexivity|]. exists cfg, fetched. auto.
  - destruct (acquired_requests _ _ _ _ _ _ _ _ Hacq) as (Hreq & Hworld & Hwarn).
    split.
    { exists requests, []. rewrite app_nil_r. split; [reflexivity|].
      split; [destruct Hreq as [[-> _]|[-> _]]; auto|].
      split; [destruct Hreq as [[-> _]|[_ Hload]]; [congruence|auto]|].
      split; [now left|discriminate]. }
    split; [intros _; rewrite Hamount, Hcfg; repeat split; eauto|].
    split; [split; [discriminate|congruence]|].
    split.
    { destruct Hworld as [->|(fetched & Hget & Hsave & ->)]; [now left|].
      right. exists cfg, fetched. auto. }
    intros Hw. destruct (Hwarn Hw) as (-> & fetched & Hget & Hsave).
    split; [reflexivity|]. exists cfg, fetched. auto.
  - destruct (acquired_requests _ _ _ _ _ _ _ _ Hacq) as (Hreq & Hworld & Hwarn).
    split.
    { exists requests, []. rewrite app_nil_r. split; [reflexivity|].
      split; [destruct Hreq as [[-> _]|[-> _]]; auto|].
      split; [destruct Hreq as [[-> _]|[_ Hload]]; [congruence|auto]|].
      split; [now left|discriminate]. }
    split; [intros _; rewrite Hamount, Hcfg; repeat split; eauto|].
    split; [split; [discriminate|congruence]|].
    split.
    { destruct Hworld as [->|(fetched & Hget & Hsave & ->)]; [now left|].
      right. exists cfg, fetched. auto. }
    intros Hw. destruct (Hwarn Hw) as (-> & fetched & Hget & Hsave).
    split; [reflexivity|]. exists cfg, fetched. auto.
  - destruct (acquired_requests _ _ _ _ _ _ _ _ Hacq) as (Hreq & Hworld & Hwarn).
    split.
    { exists requests, [CreateBillRequest ProjectID bill]. split; [reflexivity|].
      split; [destruct Hreq as [[-> _]|[-> _]]; auto|].
      split; [destruct Hreq as [[-> _]|[_ Hload]]; [congruence|auto]|].
      split; [right; eauto|discriminate]. }
    split; [intros _; rewrite Hamount, Hcfg; repeat split; eauto|].
    split.
    { destruct Hend as [(-> & Hout & _)|((msg & ->) & -> & _)].
      - split; auto.
      - split; [discriminate|congruence]. }
    split.
    { destruct Hworld as [->|(fetched & Hget & Hsave & ->)]; [now left|].
      right. exists cfg, fetched. auto. }
    intros Hw. destruct (Hwarn Hw) as (-> & fetched & Hget & Hsave).
    split; [reflexivity|]. exists cfg, fetched. auto.
Qed.

(** X25: a bill that [add] sends is resolved against the project of the
    cache, or else the project just fetched.  Its payer is the member the
    [--by] flag names, or the configured user without the flag, and is a
    member of that project; it is owed to the payer alone without a [--for]
    flag, and otherwise to the members the flags name, one ID per flag in
    the order given, repeated names included; its category, payment mode and
    currency are 0 without their flag and otherwise an ID of the project;
    its name, amount, date and comment are the ones given.  So no bill is
    sent when one of the names does not resolve. *)
Theorem added_bill_names_members_of_the_project
    (w : World) (configFile : option (result Config)) (env : Env) (now : Z)
    (today : Time) (ProjectID : string) (flags : AddFlags)
    (expenseName amountStr : string) (projectID : string) (bill : Bill) :
  CreateBillRequest projectID bill
  ∈ run_requests (runAdd GetProject CreateBill Sprintf_2f
                    w configFile env now today ProjectID flags expenseName amountStr) ->
  projectID = ProjectID
  /\ exists cfg project,
       config_Load configFile env = Ok cfg
       /\ (Load w now ProjectID = (Some project, true)
           \/ (Load w now ProjectID).2 = false /\ GetProject cfg ProjectID = Ok project)
       /\ ResolveMember project
            (if String.eqb (paidBy flags) EmptyString then User cfg else paidBy flags)
          = Ok (Bill_PayerID bill)
       /\ id_of Member_ID (Members project) (Bill_PayerID bill)
       /\ (paidFor flags = [] -> Bill_OwedTo bill = Some [Bill_PayerID bill])
       /\ (paidFor flags <> [] ->
           Forall2 (fun username id => ResolveMember project username = Ok id)
                   (paidFor flags) (elems (Bill_OwedTo bill)))
       /\ Forall (id_of Member_ID (Members project)) (elems (Bill_OwedTo bill))
       /\ (if String.eqb (category flags) EmptyString then Bill_CategoryID bill = 0
           else id_of Category_ID (Categories project) (Bill_CategoryID bill))
       /\ (if String.eqb (paymentMethod flags) EmptyString
           then Bill_PaymentModeID bill = 0
           else id_of PaymentMode_ID (PaymentModes project) (Bill_PaymentModeID bill))
       /\ (if String.eqb (convertTo flags) EmptyString
           then Bill_OriginalCurrencyID bill = 0
           else id_of Currency_ID (Currencies project) (Bill_OriginalCurrencyID bill))
       /\ Bill_What bill = expenseName
       /\ ParseFloat amountStr = Some (Bill_Amount bill)
       /\ Bill_Date bill = Format_date today
       /\ Bill_Comment bill = comment flags.
Proof.
  intros Hsent.
  assert (Hfetch : forall w0 cfg w' requests warnings project,
            acquired GetProject w0 now cfg ProjectID w' requests warnings project ->
            CreateBillRequest projectID bill ∈ requests -> False).
  { intros w0 cfg w' requests warnings project Hacq Hin.
    destruct (acquired_requests _ _ _ _ _ _ _ _ Hacq) as ([[-> _]|[-> _]] & _).
    - now apply elem_of_nil in Hin.
    - apply list_elem_of_singleton in Hin. discriminate. }
  destruct (runAdd_add_run w configFile env now today ProjectID flags expenseName
              amountStr)
    as [msg Hbad
       |amount cfg w' requests warnings msg Hid Hamount Hcfg Hacq
       |amount cfg w' requests warnings Hid Hamount Hcfg Hacq
       |amount cfg w' requests warnings project msg Hid Hamount Hcfg Hacq Hbill
       |amount cfg w' requests warnings project sent_bill stdout returned
          Hid Hamount Hcfg Hacq Hbill Hend];
    cbn [stopped run_requests] in Hsent.
  - now apply elem_of_nil in Hsent.
  - destruct (Hfetch _ _ _ _ _ _ Hacq Hsent).
  - destruct (Hfetch _ _ _ _ _ _ Hacq Hsent).
  - destruct (Hfetch _ _ _ _ _ _ Hacq Hsent).
  - apply elem_of_app in Hsent as [Hsent|Hsent];
      [destruct (Hfetch _ _ _ _ _ _ Hacq Hsent)|].
    apply list_elem_of_singleton in Hsent. injection Hsent as -> ->.
    split; [reflexivity|]. exists cfg, project. split; [exact Hcfg|].
    split.
    { inversion Hacq as [project' Hload| |project' w1 Hload Hget Hsave
                         |project' msg Hload Hget Hsave]; subst; auto. }
    destruct (buildBill_inv _ _ _ _ _ _ _ Hbill)
      as (Hpayer & Hnone & Hsome & Hcat & Hmethod & Hcur & Hwhat & Hamt & Hdate & Hcom).
    split; [exact Hpayer|].
    split; [exact (member_of_project _ _ _ Hpayer)|].
    split; [exact Hnone|].
    split; [intros Hfor; destruct (Hsome Hfor) as (ids & -> & Hall); exact Hall|].
    split.
    { destruct (paidFor flags) as [|u us] eqn:Hfor.
      - rewrite (Hnone eq_refl). simpl. constructor; [|constructor].
        exact (member_of_project _ _ _ Hpayer).
      - destruct (Hsome ltac:(discriminate)) as (ids & -> & Hall). simpl.
        clear -Hall. induction Hall as [|u' id us' ids' Hu _ IH]; constructor;
          [exact (member_of_project _ _ _ Hu)|exact IH]. }
    split.
    { destruct (String.eqb (category flags) EmptyString); [exact Hcat|].
      exact (v1_category_of_project _ _ _ Hcat). }
    split.
    { destruct (String.eqb (paymentMethod flags) EmptyString); [exact Hmethod|].
      exact (v1_payment_mode_of_project _ _ _ Hmethod). }
    split.
    { destruct (String.eqb (convertTo flags) EmptyString); [exact Hcur|].
      exact (v1_currency_of_project _ _ _ Hcur). }
    rewrite Hamt. auto.
Qed.

(** X26: a project is fetched once an hour.  When a run of [add] has fetched
    the project and could save it (it wrote no warning), no run for the same
    project that starts within the TTL asks the server for the project
    again, whatever its other arguments are and whether it succeeds or not;
    it leaves the cache as it is and writes no warning.  The encoding of a
    time as text is taken to be read back as the same instant. *)
Theorem add_fetches_a_project_once_an_hour
    (w : World) (configFile : option (result Config)) (env : Env) (now : Z)
    (today : Time) (ProjectID : string) (flags : AddFlags)
    (expenseName amountStr : string)
    (cfg : Config) (project : Project)
    (configFile' : option (result Config)) (env' : Env) (now' : Z) (today' : Time)
    (flags' : AddFlags) (expenseName' amountStr' : string) :
  let first := runAdd GetProject CreateBill Sprintf_2f
                 w configFile env now today ProjectID flags expenseName amountStr in
  let second := runAdd GetProject CreateBill Sprintf_2f
                  (run_world first) configFile' env' now' today' ProjectID flags'
                  expenseName' amountStr' in
  (forall t s, timeMarshal t = Some s -> timeUnmarshal s = Some t) ->
  config_Load configFile env = Ok cfg ->
  GetProject cfg ProjectID = Ok project ->
  GetProjectRequest ProjectID ∈ run_requests first ->
  run_stderr first = [] ->
  now' - now <= cacheTTL ->
  forallb (fun r => negb (is_fetch r)) (run_requests second) = true
  /\ run_world second = run_world first
  /\ run_stderr second = [].
Proof.
  intros first second Htime Hcfg Hget Hfetched Hquiet Hfresh.
  assert (Hsaved : Save w now ProjectID (Some project) = Ok (run_world first)).
  { exact (fetched_project_is_saved w configFile env now today ProjectID flags
             expenseName amountStr cfg project Hcfg Hget Hfetched Hquiet). }
  destruct (Save_inv _ _ _ _ _ Hsaved) as (path & data & Hpath & Hdata & Hwrite).
  destruct (unmarshal_marshal_any _ _ _ Htime Hdata) as (loaded & Hdec & Hsome).
  assert (Hload : exists q, Load (run_world first) now' ProjectID = (Some q, true)).
  { pose proof (Load_of_document (run_world first) now' ProjectID path data _
                  (eq_trans (getCachePath_WriteFile _ _ _ _ _ Hwrite) Hpath)
                  (ReadFile_WriteFile _ _ _ _ Hwrite) Hdec) as Hl.
    simpl in Hl. rewrite (Since_fresh _ _ Hfresh) in Hl.
    destruct loaded as [q|]; [now exists q|].
    destruct Hsome as [_ Hnone]. now specialize (Hnone eq_refl). }
  destruct Hload as [q Hload].
  assert (Hcached : forall cfg' w' requests warnings acq,
            acquired GetProject (run_world first) now' cfg' ProjectID w' requests warnings
              acq ->
            requests = [] /\ w' = run_world first /\ warnings = []).
  { intros cfg' w' requests warnings acq Hacq.
    destruct (acquired_requests _ _ _ _ _ _ _ _ Hacq) as ([H|[_ H]] & _).
    - tauto.
    - rewrite Hload in H. discriminate. }
  unfold second.
  destruct (runAdd_add_run (run_world first) configFile' env' now' today' ProjectID
              flags' expenseName' amountStr')
    as [msg Hbad
       |amount cfg' w' requests warnings msg Hid Hamount Hcfg' Hacq
       |amount cfg' w' requests warnings Hid Hamount Hcfg' Hacq
       |amount cfg' w' requests warnings project' msg Hid Hamount Hcfg' Hacq Hbill
       |amount cfg' w' requests warnings project' bill stdout returned
          Hid Hamount Hcfg' Hacq Hbill Hend];
    cbn [stopped run_world run_requests run_stderr];
    try (destruct (Hcached _ _ _ _ _ Hacq) as (-> & -> & ->));
    repeat split.
Qed.

(** X27: a cache entry without a project makes [add] panic.  When the cache
    file of the project decodes to a fresh timestamp and no project, as a
    document with only the [cached_at] member does, a run whose arguments
    and configuration are in order dereferences the nil project: it ends in
    a panic, having made no call to the server and printed nothing, and
    leaves the file in place, so that every run within the TTL ends so. *)
Theorem add_panics_on_a_cache_entry_without_a_project
    (w : World) (configFile : option (result Config)) (env : Env) (now now' : Z)
    (today : Time) (ProjectID : string) (flags : AddFlags)
    (expenseName amountStr : string) (path : string) (data : json) :
  ProjectID <> EmptyString ->
  is_Some (ParseFloat amountStr) ->
  is_ok (config_Load configFile env) = true ->
  getCachePath w ProjectID = Ok path ->
  ReadFile w path = Some (Document data) ->
  unmarshalCachedProject data = Ok {| cp_Project := None; cp_CachedAt := now |} ->
  now' - now <= cacheTTL ->
  let r := runAdd GetProject CreateBill Sprintf_2f
             w configFile env now' today ProjectID flags expenseName amountStr in
  run_returned r = None /\ run_requests r = [] /\ run_stdout r = []
  /\ run_stderr r = [] /\ run_world r = w.
Proof.
  intros Hid [amount Hamount] Hcfg Hpath Hfile Hdec Hfresh.
  pose proof (Load_of_document w now' ProjectID path data _ Hpath Hfile Hdec) as Hload.
  simpl in Hload. rewrite (Since_fresh _ _ Hfresh) in Hload.
  unfold runAdd, acquireProject. apply String.eqb_neq in Hid. rewrite Hid, Hamount.
  destruct (config_Load configFile env) as [cfg|msg]; [|discriminate].
  rewrite Hload. repeat split.
Qed.

End AddProperties.

Lemma added_bill_names_members_of_the_project_witness :
  CreateBillRequest "demo" lunch
  ∈ run_requests (runAdd food_server accepting two_decimals example_world None
                    example_env 1000 example_now "demo" no_add_flags "Lunch" "49.99")
  /\ exists cfg project,
       config_Load None example_env = Ok cfg
       /\ ResolveMember project (User cfg) = Ok 1
       /\ id_of Member_ID (Members project) 1.
Proof.
  assert (Hsent : CreateBillRequest "demo" lunch
                  ∈ run_requests (runAdd food_server accepting two_decimals
                                    example_world None example_env 1000 example_now
                                    "demo" no_add_flags "Lunch" "49.99")).
  { apply list_elem_of_In. vm_compute. right. left. reflexivity. }
  split; [exact Hsent|].
  destruct (added_bill_names_members_of_the_project food_server accepting two_decimals
              example_world None example_env 1000 example_now "demo" no_add_flags
              "Lunch" "49.99" "demo" lunch Hsent)
    as (_ & cfg & project & Hcfg & _ & Hpayer & Hmember & _).
  exists cfg, project. split; [exact Hcfg|]. split; [exact Hpayer|exact Hmember].
Defined.

Lemma add_fetches_a_project_once_an_hour_witness :
  GetProjectRequest "demo"
  ∈ run_requests (runAdd food_server accepting two_decimals example_world None
                    example_env 1000 example_now "demo" no_add_flags "Lunch" "49.99")
  /\ forallb (fun r => negb (is_fetch r))
       (run_requests
          (runAdd food_server accepting two_decimals
             (run_world (runAdd food_server accepting two_decimals example_world None
                           example_env 1000 example_now "demo" no_add_flags "Lunch"
                           "49.99"))
             None example_env (1000 + cacheTTL) example_now "demo" no_add_flags
             "Dinner" "49.99")) = true.
Proof.
  assert (Hfetched : GetProjectRequest "demo"
                     ∈ run_requests (runAdd food_server accepting two_decimals
                                       example_world None example_env 1000 example_now
                                       "demo" no_add_flags "Lunch" "49.99")).
  { apply list_elem_of_In. vm_compute. left. reflexivity. }
  split; [exact Hfetched|].
  refine (proj1 (add_fetches_a_project_once_an_hour food_server accepting two_decimals
                   example_world None example_env 1000 example_now "demo" no_add_flags
                   "Lunch" "49.99" example_config project_food
                   None example_env (1000 + cacheTTL) example_now no_add_flags
                   "Dinner" "49.99"
                   ascii_std_time_roundtrip eq_refl eq_refl Hfetched _ _)).
  - vm_compute. reflexivity.
  - lia.
Defined.

Lemma add_panics_on_a_cache_entry_without_a_project_witness :
  run_returned
    (runAdd food_server accepting two_decimals
       (world_with expired_path (Readable (Document (JObj [("cached_at", JStr "0")]))))
       None example_env 5 example_now "expired-project" no_add_flags "Lunch" "49.99")
  = None.
Proof.
  refine (proj1 (add_panics_on_a_cache_entry_without_a_project food_server accepting
                   two_decimals
                   (world_with expired_path
                      (Readable (Document (JObj [("cached_at", JStr "0")]))))
                   None example_env 0 5 example_now "expired-project" no_add_flags
                   "Lunch" "49.99" expired_path (JObj [("cached_at", JStr "0")])
                   _ _ eq_refl eq_refl eq_refl eq_refl _)).
  - discriminate.
  - vm_compute. eauto.
  - vm_compute. discriminate.
Defined.

(** ** The server address *)

Lemma TrimRight_idempotent (s : string) (c : ascii) :
  TrimRight (TrimRight s c) c = TrimRight s c.
Proof.
  induction s as [|a s IH]; [reflexivity|]. simpl.
  destruct (TrimRight s c) as [|b t] eqn:Ht.
  - destruct (Ascii.eqb a c) eqn:Ha; [reflexivity|]. simpl. now rewrite Ha.
  - cbn [TrimRight]. cbn [TrimRight] in IH. now rewrite IH.
Qed.

Lemma TrimRight_append (p s : string) (c : ascii) :
  s <> EmptyString -> TrimRight s c = s -> TrimRight (p +:+ s) c = p +:+ s.
Proof.
  intros Hs Htrim. induction p as [|a p IH].
  - now rewrite append_nil.
  - rewrite append_cons. cbn [TrimRight]. rewrite IH.
    destruct (p +:+ s) as [|b t] eqn:Hp; [|reflexivity].
    destruct p; [rewrite append_nil in Hp; contradiction|].
    rewrite append_cons in Hp. discriminate.
Qed.

Section ServerAddress.
Context `{std : GoStd}.

(** X28: [NormalizeURL] on an address that is more than slashes, for a
    [ToLower] that leaves the scheme in front of a text as it is.  The
    result carries a scheme and no trailing slash, and normalising it again
    changes nothing.  An address made of slashes only, the empty one
    included, is different: it becomes [https://], and normalising that
    gives [https://https:]. *)
Theorem NormalizeURL_settles_after_one_step (url : string) :
  (forall s, HasPrefix (ToLower ("https://" +:+ s)) "https://" = true) ->
  (TrimRight url "/" <> EmptyString ->
   NormalizeURL (NormalizeURL url) = NormalizeURL url
   /\ TrimRight (NormalizeURL url) "/" = NormalizeURL url
   /\ (HasPrefix (ToLower (NormalizeURL url)) "http://"
       || HasPrefix (ToLower (NormalizeURL url)) "https://") = true)
  /\ (TrimRight url "/" = EmptyString ->
      ToLower EmptyString = EmptyString -> ToLower "https:" = "https:" ->
      NormalizeURL url = "https://"
      /\ NormalizeURL (NormalizeURL url) = "https://https:").
Proof.
  intros Hscheme. split.
  - intros Hhost.
    assert (Hn : NormalizeURL url
                 = if negb (HasPrefix (ToLower (TrimRight url "/")) "http://")
                      && negb (HasPrefix (ToLower (TrimRight url "/")) "https://")
                   then "https://" +:+ TrimRight url "/" else TrimRight url "/")
      by reflexivity.
    rewrite Hn. clear Hn.
    set (u := TrimRight url "/") in *.
    assert (Hu : TrimRight u "/" = u) by apply TrimRight_idempotent.
    destruct (negb (HasPrefix (ToLower u) "http://")
              && negb (HasPrefix (ToLower u) "https://")) eqn:Hno.
    + assert (Ht : TrimRight ("https://" +:+ u) "/" = "https://" +:+ u)
        by now apply TrimRight_append.
      split; [|split].
      * unfold NormalizeURL. cbv zeta. rewrite Ht, Hscheme.
        now rewrite andb_false_r.
      * exact Ht.
      * rewrite Hscheme. apply orb_true_r.
    + split; [|split].
      * unfold NormalizeURL. cbv zeta. now rewrite Hu, Hno.
      * exact Hu.
      * destruct (HasPrefix (ToLower u) "http://"); [reflexivity|].
        destruct (HasPrefix (ToLower u) "https://"); [reflexivity|discriminate].
  - intros Hempty Hlow Hlow'.
    assert (Hfirst : NormalizeURL url = "https://").
    { unfold NormalizeURL. cbv zeta. rewrite Hempty, Hlow. reflexivity. }
    split; [exact Hfirst|]. rewrite Hfirst. unfold NormalizeURL. cbv zeta.
    change (TrimRight "https://" "/") with "https:"%string. rewrite Hlow'. reflexivity.
Qed.

End ServerAddress.

Lemma NormalizeURL_settles_after_one_step_witness :
  NormalizeURL (NormalizeURL "Cloud.Example.com//") = NormalizeURL "Cloud.Example.com//"
  /\ NormalizeURL "Cloud.Example.com//" = "https://Cloud.Example.com"
  /\ NormalizeURL (NormalizeURL "/") = "https://https:".
Proof.
  assert (Hscheme : forall s, HasPrefix (ToLower ("https://" +:+ s)) "https://" = true).
  { intros s. unfold HasPrefix. rewrite !append_cons, append_nil.
    cbn [ToLower ascii_std ascii_ToLower].
    destruct (ascii_ToLower s); vm_compute; reflexivity. }
  split; [|split].
  - exact (proj1 (proj1 (NormalizeURL_settles_after_one_step "Cloud.Example.com//"
                           Hscheme) ltac:(discriminate))).
  - reflexivity.
  - exact (proj2 (proj2 (NormalizeURL_settles_after_one_step "/" Hscheme)
                    eq_refl eq_refl eq_refl)).
Defined.

(** ** Tables *)

Section TableProperties.
Variable StringWidth : string -> Z.

Lemma widen_spec (values : list string) (i : nat) (widths : list Z) :
  (i + length values <= length widths)%nat ->
  exists widths',
    widen StringWidth i values widths = Some widths'
    /\ length widths' = length widths
    /\ forall j,
         widths' !! j
         = match widths !! j with
           | None => None
           | Some old =>
               Some (match (if decide (i <= j)%nat then values !! (j - i)%nat else None)
                     with
                     | Some v => Z.max old (StringWidth v)
                     | None => old
                     end)
           end.
Proof.
  revert i widths. induction values as [|v rest IH]; intros i widths Hlen.
  - exists widths. split; [reflexivity|]. split; [reflexivity|].
    intros j. destruct (widths !! j); [|reflexivity].
    destruct (decide (i <= j)%nat); [now rewrite lookup_nil|reflexivity].
  - simpl in Hlen. simpl.
    destruct (lookup_lt_is_Some_2 widths i ltac:(lia)) as [old Hold]. rewrite Hold.
    set (widths1 := if old <? StringWidth v then <[i := StringWidth v]> widths
                    else widths).
    assert (Hlen1 : length widths1 = length widths).
    { unfold widths1. destruct (old <? StringWidth v); [apply length_insert|reflexivity]. }
    assert (Hat : widths1 !! i = Some (Z.max old (StringWidth v))).
    { unfold widths1. destruct (Z.ltb_spec old (StringWidth v)).
      - rewrite list_lookup_insert_eq by lia. f_equal. lia.
      - rewrite Hold. f_equal. lia. }
    assert (Hother : forall j, j <> i -> widths1 !! j = widths !! j).
    { intros j Hj. unfold widths1. destruct (old <? StringWidth v); [|reflexivity].
      now apply list_lookup_insert_ne. }
    destruct (IH (S i) widths1 ltac:(lia)) as (widths' & Hrun & Hlen' & Hget).
    exists widths'. split; [exact Hrun|]. split; [congruence|].
    intros j. rewrite Hget. destruct (decide (j = i)) as [->|Hj].
    + rewrite Hat, Hold. destruct (decide (S i <= i)%nat); [lia|].
      destruct (decide (i <= i)%nat); [|lia]. now rewrite Nat.sub_diag.
    + rewrite (Hother j Hj). destruct (widths !! j) as [old'|]; [|reflexivity].
      destruct (decide (S i <= j)%nat), (decide (i <= j)%nat); try lia; [|reflexivity].
      replace (j - i)%nat with (S (j - S i)) by lia. reflexivity.
Qed.

Lemma widen_out_of_range (values : list string) (i : nat) (widths : list Z) :
  (i <= length widths < i + length values)%nat ->
  widen StringWidth i values widths = None.
Proof.
  revert i widths. induction values as [|v rest IH]; intros i widths Hlen;
    simpl in Hlen; [lia|]. simpl.
  destruct (widths !! i) as [old|] eqn:Hold; [|reflexivity].
  apply lookup_lt_Some in Hold. apply IH.
  destruct (old <? StringWidth v); [rewrite length_insert|]; lia.
Qed.

Lemma fitted_length (n : nat) (values : list string) : length (fitted n values) = n.
Proof.
  unfold fitted. rewrite length_take, length_app, length_replicate. lia.
Qed.

Lemma AddRow_fitted (t : Table) (values : list string) :
  AddRow StringWidth t values
  = match widen StringWidth 0 (fitted (length (headers t)) values) (colWidths t) with
    | None => None
    | Some widths =>
        Some {| headers := headers t;
                rows := rows t ++ [fitted (length (headers t)) values];
                colWidths := widths |}
    end.
Proof.
  unfold AddRow. cbv zeta.
  assert (Hfit : (if (length (headers t)
                      <? length (values ++ replicate (length (headers t) - length values)
                                             EmptyString))%nat
                  then take (length (headers t))
                         (values ++ replicate (length (headers t) - length values)
                                      EmptyString)
                  else values ++ replicate (length (headers t) - length values)
                                   EmptyString)
                 = fitted (length (headers t)) values).
  { unfold fitted. destruct (Nat.ltb_spec (length (headers t))
                               (length (values ++ replicate
                                                    (length (headers t) - length values)
                                                    EmptyString))); [reflexivity|].
    symmetry. now apply take_ge. }
  now rewrite Hfit.
Qed.

Lemma widest_snoc (cells : list string) (cell : string) (w : Z) :
  widest StringWidth cells w ->
  widest StringWidth (cells ++ [cell]) (Z.max w (StringWidth cell)).
Proof.
  intros [Hall (top & Hin & Htop)]. split.
  - apply Forall_app. split.
    + eapply Forall_impl; [exact Hall|]. intros c Hc. simpl in Hc. lia.
    + constructor; [lia|constructor].
  - destruct (Z.le_ge_cases (StringWidth cell) w).
    + exists top. split; [apply elem_of_app; now left|lia].
    + exists cell. split; [apply elem_of_app; right; now left|lia].
Qed.

Lemma column_snoc (t : Table) (row : list string) (i : nat) (cell : string) :
  row !! i = Some cell ->
  column {| headers := headers t; rows := rows t ++ [row]; colWidths := colWidths t |} i
  = column t i ++ [cell].
Proof.
  intros Hcell. unfold column. cbn [headers rows].
  change (headers t :: rows t ++ [row]) with ((headers t :: rows t) ++ [row]).
  rewrite omap_app. simpl. now rewrite Hcell.
Qed.

Lemma NewTable_ok (hs : list string) : table_ok StringWidth (NewTable StringWidth hs).
Proof.
  split; [apply length_map|]. split; [constructor|].
  intros i w Hw. unfold NewTable in Hw. cbn [colWidths] in Hw.
  rewrite list_lookup_fmap in Hw.
  destruct (hs !! i) as [h|] eqn:Hh; [|discriminate]. injection Hw as <-.
  unfold column, NewTable. cbn [headers rows]. simpl. rewrite Hh. split.
  - constructor; [lia|constructor].
  - exists h. split; [left|reflexivity].
Qed.

Lemma AddRow_ok (t : Table) (values : list string) :
  table_ok StringWidth t ->
  exists t',
    AddRow StringWidth t values = Some t'
    /\ headers t' = headers t
    /\ rows t' = rows t ++ [fitted (length (headers t)) values]
    /\ table_ok StringWidth t'.
Proof.
  intros (Hlen & Hrows & Hwidths). rewrite AddRow_fitted.
  set (row := fitted (length (headers t)) values).
  assert (Hrow : length row = length (headers t)) by apply fitted_length.
  destruct (widen_spec row 0 (colWidths t) ltac:(lia)) as (widths & -> & Hlen' & Hget).
  eexists. split; [reflexivity|]. cbn [headers rows colWidths].
  split; [reflexivity|]. split; [reflexivity|].
  unfold table_ok. cbn [headers rows colWidths].
  split; [congruence|]. split.
  - apply Forall_app. split; [exact Hrows|]. constructor; [exact Hrow|constructor].
  - intros i w Hw. rewrite Hget in Hw.
    destruct (colWidths t !! i) as [old|] eqn:Hold; [|discriminate].
    destruct (decide (0 <= i)%nat); [|lia]. rewrite Nat.sub_0_r in Hw.
    destruct (lookup_lt_is_Some_2 row i) as [cell Hcell].
    { apply lookup_lt_Some in Hold. lia. }
    rewrite Hcell in Hw. injection Hw as <-.
    pose proof (column_snoc t row i cell Hcell) as Hcol.
    unfold column in Hcol |- *. cbn [headers rows] in Hcol |- *. rewrite Hcol.
    apply widest_snoc. exact (Hwidths i old Hold).
Qed.

Lemma AddRows_ok (calls : list (list string)) (t : Table) :
  table_ok StringWidth t ->
  exists t',
    AddRows StringWidth t calls = Some t'
    /\ headers t' = headers t
    /\ rows t' = rows t ++ map (fitted (length (headers t))) calls
    /\ table_ok StringWidth t'.
Proof.
  revert t. induction calls as [|values rest IH]; intros t Hok.
  - exists t. simpl. rewrite app_nil_r. auto.
  - destruct (AddRow_ok t values Hok) as (t1 & Hadd & Hh & Hr & Hok1).
    destruct (IH t1 Hok1) as (t' & Hrest & Hh' & Hr' & Hok').
    exists t'. simpl. rewrite Hadd. split; [exact Hrest|].
    split; [congruence|]. split; [|exact Hok'].
    rewrite Hr', Hr, Hh, <- app_assoc. reflexivity.
Qed.

(** X29: the tables the commands print.  However many values each [AddRow]
    call is given, a table made by [NewTable] takes every row without an
    index panic; it keeps its headers and holds one row per call, in the
    order of the calls, each with exactly one cell per header: the values
    given, cut after the last column or filled up with empty cells.  Every
    column has a width, and it is the largest width among the header and the
    cells of that column, so that no cell is wider than its column.  A table
    with fewer widths than headers, which these two functions never produce,
    would panic on its next row. *)
Theorem table_columns_are_as_wide_as_their_widest_cell
    (hs : list string) (calls : list (list string)) :
  (exists t,
     AddRows StringWidth (NewTable StringWidth hs) calls = Some t
     /\ headers t = hs
     /\ rows t = map (fitted (length hs)) calls
     /\ Forall (fun row => length row = length hs) (rows t)
     /\ length (colWidths t) = length hs
     /\ forall i, (i < length hs)%nat ->
                  exists w, colWidths t !! i = Some w
                            /\ widest StringWidth (column t i) w)
  /\ (forall t values,
        (length (colWidths t) < length (headers t))%nat ->
        AddRow StringWidth t values = None).
Proof.
  split.
  - destruct (AddRows_ok calls _ (NewTable_ok hs))
      as (t & Hrun & Hh & Hr & Hlen & Hrows & Hwidths).
    cbn [NewTable headers rows] in Hh, Hr. simpl in Hr.
    exists t. split; [exact Hrun|]. split; [exact Hh|]. split; [exact Hr|].
    rewrite Hh in Hrows, Hlen. split; [exact Hrows|]. split; [exact Hlen|].
    intros i Hi. destruct (lookup_lt_is_Some_2 (colWidths t) i) as [w Hw]; [lia|].
    exists w. split; [exact Hw|exact (Hwidths i w Hw)].
  - intros t values Hshort. rewrite AddRow_fitted.
    rewrite widen_out_of_range; [reflexivity|]. rewrite fitted_length. lia.
Qed.

End TableProperties.

Lemma table_columns_are_as_wide_as_their_widest_cell_witness :
  exists t,
    AddRows byte_width (NewTable byte_width ["ID"; "NAME"])
      [["7"]; ["12"; "Groceries"; "dropped"]] = Some t
    /\ rows t = [["7"; EmptyString]; ["12"; "Groceries"]]
    /\ colWidths t = [2; 9].
Proof.
  destruct (table_columns_are_as_wide_as_their_widest_cell byte_width ["ID"; "NAME"]
              [["7"]; ["12"; "Groceries"; "dropped"]])
    as [(t & Hrun & _ & Hrows & _) _].
  exists t. split; [exact Hrun|]. split; [exact Hrows|].
  vm_compute in Hrun. injection Hrun as <-. reflexivity.
Defined.
